(** * libnetfilter_log: a shallow embedding of [src/libnetfilter_log.c]

    The development follows the layout of the C file:

    - byte order and typed reads from an attribute's byte span;
    - the attribute view [nflog_data] and the record accessors
      ([nflog_get_indev], [nflog_get_uid], [nflog_get_timestamp], ...);
    - the nested walk of [nflog_get_ctid];
    - the session: group registry ([find_gh], [add_gh], [del_gh]),
      configuration commands and packet dispatch ([__nflog_rcv_pkt]);
    - the bounded XML formatter ([SNPRINTF_FAILURE], [nflog_snprintf_xml]).

    What the library calls in libc, libnfnetlink and libmnl is not part of
    the file; those calls are embedded after their documented behaviour and
    every such definition says so. *)

From Stdlib Require Import ZArith List Bool Lia String Ascii.
From Stdlib.Strings Require Import Byte.
From Stdlib Require Decimal Hexadecimal.
Import ListNotations.

Local Open Scope Z_scope.

Set Implicit Arguments.

(* ================================================================== *)
(** * Machine integers and bytes *)
(* ================================================================== *)

(** Value of a byte as an integer in [0, 255]. *)
Definition bz (b : byte) : Z := Z.of_N (Byte.to_N b).

(** Conversions to the unsigned types of the C code, wrap-around written
    out. *)
Definition u8 (x : Z) : Z := x mod 2 ^ 8.
Definition u16 (x : Z) : Z := x mod 2 ^ 16.
Definition u32 (x : Z) : Z := x mod 2 ^ 32.
Definition u64 (x : Z) : Z := x mod 2 ^ 64.

(** Conversion of a 64-bit pattern to [long] ([time_t], [suseconds_t] on
    LP64 Linux). *)
Definition s64 (x : Z) : Z :=
  let y := u64 x in if y <? 2 ^ 63 then y else y - 2 ^ 64.

(** Big-endian (network order) and little-endian values of byte strings. *)
Fixpoint be_value (bs : list byte) : Z :=
  match bs with
  | [] => 0
  | b :: r => bz b * 2 ^ (8 * Z.of_nat (List.length r)) + be_value r
  end.

Fixpoint le_value (bs : list byte) : Z :=
  match bs with
  | [] => 0
  | b :: r => bz b + 2 ^ 8 * le_value r
  end.

(** The [k]-th byte (from the least significant one) of [x]. *)
Definition byte_of (x : Z) (k : Z) : Z := (x / 2 ^ (8 * k)) mod 2 ^ 8.

(** Byte swaps, as [bswap_16], [bswap_32], [bswap_64] of <byteswap.h>. *)
Definition bswap16 (x : Z) : Z :=
  byte_of x 0 * 2 ^ 8 + byte_of x 1.

Definition bswap32 (x : Z) : Z :=
  byte_of x 0 * 2 ^ 24 + byte_of x 1 * 2 ^ 16 + byte_of x 2 * 2 ^ 8 + byte_of x 3.

Definition bswap64 (x : Z) : Z :=
  byte_of x 0 * 2 ^ 56 + byte_of x 1 * 2 ^ 48 + byte_of x 2 * 2 ^ 40
  + byte_of x 3 * 2 ^ 32 + byte_of x 4 * 2 ^ 24 + byte_of x 5 * 2 ^ 16
  + byte_of x 6 * 2 ^ 8 + byte_of x 7.

(* ================================================================== *)
(** * Host byte order

    The netlink headers are in host order, the attribute payloads in
    network order.  The byte order of the host is a parameter of the
    development. *)
(* ================================================================== *)

Class Host : Set := { host_big_endian : bool }.

Section ByteOrder.

Context {host : Host}.

(** [*(uintN_t * )p]: the value the host loads from the first [n] bytes of
    [p]; [None] when [p] holds fewer bytes, that is when the load leaves
    the span [p] stands for.  What lies behind the payload of an attribute
    (its alignment padding, the next attribute, the end of the message) is
    not part of the embedding: [None] says that the embedding has no value
    for such a load, not what the machine reads there. *)
Definition load (n : nat) (p : list byte) : option Z :=
  if (n <=? List.length p)%nat
  then Some (if host_big_endian then be_value (firstn n p)
             else le_value (firstn n p))
  else None.

Definition load_u8 : list byte -> option Z := load 1.
Definition load_u16 : list byte -> option Z := load 2.
Definition load_u32 : list byte -> option Z := load 4.
Definition load_u64 : list byte -> option Z := load 8.

(** [ntohs], [ntohl], [htons], [htonl] of <arpa/inet.h> and
    [__be64_to_cpu] of the kernel headers: the identity on a big-endian
    host, a byte swap otherwise. *)
Definition ntohs (x : Z) : Z := if host_big_endian then x else bswap16 x.
Definition ntohl (x : Z) : Z := if host_big_endian then x else bswap32 x.
Definition __be64_to_cpu (x : Z) : Z := if host_big_endian then x else bswap64 x.
Definition htons (x : Z) : Z := ntohs x.
Definition htonl (x : Z) : Z := ntohl x.

End ByteOrder.

(* ================================================================== *)
(** * The attribute view of one received message *)
(* ================================================================== *)

(** Attribute types of a packet message ([enum nfulnl_attr_type]); the
    members the library reads. *)
Inductive nfulnl_attr_type : Set :=
| NFULA_PACKET_HDR
| NFULA_MARK
| NFULA_TIMESTAMP
| NFULA_IFINDEX_INDEV
| NFULA_IFINDEX_OUTDEV
| NFULA_IFINDEX_PHYSINDEV
| NFULA_IFINDEX_PHYSOUTDEV
| NFULA_HWADDR
| NFULA_PAYLOAD
| NFULA_PREFIX
| NFULA_UID
| NFULA_SEQ
| NFULA_SEQ_GLOBAL
| NFULA_GID
| NFULA_HWTYPE
| NFULA_HWHEADER
| NFULA_HWLEN
| NFULA_CT.

Definition nfula_eq_dec (a b : nfulnl_attr_type) : {a = b} + {a <> b}.
Proof. decide equality. Defined.

(** One attribute of the message: the byte span [NFA_DATA] points to; its
    length is what [NFA_PAYLOAD] reports. *)
Record nfattr : Set := { NFA_DATA : list byte }.

Definition NFA_PAYLOAD (a : nfattr) : Z := Z.of_nat (List.length (NFA_DATA a)).

(** [struct nfattr *nfa[]], the table the transport fills for one message:
    [nfa[attr - 1]] is the attribute of type [attr] or [NULL]. *)
Definition nfattr_table : Set := nfulnl_attr_type -> option nfattr.

(** [struct nflog_data]. *)
Record nflog_data : Set := { nfa : nfattr_table }.

(** Tables for examples: the empty one, and one more attribute. *)
Definition nfa_none : nfattr_table := fun _ => None.

Definition nfa_put (tb : nfattr_table) (attr : nfulnl_attr_type)
           (a : option nfattr) : nfattr_table :=
  fun x => if nfula_eq_dec x attr then a else tb x.

Definition attr_of (bs : list byte) : option nfattr := Some {| NFA_DATA := bs |}.

(** Reads that may leave a span: [None] stands for such a read. *)
Notation "x <- m ;; k" := (match m with Some x => k | None => None end)
  (at level 61, m at next level, right associativity).

(** [struct timeval]. *)
Record timeval : Set := { tv_sec : Z; tv_usec : Z }.

Section Accessors.

Context {host : Host}.

(** ** The attribute macros of libnfnetlink

    [nfnl_attr_present(tb, attr)] is [tb[attr-1]];
    [nfnl_get_pointer_to_data] yields [NFA_DATA(tb[attr-1])] or [NULL];
    [nfnl_get_data(tb, attr, type)] yields [*(type * )NFA_DATA(tb[attr-1])],
    and [0] when the attribute is absent. *)
Definition nfnl_attr_present (tb : nfattr_table) (attr : nfulnl_attr_type) : bool :=
  match tb attr with Some _ => true | None => false end.

Definition nfnl_get_pointer_to_data (tb : nfattr_table) (attr : nfulnl_attr_type)
  : option (list byte) :=
  option_map NFA_DATA (tb attr).

Definition nfnl_get_data (ld : list byte -> option Z) (tb : nfattr_table)
           (attr : nfulnl_attr_type) : option Z :=
  match tb attr with
  | Some a => ld (NFA_DATA a)
  | None => Some 0
  end.

(** ** Message parsing functions *)

(** Fields of [struct nfulnl_msg_packet_hdr]
    [{ __be16 hw_protocol; uint8_t hook; uint8_t _pad; }]. *)
Definition hw_protocol (ph : list byte) : option Z := load_u16 ph.
Definition hook (ph : list byte) : option Z := load_u8 (skipn 2 ph).

(** Fields of [struct nfulnl_msg_packet_hw]
    [{ __be16 hw_addrlen; uint16_t _pad; uint8_t hw_addr[8]; }]. *)
Definition hw_addrlen (hwph : list byte) : option Z := load_u16 hwph.
Definition hw_addr (hwph : list byte) (i : nat) : option byte :=
  nth_error (skipn 4 hwph) i.

Definition nflog_get_msg_packet_hdr (nfad : nflog_data) : option (list byte) :=
  nfnl_get_pointer_to_data (nfa nfad) NFULA_PACKET_HDR.

Definition nflog_get_hwtype (nfad : nflog_data) : option Z :=
  option_map ntohs (nfnl_get_data load_u16 (nfa nfad) NFULA_HWTYPE).

Definition nflog_get_msg_packet_hwhdrlen (nfad : nflog_data) : option Z :=
  option_map ntohs (nfnl_get_data load_u16 (nfa nfad) NFULA_HWLEN).

Definition nflog_get_msg_packet_hwhdr (nfad : nflog_data) : option (list byte) :=
  nfnl_get_pointer_to_data (nfa nfad) NFULA_HWHEADER.

Definition nflog_get_nfmark (nfad : nflog_data) : option Z :=
  option_map ntohl (nfnl_get_data load_u32 (nfa nfad) NFULA_MARK).

(** [nflog_get_timestamp(nfad, tv)]: the return value and [*tv] after the
    call.  [uts->sec] and [uts->usec] are the two 64-bit halves of
    [struct nfulnl_msg_packet_timestamp]. *)
Definition nflog_get_timestamp (nfad : nflog_data) (tv : timeval)
  : option (Z * timeval) :=
  match nfnl_get_pointer_to_data (nfa nfad) NFULA_TIMESTAMP with
  | None => Some (-1, tv)
  | Some uts =>
      sec <- load_u64 uts ;;
      usec <- load_u64 (skipn 8 uts) ;;
      Some (0, {| tv_sec := s64 (__be64_to_cpu sec);
                  tv_usec := s64 (__be64_to_cpu usec) |})
  end.

Definition nflog_get_indev (nfad : nflog_data) : option Z :=
  option_map ntohl (nfnl_get_data load_u32 (nfa nfad) NFULA_IFINDEX_INDEV).

Definition nflog_get_physindev (nfad : nflog_data) : option Z :=
  option_map ntohl (nfnl_get_data load_u32 (nfa nfad) NFULA_IFINDEX_PHYSINDEV).

Definition nflog_get_outdev (nfad : nflog_data) : option Z :=
  option_map ntohl (nfnl_get_data load_u32 (nfa nfad) NFULA_IFINDEX_OUTDEV).

Definition nflog_get_physoutdev (nfad : nflog_data) : option Z :=
  option_map ntohl (nfnl_get_data load_u32 (nfa nfad) NFULA_IFINDEX_PHYSOUTDEV).

Definition nflog_get_packet_hw (nfad : nflog_data) : option (list byte) :=
  nfnl_get_pointer_to_data (nfa nfad) NFULA_HWADDR.

(** [nflog_get_payload(nfad, &data)]: the return value and [*data] after
    the call. *)
Definition nflog_get_payload (nfad : nflog_data) : Z * option (list byte) :=
  let data := nfnl_get_pointer_to_data (nfa nfad) NFULA_PAYLOAD in
  match data, nfa nfad NFULA_PAYLOAD with
  | Some _, Some a => (NFA_PAYLOAD a, data)
  | _, _ => (-1, data)
  end.

Definition nflog_get_prefix (nfad : nflog_data) : option (list byte) :=
  nfnl_get_pointer_to_data (nfa nfad) NFULA_PREFIX.

(** The four accessors below take the current content of the cell their
    second argument points to, and give the return value with the content
    of the cell after the call. *)
Definition nflog_get_uid (nfad : nflog_data) (uid : Z) : option (Z * Z) :=
  if negb (nfnl_attr_present (nfa nfad) NFULA_UID) then Some (-1, uid)
  else v <- nfnl_get_data load_u32 (nfa nfad) NFULA_UID ;; Some (0, ntohl v).

Definition nflog_get_gid (nfad : nflog_data) (gid : Z) : option (Z * Z) :=
  if negb (nfnl_attr_present (nfa nfad) NFULA_GID) then Some (-1, gid)
  else v <- nfnl_get_data load_u32 (nfa nfad) NFULA_GID ;; Some (0, ntohl v).

Definition nflog_get_seq (nfad : nflog_data) (seq : Z) : option (Z * Z) :=
  if negb (nfnl_attr_present (nfa nfad) NFULA_SEQ) then Some (-1, seq)
  else v <- nfnl_get_data load_u32 (nfa nfad) NFULA_SEQ ;; Some (0, ntohl v).

Definition nflog_get_seq_global (nfad : nflog_data) (seq : Z) : option (Z * Z) :=
  if negb (nfnl_attr_present (nfa nfad) NFULA_SEQ_GLOBAL) then Some (-1, seq)
  else v <- nfnl_get_data load_u32 (nfa nfad) NFULA_SEQ_GLOBAL ;; Some (0, ntohl v).

End Accessors.

(* ================================================================== *)
(** * The conntrack id: a nested attribute walk *)
(* ================================================================== *)

(** The attribute helpers of libmnl.  A [struct nlattr *] inside a nest is
    embedded as the bytes from the attribute header to the end of the nest,
    so that the length left in the nest is the length of that list.  The
    header is [{ uint16_t nla_len; uint16_t nla_type; }], in host order. *)

Definition MNL_ATTR_HDRLEN : Z := 4.
Definition MNL_ALIGN (len : Z) : Z := Z.land (len + 3) (Z.lnot 3).
Definition NLA_TYPE_MASK : Z := 16383.

(** [CTA_ID] of [enum ctattr_type] (linux/netfilter/nfnetlink_conntrack.h). *)
Definition CTA_ID : Z := 12.

(** Scalar members of [enum mnl_attr_data_type] and their entry in
    [mnl_attr_data_type_len]. *)
Inductive mnl_attr_data_type : Set :=
| MNL_TYPE_U8
| MNL_TYPE_U16
| MNL_TYPE_U32
| MNL_TYPE_U64.

Definition mnl_attr_data_type_len (type : mnl_attr_data_type) : Z :=
  match type with
  | MNL_TYPE_U8 => 1
  | MNL_TYPE_U16 => 2
  | MNL_TYPE_U32 => 4
  | MNL_TYPE_U64 => 8
  end.

Section Conntrack.

Context {host : Host}.

Definition nla_len (attr : list byte) : option Z := load_u16 attr.
Definition nla_type (attr : list byte) : option Z := load_u16 (skipn 2 attr).

(** [mnl_attr_ok(attr, len)]:
    [len >= sizeof(struct nlattr) && attr->nla_len >= sizeof(struct nlattr)
     && attr->nla_len <= len]. *)
Definition mnl_attr_ok (attr : list byte) : bool :=
  let len := Z.of_nat (List.length attr) in
  (4 <=? len)
  && match nla_len attr with
     | Some l => (4 <=? l) && (l <=? len)
     | None => false
     end.

(** [mnl_attr_next(attr)]: [attr + MNL_ALIGN(attr->nla_len)]. *)
Definition mnl_attr_next (attr : list byte) : option (list byte) :=
  l <- nla_len attr ;; Some (skipn (Z.to_nat (MNL_ALIGN l)) attr).

(** [mnl_attr_get_type(attr)]: [attr->nla_type & NLA_TYPE_MASK]. *)
Definition mnl_attr_get_type (attr : list byte) : option Z :=
  t <- nla_type attr ;; Some (Z.land t NLA_TYPE_MASK).

(** [mnl_attr_get_payload_len(attr)]: [attr->nla_len - MNL_ATTR_HDRLEN],
    a [uint16_t]. *)
Definition mnl_attr_get_payload_len (attr : list byte) : option Z :=
  l <- nla_len attr ;; Some (u16 (l - MNL_ATTR_HDRLEN)).

Definition mnl_attr_get_payload (attr : list byte) : list byte :=
  skipn (Z.to_nat MNL_ATTR_HDRLEN) attr.

(** [mnl_attr_validate(attr, type)] for the scalar types: [-1] unless the
    payload length is the length of the type. *)
Definition mnl_attr_validate (attr : list byte) (type : mnl_attr_data_type)
  : option Z :=
  let exp_len := mnl_attr_data_type_len type in
  attr_len <- mnl_attr_get_payload_len attr ;;
  if attr_len <? exp_len then Some (-1)
  else if negb (exp_len =? 0) && (attr_len >? exp_len) then Some (-1)
  else Some 0.

(** [mnl_attr_get_u32(attr)]: [*(uint32_t * )mnl_attr_get_payload(attr)]. *)
Definition mnl_attr_get_u32 (attr : list byte) : option Z :=
  load_u32 (mnl_attr_get_payload attr).

(** The loop of [nflog_get_ctid]:
    [mnl_attr_for_each_nested(attr, cta) {
       if (mnl_attr_get_type(attr) == CTA_ID) { ida = attr; break; } }]
    started at [attr]; the result is [ida].  [n] bounds the number of
    iterations: the loop has no value ([None]) when the bound is hit. *)
Fixpoint ctid_loop (n : nat) (attr : list byte) : option (option (list byte)) :=
  match n with
  | O => None
  | S n' =>
      if mnl_attr_ok attr then
        t <- mnl_attr_get_type attr ;;
        if t =? CTA_ID then Some (Some attr)
        else next <- mnl_attr_next attr ;; ctid_loop n' next
      else Some None
  end.

(** [nflog_get_ctid(nfad, id)]: the return value and [*id] after the call.
    The nest is the payload of [nfad->nfa[NFULA_CT - 1]]; every iteration
    moves on by four bytes or more, so one more iteration than the nest
    has bytes is enough. *)
Definition nflog_get_ctid (nfad : nflog_data) (id : Z) : option (Z * Z) :=
  match nfa nfad NFULA_CT with
  | None => Some (-1, id)
  | Some cta =>
      ida <- ctid_loop (S (List.length (NFA_DATA cta))) (NFA_DATA cta) ;;
      match ida with
      | None => Some (-1, id)
      | Some ida =>
          v <- mnl_attr_validate ida MNL_TYPE_U32 ;;
          if v <? 0 then Some (-1, id)
          else w <- mnl_attr_get_u32 ida ;; Some (0, ntohl w)
      end
  end.

End Conntrack.

(** ** Nested attributes as the kernel lays them out *)

(** A nested attribute: its type and payload. *)
Record nlattr : Set := { attr_type : Z; attr_payload : list byte }.

Definition byte_of_Z (x : Z) : byte :=
  match Byte.of_N (Z.to_N (x mod 256)) with
  | Some b => b
  | None => x00
  end.

Section Layout.

Context {host : Host}.

(** A 16-bit value as the host stores it. *)
Definition store_u16 (x : Z) : list byte :=
  if host_big_endian then [byte_of_Z (x / 256); byte_of_Z x]
  else [byte_of_Z x; byte_of_Z (x / 256)].

(** Header, payload, and padding up to a multiple of four bytes. *)
Definition nla_encode (a : nlattr) : list byte :=
  let len := MNL_ATTR_HDRLEN + Z.of_nat (List.length (attr_payload a)) in
  store_u16 len ++ store_u16 (attr_type a) ++ attr_payload a
  ++ repeat x00 (Z.to_nat (MNL_ALIGN len - len)).

(** The attribute fits the 16-bit fields of its header. *)
Definition nla_fits (a : nlattr) : bool :=
  (0 <=? attr_type a) && (attr_type a <? 2 ^ 16)
  && (MNL_ATTR_HDRLEN + Z.of_nat (List.length (attr_payload a)) <? 2 ^ 16).

Definition is_ctid (a : nlattr) : bool :=
  Z.land (attr_type a) NLA_TYPE_MASK =? CTA_ID.

End Layout.

(* ================================================================== *)
(** * The session: group registry, configuration commands, dispatch *)
(* ================================================================== *)

(** Error numbers of <errno.h> on Linux. *)
Definition ENOMEM : Z := 12.
Definition EBUSY : Z := 16.
Definition ENODEV : Z := 19.

(** [struct nflog_g_handle].  Pointers are addresses; a handle carries its
    own address [self], which is what [del_gh] and the callers compare.
    [cb] is a function pointer or [NULL]; [data] is the user's [void *].
    The field [next] is the position in [gh_list] below, and [h] is the one
    session of the model. *)
Record nflog_g_handle : Set := {
  self : Z;
  id : Z;
  cb : option Z;
  data : Z
}.

(** [struct nfgenmsg]; [res_id] is the 16-bit field as the host loads it
    (it is stored in network order). *)
Record nfgenmsg : Set := {
  nfgen_family : Z;
  version : Z;
  res_id : Z
}.

Inductive nfulnl_msg_types : Set :=
| NFULNL_MSG_PACKET
| NFULNL_MSG_CONFIG.

Inductive nfulnl_msg_config_cmds : Set :=
| NFULNL_CFG_CMD_NONE
| NFULNL_CFG_CMD_BIND
| NFULNL_CFG_CMD_UNBIND
| NFULNL_CFG_CMD_PF_BIND
| NFULNL_CFG_CMD_PF_UNBIND.

Inductive nfulnl_attr_config : Set :=
| NFULA_CFG_CMD
| NFULA_CFG_MODE
| NFULA_CFG_NLBUFSIZ
| NFULA_CFG_TIMEOUT
| NFULA_CFG_QTHRESH
| NFULA_CFG_FLAGS.

(** The attribute of a configuration request: what [nfnl_addattr_l],
    [nfnl_addattr32] and [nfnl_addattr16] are given. *)
Inductive cfg_payload : Set :=
| nfulnl_msg_config_cmd (command : nfulnl_msg_config_cmds)
| nfulnl_msg_config_mode (copy_range : Z) (copy_mode : Z)
| cfg_u32 (value : Z)
| cfg_u16 (value : Z).

(** The request assembled in the union [u] of every command:
    [nfnl_fill_hdr] then one attribute. *)
Record nlmsghdr : Set := {
  nlmsg_type : nfulnl_msg_types;
  nlmsg_flags : Z;
  nlmsg_data : nfgenmsg;
  nlmsg_attr : nfulnl_attr_config * cfg_payload
}.

Definition NLM_F_REQUEST : Z := 1.
Definition NLM_F_ACK : Z := 4.
Definition NFNETLINK_V0 : Z := 0.
Definition AF_UNSPEC : Z := 0.

(** What the library does to the outside, in order: requests handed to
    [nfnl_query], sizes handed to [nfnl_rcvbufsiz], and callbacks run. *)
Inductive event : Set :=
| ev_nfnl_query (m : nlmsghdr)
| ev_nfnl_rcvbufsiz (size : Z)
| ev_callback (f : Z) (gh : Z) (nfmsg : nfgenmsg) (nfad : nflog_data) (data : Z).

(** The state the library works on: the chain of group handles starting at
    [h->gh_list], [errno], and the events so far. *)
Record world : Set := {
  gh_list : list nflog_g_handle;
  errno : Z;
  trace : list event
}.

(** The collaborators of the library: the kernel behind [nfnl_query]
    (status and [errno] after the call), [nfnl_rcvbufsiz] (size read back
    and [errno] after the call), the allocator (a fresh address for a new
    handle, or [NULL]) and the callbacks of the application.  The first
    three see the events so far. *)
Class Environment : Type := {
  nfnl_query_reply : list event -> nlmsghdr -> Z * Z;
  nfnl_rcvbufsiz_reply : list event -> Z -> Z * Z;
  calloc_reply : list event -> list Z -> option Z;
  callback_run : Z -> Z -> nfgenmsg -> nflog_data -> Z -> Z
}.

Definition set_gh_list (w : world) (l : list nflog_g_handle) : world :=
  {| gh_list := l; errno := errno w; trace := trace w |}.

Definition set_errno (w : world) (e : Z) : world :=
  {| gh_list := gh_list w; errno := e; trace := trace w |}.

Definition log (w : world) (e : event) : world :=
  {| gh_list := gh_list w; errno := errno w; trace := trace w ++ [e] |}.

(** ** Low level stuff *)

(** [del_gh(gh)]: unlink the node at address [gh] from the chain. *)
Fixpoint del_gh (l : list nflog_g_handle) (gh : Z) : list nflog_g_handle :=
  match l with
  | [] => []
  | cur_gh :: rest =>
      if self cur_gh =? gh then rest else cur_gh :: del_gh rest gh
  end.

(** [add_gh(gh)]: link [gh] in front of the chain. *)
Definition add_gh (l : list nflog_g_handle) (gh : nflog_g_handle)
  : list nflog_g_handle :=
  gh :: l.

(** [find_gh(h, group)]: the first node of the chain with [id == group]. *)
Fixpoint find_gh (l : list nflog_g_handle) (group : Z) : option nflog_g_handle :=
  match l with
  | [] => None
  | gh :: rest => if id gh =? group then Some gh else find_gh rest group
  end.

(** The node a handle pointer stands for; [None] for a pointer that is no
    live handle of the session. *)
Fixpoint deref (l : list nflog_g_handle) (gh : Z) : option nflog_g_handle :=
  match l with
  | [] => None
  | cur :: rest => if self cur =? gh then Some cur else deref rest gh
  end.

Section Session.

Context {host : Host} {env : Environment}.

(** [nfnl_fill_hdr(ssh, nlh, 0, family, res_id, msg_type, msg_flags)] and
    the attribute added next. *)
Definition nfnl_fill_hdr (family res_id : Z) (msg_type : nfulnl_msg_types)
           (msg_flags : Z) (attr : nfulnl_attr_config * cfg_payload) : nlmsghdr :=
  {| nlmsg_type := msg_type;
     nlmsg_flags := msg_flags;
     nlmsg_data := {| nfgen_family := u8 family;
                      version := NFNETLINK_V0;
                      res_id := htons (u16 res_id) |};
     nlmsg_attr := attr |}.

(** [nfnl_query(h->nfnlh, nlh)]: send and wait for the acknowledgement. *)
Definition nfnl_query (w : world) (nlh : nlmsghdr) : Z * world :=
  let (status, e) := nfnl_query_reply (trace w) nlh in
  (status, set_errno (log w (ev_nfnl_query nlh)) e).

(** [nfnl_rcvbufsiz(h->nfnlh, size)]. *)
Definition nfnl_rcvbufsiz (w : world) (size : Z) : Z * world :=
  let (read_size, e) := nfnl_rcvbufsiz_reply (trace w) size in
  (read_size, set_errno (log w (ev_nfnl_rcvbufsiz size)) e).

(** [__build_send_cfg_msg(h, command, groupnum, pf)]. *)
Definition __build_send_cfg_msg (w : world) (command : nfulnl_msg_config_cmds)
           (groupnum pf : Z) : Z * world :=
  let nmh := nfnl_fill_hdr pf groupnum NFULNL_MSG_CONFIG
                           (Z.lor NLM_F_REQUEST NLM_F_ACK)
                           (NFULA_CFG_CMD, nfulnl_msg_config_cmd command) in
  nfnl_query w nmh.

(** [__nflog_rcv_pkt(nlh, nfa, data)], the callback the transport runs on
    a packet message; [nfmsg] is [NLMSG_DATA(nlh)] and [data] the session. *)
Definition __nflog_rcv_pkt (w : world) (nfmsg : nfgenmsg) (nfa : nfattr_table)
  : Z * world :=
  let group := u16 (ntohs (res_id nfmsg)) in
  match find_gh (gh_list w) group with
  | None => (- ENODEV, w)
  | Some gh =>
      match cb gh with
      | None => (- ENODEV, w)
      | Some f =>
          let nfldata := {| nfa := nfa |} in
          (callback_run f (self gh) nfmsg nfldata (data gh),
           log w (ev_callback f (self gh) nfmsg nfldata (data gh)))
      end
  end.

(** ** Public interface *)

(** [nflog_callback_register(gh, cb, data)]. *)
Definition nflog_callback_register (w : world) (gh : Z) (cb : option Z) (data : Z)
  : option (Z * world) :=
  match deref (gh_list w) gh with
  | None => None
  | Some _ =>
      let store (n : nflog_g_handle) :=
        if self n =? gh
        then {| self := self n; id := id n; cb := cb; data := data |}
        else n in
      Some (0, set_gh_list w (map store (gh_list w)))
  end.

Definition nflog_bind_pf (w : world) (pf : Z) : Z * world :=
  __build_send_cfg_msg w NFULNL_CFG_CMD_PF_BIND 0 (u16 pf).

Definition nflog_unbind_pf (w : world) (pf : Z) : Z * world :=
  __build_send_cfg_msg w NFULNL_CFG_CMD_PF_UNBIND 0 (u16 pf).

(** [nflog_bind_group(h, num)]: the new handle, or [NULL]. *)
Definition nflog_bind_group (w : world) (num : Z) : option Z * world :=
  let num := u16 num in
  match find_gh (gh_list w) num with
  | Some _ => (None, set_errno w EBUSY)
  | None =>
      match calloc_reply (trace w) (map self (gh_list w)) with
      | None => (None, set_errno w ENOMEM)
      | Some p =>
          let gh := {| self := p; id := num; cb := None; data := 0 |} in
          let (ret, w1) := __build_send_cfg_msg w NFULNL_CFG_CMD_BIND num 0 in
          if ret <? 0 then (None, w1)
          else (Some p, set_gh_list w1 (add_gh (gh_list w1) gh))
      end
  end.

(** [nflog_unbind_group(gh)]; [None] when [gh] is no live handle. *)
Definition nflog_unbind_group (w : world) (gh : Z) : option (Z * world) :=
  match deref (gh_list w) gh with
  | None => None
  | Some g =>
      let (ret, w1) := __build_send_cfg_msg w NFULNL_CFG_CMD_UNBIND (id g) 0 in
      if ret =? 0 then Some (ret, set_gh_list w1 (del_gh (gh_list w1) gh))
      else Some (ret, w1)
  end.

(** The commands on a bound group: one request to the group of [gh]. *)
Definition group_request (w : world) (gh : Z)
           (attr : nfulnl_attr_config * cfg_payload) : option (Z * world) :=
  match deref (gh_list w) gh with
  | None => None
  | Some g =>
      Some (nfnl_query w (nfnl_fill_hdr AF_UNSPEC (id g) NFULNL_MSG_CONFIG
                                        (Z.lor NLM_F_REQUEST NLM_F_ACK) attr))
  end.

Definition nflog_set_mode (w : world) (gh : Z) (mode range : Z) : option (Z * world) :=
  group_request w gh
    (NFULA_CFG_MODE, nfulnl_msg_config_mode (htonl (u32 range)) (u8 mode)).

Definition nflog_set_timeout (w : world) (gh : Z) (timeout : Z) : option (Z * world) :=
  group_request w gh (NFULA_CFG_TIMEOUT, cfg_u32 (htonl (u32 timeout))).

Definition nflog_set_qthresh (w : world) (gh : Z) (qthresh : Z) : option (Z * world) :=
  group_request w gh (NFULA_CFG_QTHRESH, cfg_u32 (htonl (u32 qthresh))).

(** [nflog_set_nlbufsiz(gh, nlbufsiz)]; [10*nlbufsiz] is a product of
    [unsigned int]. *)
Definition nflog_set_nlbufsiz (w : world) (gh : Z) (nlbufsiz : Z)
  : option (Z * world) :=
  let nlbufsiz := u32 nlbufsiz in
  r <- group_request w gh (NFULA_CFG_NLBUFSIZ, cfg_u32 (htonl nlbufsiz)) ;;
  let (status, w1) := r in
  if status >=? 0
  then let (_, w2) := nfnl_rcvbufsiz w1 (u32 (10 * nlbufsiz)) in Some (status, w2)
  else Some (status, w1).

Definition nflog_set_flags (w : world) (gh : Z) (flags : Z) : option (Z * world) :=
  group_request w gh (NFULA_CFG_FLAGS, cfg_u16 (htons (u16 flags))).

End Session.

(* ================================================================== *)
(** * Printing: the bounded XML formatter *)
(* ================================================================== *)

Definition INT_MAX : Z := 2 ^ 31 - 1.

(** The text of a string literal. *)
Definition txt (s : string) : list byte := list_byte_of_string s.

(** ** The conversions of [printf] the formatter uses *)

Fixpoint dec_digits (d : Decimal.uint) : list byte :=
  match d with
  | Decimal.Nil => []
  | Decimal.D0 r => "0"%byte :: dec_digits r
  | Decimal.D1 r => "1"%byte :: dec_digits r
  | Decimal.D2 r => "2"%byte :: dec_digits r
  | Decimal.D3 r => "3"%byte :: dec_digits r
  | Decimal.D4 r => "4"%byte :: dec_digits r
  | Decimal.D5 r => "5"%byte :: dec_digits r
  | Decimal.D6 r => "6"%byte :: dec_digits r
  | Decimal.D7 r => "7"%byte :: dec_digits r
  | Decimal.D8 r => "8"%byte :: dec_digits r
  | Decimal.D9 r => "9"%byte :: dec_digits r
  end.

Fixpoint hex_digits (d : Hexadecimal.uint) : list byte :=
  match d with
  | Hexadecimal.Nil => []
  | Hexadecimal.D0 r => "0"%byte :: hex_digits r
  | Hexadecimal.D1 r => "1"%byte :: hex_digits r
  | Hexadecimal.D2 r => "2"%byte :: hex_digits r
  | Hexadecimal.D3 r => "3"%byte :: hex_digits r
  | Hexadecimal.D4 r => "4"%byte :: hex_digits r
  | Hexadecimal.D5 r => "5"%byte :: hex_digits r
  | Hexadecimal.D6 r => "6"%byte :: hex_digits r
  | Hexadecimal.D7 r => "7"%byte :: hex_digits r
  | Hexadecimal.D8 r => "8"%byte :: hex_digits r
  | Hexadecimal.D9 r => "9"%byte :: hex_digits r
  | Hexadecimal.Da r => "a"%byte :: hex_digits r
  | Hexadecimal.Db r => "b"%byte :: hex_digits r
  | Hexadecimal.Dc r => "c"%byte :: hex_digits r
  | Hexadecimal.Dd r => "d"%byte :: hex_digits r
  | Hexadecimal.De r => "e"%byte :: hex_digits r
  | Hexadecimal.Df r => "f"%byte :: hex_digits r
  end.

(** Zero padding on the left up to [width] characters. *)
Definition zero_pad (width : nat) (s : list byte) : list byte :=
  repeat "0"%byte (width - List.length s) ++ s.

(** ["%u"] of a non-negative value. *)
Definition fmt_u (x : Z) : list byte := dec_digits (N.to_uint (Z.to_N x)).

(** ["%d"]. *)
Definition fmt_d (x : Z) : list byte :=
  if x <? 0 then "-"%byte :: fmt_u (- x) else fmt_u x.

(** ["%02d"]: the zeros go between the sign and the digits. *)
Definition fmt_02d (x : Z) : list byte :=
  if x <? 0 then "-"%byte :: zero_pad 1 (fmt_u (- x)) else zero_pad 2 (fmt_u x).

(** ["%02x"] and ["%04x"] of a non-negative value. *)
Definition fmt_0x (width : nat) (x : Z) : list byte :=
  zero_pad width (hex_digits (N.to_hex_uint (Z.to_N x))).

(** ["%s"]: the bytes of [p] before the first NUL; [None] when the span
    holds no NUL. *)
Fixpoint c_str (p : list byte) : option (list byte) :=
  match p with
  | [] => None
  | b :: r => if Byte.eqb b x00 then Some [] else option_map (cons b) (c_str r)
  end.

(** ** [snprintf] into the caller's memory

    Memory is a map from addresses to bytes, with addresses relative to
    the caller's [buf]: a write past the capacity would show. *)
Definition memory : Set := Z -> byte.

Definition store (m : memory) (a : Z) (b : byte) : memory :=
  fun x => if x =? a then b else m x.

Fixpoint store_bytes (m : memory) (a : Z) (bs : list byte) : memory :=
  match bs with
  | [] => m
  | b :: r => store_bytes (store m a b) (a + 1) r
  end.

(** The [n] bytes of [m] from address [a] on. *)
Fixpoint bytes_at (m : memory) (a : Z) (n : nat) : list byte :=
  match n with
  | O => []
  | S n' => m a :: bytes_at m (a + 1) n'
  end.

(** [snprintf(str, size, format, ...)] where the conversions give the text
    [s], after POSIX: the call fails with a negative result when [size] or
    the length of [s] is more than [INT_MAX]; otherwise at most [size - 1]
    bytes of [s] and a NUL are written, nothing at all for [size == 0], and
    the result is the length of [s]. *)
Definition snprintf (m : memory) (str size : Z) (s : list byte) : memory * Z :=
  let n := Z.of_nat (List.length s) in
  if (INT_MAX <? size) || (INT_MAX <? n) then (m, -1)
  else if 0 <? size
       then (store_bytes m str (firstn (Z.to_nat (size - 1)) s ++ [x00]), n)
       else (m, n).

(** ** The formatter state and its statements *)

(** The locals [buf], [rem], [offset], [len] of [nflog_snprintf_xml]. *)
Record xstate : Set := {
  buf : memory;
  rem : Z;
  offset : Z;
  len : Z
}.

(** A statement of the function body: it falls through with a value, or
    leaves the function by [return], or has no defined behaviour (a read
    outside an attribute, an [int] overflow). *)
Inductive xres (A : Type) : Type :=
| XOk (a : A) (st : xstate)
| XReturn (ret : Z) (st : xstate)
| XFault.

Arguments XOk {A} a st.
Arguments XReturn {A} ret st.
Arguments XFault {A}.

Definition X (A : Type) : Type := xstate -> xres A.

Definition xret {A : Type} (a : A) : X A := fun st => XOk a st.

Definition xbind {A B : Type} (m : X A) (k : A -> X B) : X B :=
  fun st =>
    match m st with
    | XOk a st' => k a st'
    | XReturn r st' => XReturn r st'
    | XFault => XFault
    end.

Definition xreturn {A : Type} (r : Z) : X A := fun st => XReturn r st.

Definition xread {A : Type} (o : option A) : X A :=
  fun st => match o with Some a => XOk a st | None => XFault end.

Notation "x <<- m ;; k" := (xbind m (fun x => k))
  (at level 61, m at next level, right associativity).
Notation "m >> k" := (xbind m (fun _ => k))
  (at level 61, right associativity).

(** [for (i = i0; i < i0 + n; i++) body]. *)
Fixpoint xfor (n : nat) (i : nat) (body : nat -> X unit) : X unit :=
  match n with
  | O => xret tt
  | S n' => body i >> xfor n' (S i) body
  end.

(** The macro [SNPRINTF_FAILURE(ret, rem, offset, len)]. *)
Definition SNPRINTF_FAILURE (ret : Z) : X unit :=
  fun st =>
    if ret <? 0 then XReturn ret st
    else if INT_MAX <? len st + ret then XFault
    else
      let len' := len st + ret in
      let ret' := if ret >? rem st then rem st else ret in
      XOk tt {| buf := buf st;
                rem := rem st - ret';
                offset := offset st + ret';
                len := len' |}.

(** [size = snprintf(buf + offset, rem, ...);
     SNPRINTF_FAILURE(size, rem, offset, len);] for the text [s]. *)
Definition fragment (s : list byte) : X unit :=
  fun st =>
    let (m, size) := snprintf (buf st) (offset st) (rem st) s in
    SNPRINTF_FAILURE size
      {| buf := m; rem := rem st; offset := offset st; len := len st |}.

(** The flags of [nflog_snprintf_xml] ([NFLOG_XML_*] of the public header):
    one mask each. *)
Class XmlFlags : Set := {
  NFLOG_XML_PREFIX : Z;
  NFLOG_XML_HW : Z;
  NFLOG_XML_MARK : Z;
  NFLOG_XML_DEV : Z;
  NFLOG_XML_PHYSDEV : Z;
  NFLOG_XML_PAYLOAD : Z;
  NFLOG_XML_TIME : Z;
  NFLOG_XML_CTID : Z
}.

(** [flags & mask] as a condition. *)
Definition has (flags mask : Z) : bool := negb (Z.land flags mask =? 0).

(** The members of [struct tm] the formatter prints. *)
Record tm : Set := {
  tm_sec : Z;
  tm_min : Z;
  tm_hour : Z;
  tm_mday : Z;
  tm_mon : Z;
  tm_year : Z;
  tm_wday : Z
}.

(** [a + b] on [int]; an overflow has no defined behaviour. *)
Definition int_add (a b : Z) : option Z :=
  let c := a + b in
  if (- INT_MAX - 1 <=? c) && (c <=? INT_MAX) then Some c else None.

Section Printing.

Context {host : Host} {bits : XmlFlags}.

(** ** The statements of [nflog_snprintf_xml], in source order *)

(** [if (flags & NFLOG_XML_TIME) { ... }]; [now] is what
    [localtime_r(&t, &tm)] gives for [t = time(NULL)]: the broken-down
    time, or [NULL]. *)
Definition xml_time (flags : Z) (now : option tm) : X unit :=
  if has flags NFLOG_XML_TIME then
    match now with
    | None => xreturn (-1)
    | Some tm =>
        fragment (txt "<when>") >>
        fragment (txt "<hour>" ++ fmt_d (tm_hour tm) ++ txt "</hour>") >>
        fragment (txt "<min>" ++ fmt_02d (tm_min tm) ++ txt "</min>") >>
        fragment (txt "<sec>" ++ fmt_02d (tm_sec tm) ++ txt "</sec>") >>
        wday <<- xread (int_add (tm_wday tm) 1) ;;
        fragment (txt "<wday>" ++ fmt_d wday ++ txt "</wday>") >>
        fragment (txt "<day>" ++ fmt_d (tm_mday tm) ++ txt "</day>") >>
        month <<- xread (int_add (tm_mon tm) 1) ;;
        fragment (txt "<month>" ++ fmt_d month ++ txt "</month>") >>
        year <<- xread (int_add 1900 (tm_year tm)) ;;
        fragment (txt "<year>" ++ fmt_d year ++ txt "</year>") >>
        fragment (txt "</when>")
    end
  else xret tt.

(** [data = nflog_get_prefix(tb); if (data && (flags & NFLOG_XML_PREFIX))]. *)
Definition xml_prefix (tb : nflog_data) (flags : Z) : X unit :=
  match nflog_get_prefix tb with
  | Some data =>
      if has flags NFLOG_XML_PREFIX then
        s <<- xread (c_str data) ;;
        fragment (txt "<prefix>" ++ s ++ txt "</prefix>")
      else xret tt
  | None => xret tt
  end.

(** [ph = nflog_get_msg_packet_hdr(tb); if (ph) { ... }]. *)
Definition xml_hw (tb : nflog_data) (flags : Z) : X unit :=
  match nflog_get_msg_packet_hdr tb with
  | Some ph =>
      hk <<- xread (hook ph) ;;
      fragment (txt "<hook>" ++ fmt_u hk ++ txt "</hook>") >>
      match nflog_get_packet_hw tb with
      | Some hwph =>
          if has flags NFLOG_XML_HW then
            hlen <<- xread (option_map ntohs (hw_addrlen hwph)) ;;
            proto <<- xread (option_map ntohs (hw_protocol ph)) ;;
            fragment (txt "<hw><proto>" ++ fmt_0x 4 proto ++ txt "</proto>") >>
            fragment (txt "<src>") >>
            xfor (Z.to_nat hlen) 0
                 (fun i => b <<- xread (hw_addr hwph i) ;;
                           fragment (fmt_0x 2 (bz b))) >>
            fragment (txt "</src></hw>")
          else xret tt
      | None =>
          if has flags NFLOG_XML_HW then
            proto <<- xread (option_map ntohs (hw_protocol ph)) ;;
            fragment (txt "<hw><proto>" ++ fmt_0x 4 proto ++ txt "</proto></hw>")
          else xret tt
      end
  | None => xret tt
  end.

(** [mark = nflog_get_nfmark(tb); if (mark && (flags & NFLOG_XML_MARK))]. *)
Definition xml_mark (tb : nflog_data) (flags : Z) : X unit :=
  mark <<- xread (nflog_get_nfmark tb) ;;
  if negb (mark =? 0) && has flags NFLOG_XML_MARK
  then fragment (txt "<mark>" ++ fmt_u mark ++ txt "</mark>")
  else xret tt.

(** [ifi = nflog_get_indev(tb); if (ifi && (flags & NFLOG_XML_DEV))]. *)
Definition xml_indev (tb : nflog_data) (flags : Z) : X unit :=
  ifi <<- xread (nflog_get_indev tb) ;;
  if negb (ifi =? 0) && has flags NFLOG_XML_DEV
  then fragment (txt "<indev>" ++ fmt_u ifi ++ txt "</indev>")
  else xret tt.

Definition xml_outdev (tb : nflog_data) (flags : Z) : X unit :=
  ifi <<- xread (nflog_get_outdev tb) ;;
  if negb (ifi =? 0) && has flags NFLOG_XML_DEV
  then fragment (txt "<outdev>" ++ fmt_u ifi ++ txt "</outdev>")
  else xret tt.

Definition xml_physindev (tb : nflog_data) (flags : Z) : X unit :=
  ifi <<- xread (nflog_get_physindev tb) ;;
  if negb (ifi =? 0) && has flags NFLOG_XML_PHYSDEV
  then fragment (txt "<physindev>" ++ fmt_u ifi ++ txt "</physindev>")
  else xret tt.

Definition xml_physoutdev (tb : nflog_data) (flags : Z) : X unit :=
  ifi <<- xread (nflog_get_physoutdev tb) ;;
  if negb (ifi =? 0) && has flags NFLOG_XML_PHYSDEV
  then fragment (txt "<physoutdev>" ++ fmt_u ifi ++ txt "</physoutdev>")
  else xret tt.

(** [if (flags & NFLOG_XML_CTID) { ret = nflog_get_ctid(tb, &ctid); ... }];
    the local [ctid] is read only after the call has stored into it. *)
Definition xml_ctid (tb : nflog_data) (flags : Z) : X unit :=
  if has flags NFLOG_XML_CTID then
    r <<- xread (nflog_get_ctid tb 0) ;;
    let (ret, ctid) := r in
    if ret >=? 0
    then fragment (txt "<ctid>" ++ fmt_u ctid ++ txt "</ctid>")
    else xret tt
  else xret tt.

(** [ret = nflog_get_payload(tb, &data);
     if (ret >= 0 && (flags & NFLOG_XML_PAYLOAD)) { ... }]. *)
Definition xml_payload (tb : nflog_data) (flags : Z) : X unit :=
  let (ret, data) := nflog_get_payload tb in
  if (ret >=? 0) && has flags NFLOG_XML_PAYLOAD then
    fragment (txt "<payload>") >>
    xfor (Z.to_nat ret) 0
         (fun i => b <<- xread (d <- data ;; nth_error d i) ;;
                   fragment (fmt_0x 2 (Z.land (bz b) 255))) >>
    fragment (txt "</payload>")
  else xret tt.

Definition xml_body (tb : nflog_data) (flags : Z) (now : option tm) : X unit :=
  fragment (txt "<log>") >>
  xml_time flags now >>
  xml_prefix tb flags >>
  xml_hw tb flags >>
  xml_mark tb flags >>
  xml_indev tb flags >>
  xml_outdev tb flags >>
  xml_physindev tb flags >>
  xml_physoutdev tb flags >>
  xml_ctid tb flags >>
  xml_payload tb flags >>
  fragment (txt "</log>").

(** The locals at the entry of the function, and what the caller gets
    back: the return value and the memory. *)
Definition xstart (buf : memory) (rem : Z) : xstate :=
  {| buf := buf; rem := rem; offset := 0; len := 0 |}.

Definition xfinish (r : xres unit) : option (Z * memory) :=
  match r with
  | XOk _ st => Some (len st, buf st)
  | XReturn ret st => Some (ret, buf st)
  | XFault => None
  end.

(** [nflog_snprintf_xml(buf, rem, tb, flags)]: the return value and the
    memory after the call; [None] when the call has no defined behaviour. *)
Definition nflog_snprintf_xml (buf : memory) (rem : Z) (tb : nflog_data)
           (flags : Z) (now : option tm) : option (Z * memory) :=
  xfinish (xml_body tb flags now (xstart buf rem)).

End Printing.

(** An assignment of the flags for the examples: one bit each. *)
Definition libnetfilter_log_h : XmlFlags :=
  {| NFLOG_XML_PREFIX := 1;
     NFLOG_XML_HW := 2;
     NFLOG_XML_MARK := 4;
     NFLOG_XML_DEV := 8;
     NFLOG_XML_PHYSDEV := 16;
     NFLOG_XML_PAYLOAD := 32;
     NFLOG_XML_TIME := 64;
     NFLOG_XML_CTID := 128 |}.

Definition little_endian : Host := {| host_big_endian := false |}.
Definition big_endian : Host := {| host_big_endian := true |}.

(* ================================================================== *)
(** * The document the formatter renders, and its well-formedness *)
(* ================================================================== *)

(** ** Element structure of XML

    The part of XML 1.0 the rendering lives in: one root element; elements
    [<name>content</name>] with a name of letters; content made of elements
    and of character data free of [<] and [&]. *)

Definition name_char (b : byte) : bool :=
  let c := bz b in
  ((97 <=? c) && (c <=? 122)) || ((65 <=? c) && (c <=? 90)).

(** Character data. *)
Definition plain (b : byte) : bool :=
  negb (Byte.eqb b "<"%byte) && negb (Byte.eqb b "&"%byte).

Fixpoint bytes_eqb (a b : list byte) : bool :=
  match a, b with
  | [], [] => true
  | x :: a', y :: b' => Byte.eqb x y && bytes_eqb a' b'
  | _, _ => false
  end.

(** Where the scanner is: in content, or inside the tag that began at the
    last [<], with the name read so far (last character first). *)
Inductive xml_mode : Set :=
| in_text
| in_tag (closing : bool) (name : list byte).

(** One pass over the text: [opened] holds the names of the elements that
    are open, innermost first; [root_closed] says that the root element has
    been closed. *)
Fixpoint xml_scan (s : list byte) (opened : list (list byte)) (m : xml_mode)
         (root_closed : bool) : bool :=
  match s with
  | [] =>
      match m, opened with
      | in_text, [] => root_closed
      | _, _ => false
      end
  | b :: r =>
      match m with
      | in_text =>
          if Byte.eqb b "<"%byte then
            if root_closed then false
            else xml_scan r opened (in_tag false []) root_closed
          else if Byte.eqb b "&"%byte then false
          else
            match opened with
            | [] => false
            | _ :: _ => xml_scan r opened in_text root_closed
            end
      | in_tag closing name =>
          if Byte.eqb b "/"%byte then
            match closing, name with
            | false, [] => xml_scan r opened (in_tag true []) root_closed
            | _, _ => false
            end
          else if Byte.eqb b ">"%byte then
            match name with
            | [] => false
            | _ :: _ =>
                if closing then
                  match opened with
                  | top :: rest =>
                      if bytes_eqb top name
                      then xml_scan r rest in_text
                                    (match rest with [] => true | _ => false end)
                      else false
                  | [] => false
                  end
                else xml_scan r (name :: opened) in_text root_closed
            end
          else if name_char b then
            xml_scan r opened (in_tag closing (b :: name)) root_closed
          else false
      end
  end.

Definition xml_well_formed (s : list byte) : bool :=
  xml_scan s [] in_text false.

(** ** The document *)

(** [<name>body</name>]. *)
Definition elem (name : string) (body : list byte) : list byte :=
  txt "<" ++ txt name ++ txt ">" ++ body ++ txt "</" ++ txt name ++ txt ">".

(** Two lower-case hexadecimal digits per byte, no separator. *)
Definition hex_text (bs : list byte) : list byte :=
  flat_map (fun b => fmt_0x 2 (bz b)) bs.

Section Document.

Context {host : Host} {bits : XmlFlags}.

(** The text of each element group, in the order of the rendering; [None]
    where the rendering has no defined value. *)
Definition text_time (flags : Z) (now : option tm) : option (list byte) :=
  if has flags NFLOG_XML_TIME then
    tm <- now ;;
    wday <- int_add (tm_wday tm) 1 ;;
    month <- int_add (tm_mon tm) 1 ;;
    year <- int_add 1900 (tm_year tm) ;;
    Some (elem "when"
            (elem "hour" (fmt_d (tm_hour tm))
             ++ elem "min" (fmt_02d (tm_min tm))
             ++ elem "sec" (fmt_02d (tm_sec tm))
             ++ elem "wday" (fmt_d wday)
             ++ elem "day" (fmt_d (tm_mday tm))
             ++ elem "month" (fmt_d month)
             ++ elem "year" (fmt_d year)))
  else Some [].

(** The prefix as the formatter prints it. *)
Definition prefix_text (tb : nflog_data) (flags : Z) : option (list byte) :=
  match nflog_get_prefix tb with
  | Some data => if has flags NFLOG_XML_PREFIX then c_str data else Some []
  | None => Some []
  end.

Definition text_prefix (tb : nflog_data) (flags : Z) : option (list byte) :=
  match nflog_get_prefix tb with
  | Some data =>
      if has flags NFLOG_XML_PREFIX
      then s <- c_str data ;; Some (elem "prefix" s)
      else Some []
  | None => Some []
  end.

Definition text_hw (tb : nflog_data) (flags : Z) : option (list byte) :=
  match nflog_get_msg_packet_hdr tb with
  | Some ph =>
      hk <- hook ph ;;
      match nflog_get_packet_hw tb with
      | Some hwph =>
          if has flags NFLOG_XML_HW then
            hlen <- option_map ntohs (hw_addrlen hwph) ;;
            proto <- option_map ntohs (hw_protocol ph) ;;
            if (Z.to_nat hlen <=? List.length (skipn 4 hwph))%nat then
              Some (elem "hook" (fmt_u hk)
                    ++ elem "hw"
                         (elem "proto" (fmt_0x 4 proto)
                          ++ elem "src"
                               (hex_text (firstn (Z.to_nat hlen) (skipn 4 hwph)))))
            else None
          else Some (elem "hook" (fmt_u hk))
      | None =>
          if has flags NFLOG_XML_HW then
            proto <- option_map ntohs (hw_protocol ph) ;;
            Some (elem "hook" (fmt_u hk)
                  ++ elem "hw" (elem "proto" (fmt_0x 4 proto)))
          else Some (elem "hook" (fmt_u hk))
      end
  | None => Some []
  end.

(** An element printed for a non-zero 32-bit field when its flag is set. *)
Definition text_u32 (name : string) (value : option Z) (flags mask : Z)
  : option (list byte) :=
  v <- value ;;
  Some (if negb (v =? 0) && has flags mask then elem name (fmt_u v) else []).

Definition text_ctid (tb : nflog_data) (flags : Z) : option (list byte) :=
  if has flags NFLOG_XML_CTID then
    r <- nflog_get_ctid tb 0 ;;
    Some (if fst r >=? 0 then elem "ctid" (fmt_u (snd r)) else [])
  else Some [].

Definition text_payload (tb : nflog_data) (flags : Z) : option (list byte) :=
  match nflog_get_payload tb with
  | (_, Some data) =>
      Some (if has flags NFLOG_XML_PAYLOAD
            then elem "payload" (hex_text data) else [])
  | (_, None) => Some []
  end.

(** The whole document: what the formatter renders when nothing cuts it. *)
Definition xml_text (tb : nflog_data) (flags : Z) (now : option tm)
  : option (list byte) :=
  t <- text_time flags now ;;
  p <- text_prefix tb flags ;;
  h <- text_hw tb flags ;;
  m <- text_u32 "mark" (nflog_get_nfmark tb) flags NFLOG_XML_MARK ;;
  i <- text_u32 "indev" (nflog_get_indev tb) flags NFLOG_XML_DEV ;;
  o <- text_u32 "outdev" (nflog_get_outdev tb) flags NFLOG_XML_DEV ;;
  pi <- text_u32 "physindev" (nflog_get_physindev tb) flags NFLOG_XML_PHYSDEV ;;
  po <- text_u32 "physoutdev" (nflog_get_physoutdev tb) flags NFLOG_XML_PHYSDEV ;;
  c <- text_ctid tb flags ;;
  d <- text_payload tb flags ;;
  Some (elem "log" (t ++ p ++ h ++ m ++ i ++ o ++ pi ++ po ++ c ++ d)).

End Document.

(* ================================================================== *)
(** * Properties stated on the embedding *)
(* ================================================================== *)

(** The access discipline of a presence-checked 32-bit field: [-1] and an
    untouched cell when [attr] is absent; [0] and the network-order value of
    the attribute's first four bytes in the cell when it is present. *)
Definition presence_checked (get : nflog_data -> Z -> option (Z * Z))
           (attr : nfulnl_attr_type) : Prop :=
  forall (nfad : nflog_data) (cell : Z),
    (nfa nfad attr = None -> get nfad cell = Some (-1, cell))
    /\ (forall b0 b1 b2 b3 r,
           nfa nfad attr = attr_of (b0 :: b1 :: b2 :: b3 :: r) ->
           get nfad cell = Some (0, be_value [b0; b1; b2; b3])).

(** The registry invariant: no two live handles share an address, and no
    two of them serve the same group. *)
Definition registry_wf (l : list nflog_g_handle) : Prop :=
  NoDup (map self l) /\ NoDup (map id l).

(** The request [__build_send_cfg_msg(h, command, groupnum, pf)] sends. *)
Definition cfg_request {host : Host} (command : nfulnl_msg_config_cmds)
           (groupnum pf : Z) : nlmsghdr :=
  nfnl_fill_hdr pf groupnum NFULNL_MSG_CONFIG (Z.lor NLM_F_REQUEST NLM_F_ACK)
                (NFULA_CFG_CMD, nfulnl_msg_config_cmd command).

(** The request [nflog_set_nlbufsiz(gh, nlbufsiz)] sends to group [group]. *)
Definition nlbufsiz_request {host : Host} (group nlbufsiz : Z) : nlmsghdr :=
  nfnl_fill_hdr AF_UNSPEC group NFULNL_MSG_CONFIG (Z.lor NLM_F_REQUEST NLM_F_ACK)
                (NFULA_CFG_NLBUFSIZ, cfg_u32 (htonl (u32 nlbufsiz))).

(** A handle the allocator gives is not one of the live ones. *)
Definition allocator_fresh {env : Environment} : Prop :=
  forall tr live p, calloc_reply tr live = Some p -> ~ In p live.

(** Environments for examples: a kernel that acknowledges every request, one
    that refuses every request, with an allocator that hands out the address
    after the largest live one and callbacks that return their [data]. *)
Definition next_address (live : list Z) : Z := 1 + fold_right Z.max 0 live.

Definition kernel_ack : Environment :=
  {| nfnl_query_reply := fun _ _ => (0, 0);
     nfnl_rcvbufsiz_reply := fun _ size => (size, 0);
     calloc_reply := fun _ live => Some (next_address live);
     callback_run := fun _ _ _ _ data => data |}.

Definition kernel_nack : Environment :=
  {| nfnl_query_reply := fun _ _ => (-1, 1);
     nfnl_rcvbufsiz_reply := fun _ size => (size, 0);
     calloc_reply := fun _ live => Some (next_address live);
     callback_run := fun _ _ _ _ data => data |}.

Definition world0 : world := {| gh_list := []; errno := 0; trace := [] |}.

(** What [nflog_get_ctid] does once its loop has left [ida]. *)
Definition ctid_of {host : Host} (ida : list byte) (id : Z) : option (Z * Z) :=
  v <- mnl_attr_validate ida MNL_TYPE_U32 ;;
  if v <? 0 then Some (-1, id)
  else w <- mnl_attr_get_u32 ida ;; Some (0, ntohl w).

(** ** The formatter against the document

    [rendering mem0 N st out]: the state [st] of a call that began on the
    memory [mem0] with capacity [N] after the text [out] has gone through
    [snprintf].  [len] counts all of [out]; [offset] and [rem] stop at the
    capacity; outside the [N] bytes the memory is [mem0]; inside, the bytes
    of [out] that fit before the last byte are there, followed by a NUL. *)
Definition rendering (mem0 : memory) (N : Z) (st : xstate) (out : list byte)
  : Prop :=
  let n := Z.of_nat (List.length out) in
  0 <= N <= INT_MAX
  /\ len st = n
  /\ offset st = Z.min n N
  /\ rem st = N - offset st
  /\ (forall a, a < 0 \/ N <= a -> buf st a = mem0 a)
  /\ (forall i, 0 <= i < Z.min n (N - 1) ->
                nth_error out (Z.to_nat i) = Some (buf st i))
  /\ (0 < N -> 0 < n -> buf st (Z.min n (N - 1)) = x00).

(** A statement that falls through and renders the text [t]. *)
Definition emits (mem0 : memory) (N : Z) (m : X unit) (t : list byte) : Prop :=
  forall st out,
    rendering mem0 N st out ->
    Z.of_nat (List.length (out ++ t)) <= INT_MAX ->
    exists st', m st = XOk tt st' /\ rendering mem0 N st' (out ++ t).

(** A prefix as the document shows it, without markup characters. *)
Definition prefix_plain {host : Host} {bits : XmlFlags}
           (tb : nflog_data) (flags : Z) : Prop :=
  forall s, prefix_text tb flags = Some s -> forallb plain s = true.

(** Content of an element: a text the scanner crosses inside any open
    element, coming back to where it was. *)
Definition xml_content (t : list byte) : Prop :=
  forall (r : list byte) (o : list byte) (os : list (list byte)),
    xml_scan (t ++ r) (o :: os) in_text false
    = xml_scan r (o :: os) in_text false.

(** A name the scanner takes: letters, at least one. *)
Definition tag_name (name : string) : bool :=
  match txt name with
  | [] => false
  | n => forallb name_char n
  end.

(** What a caller sees of a call: the return value and the first [n] bytes
    of the buffer. *)
Definition rendered (r : option (Z * memory)) (n : nat) : option (Z * list byte) :=
  option_map (fun p => (fst p, bytes_at (snd p) 0 n)) r.

(** The truncation contract in the words of the specification: a return
    value [L] within the capacity [N] means that the first [L] bytes of the
    buffer are a well-formed document, and a larger one that the first [N]
    bytes are the beginning of the document. *)
Definition truncation_as_specified {host : Host} {bits : XmlFlags} : Prop :=
  forall (mem0 : memory) (N : Z) (tb : nflog_data) (flags : Z) (now : option tm)
         (L : Z) (mem' : memory) (doc : list byte),
    0 <= N <= INT_MAX ->
    xml_text tb flags now = Some doc ->
    nflog_snprintf_xml mem0 N tb flags now = Some (L, mem') ->
    (L <= N -> xml_well_formed (bytes_at mem' 0 (Z.to_nat L)) = true)
    /\ (N < L -> bytes_at mem' 0 (Z.to_nat N) = firstn (Z.to_nat N) doc).


(** ** Sessions an application can reach *)

(** One call of the public interface, or one dispatched message. *)
Inductive api_step {host : Host} {env : Environment} : world -> world -> Prop :=
| step_bind_pf w pf : api_step w (snd (nflog_bind_pf w pf))
| step_unbind_pf w pf : api_step w (snd (nflog_unbind_pf w pf))
| step_bind_group w num : api_step w (snd (nflog_bind_group w num))
| step_unbind_group w gh ret w' :
    nflog_unbind_group w gh = Some (ret, w') -> api_step w w'
| step_callback_register w gh f d ret w' :
    nflog_callback_register w gh f d = Some (ret, w') -> api_step w w'
| step_set_mode w gh mode range ret w' :
    nflog_set_mode w gh mode range = Some (ret, w') -> api_step w w'
| step_set_timeout w gh timeout ret w' :
    nflog_set_timeout w gh timeout = Some (ret, w') -> api_step w w'
| step_set_qthresh w gh qthresh ret w' :
    nflog_set_qthresh w gh qthresh = Some (ret, w') -> api_step w w'
| step_set_nlbufsiz w gh nlbufsiz ret w' :
    nflog_set_nlbufsiz w gh nlbufsiz = Some (ret, w') -> api_step w w'
| step_set_flags w gh flags ret w' :
    nflog_set_flags w gh flags = Some (ret, w') -> api_step w w'
| step_rcv_pkt w nfmsg nfa : api_step w (snd (__nflog_rcv_pkt w nfmsg nfa)).

(** The worlds after [nflog_open] (an empty registry) and any number of
    steps. *)
Inductive reachable {host : Host} {env : Environment} : world -> Prop :=
| reach_open e : reachable {| gh_list := []; errno := e; trace := [] |}
| reach_step w w' : reachable w -> api_step w w' -> reachable w'.

(** ** Records the formatter can render *)

(** Every attribute the formatter reads is at least as long as the
    structure the library reads it as, the hardware address is as long as
    it says, and the prefix ends in a NUL. *)
Definition record_ok {host : Host} (tb : nflog_data) : Prop :=
  (forall attr a,
      In attr [NFULA_PACKET_HDR; NFULA_MARK; NFULA_IFINDEX_INDEV;
               NFULA_IFINDEX_OUTDEV; NFULA_IFINDEX_PHYSINDEV;
               NFULA_IFINDEX_PHYSOUTDEV; NFULA_HWADDR] ->
      nfa tb attr = Some a -> (4 <= List.length (NFA_DATA a))%nat)
  /\ (forall a hlen,
         nfa tb NFULA_HWADDR = Some a ->
         option_map ntohs (hw_addrlen (NFA_DATA a)) = Some hlen ->
         (4 + Z.to_nat hlen <= List.length (NFA_DATA a))%nat)
  /\ (forall a, nfa tb NFULA_PREFIX = Some a -> In x00 (NFA_DATA a)).

(** The time is there when it is asked for, with fields that [int] sums
    can take. *)
Definition clock_ok {bits : XmlFlags} (flags : Z) (now : option tm) : Prop :=
  has flags NFLOG_XML_TIME = true ->
  exists tm,
    now = Some tm
    /\ - INT_MAX <= tm_wday tm < INT_MAX
    /\ - INT_MAX <= tm_mon tm < INT_MAX
    /\ - INT_MAX <= tm_year tm <= INT_MAX - 1900.

(** ** Staying inside the buffer *)

(** The window [offset, offset + rem) lies inside the [N] bytes of the
    buffer, and the memory outside those bytes is what it was at the call. *)
Definition within (mem0 : memory) (N : Z) (st : xstate) : Prop :=
  0 <= offset st /\ 0 <= rem st /\ offset st + rem st <= N
  /\ forall a, a < 0 \/ N <= a -> buf st a = mem0 a.

(** A statement that keeps it so, whether it falls through or returns. *)
Definition keeps_within (mem0 : memory) (N : Z) {A : Type} (m : X A) : Prop :=
  forall st,
    within mem0 N st ->
    match m st with
    | XOk _ st' => within mem0 N st'
    | XReturn _ st' => within mem0 N st'
    | XFault => True
    end.
(* ================================================================== *)
(** * Further definitions for the properties of the session *)
(* ================================================================== *)

(** The stores of [nflog_callback_register(gh, cb, data)] on one node of
    the chain: [gh->data = data; gh->cb = cb;] on the node at [gh], nothing
    on the others. *)
Definition registered (gh : Z) (f : option Z) (d : Z) (n : nflog_g_handle)
  : nflog_g_handle :=
  if self n =? gh then {| self := self n; id := id n; cb := f; data := d |}
  else n.

(* ================================================================== *)
(** * Further definitions for the properties of the formatter *)
(* ================================================================== *)

(** The members of [struct tm] are [int]s. *)
Definition tm_ints (t : tm) : Prop :=
  Forall (fun x => - INT_MAX - 1 <= x <= INT_MAX)
         [tm_sec t; tm_min t; tm_hour t; tm_mday t; tm_mon t; tm_year t;
          tm_wday t].

(** The clock answers when the time flag asks, and with [int]s. *)
Definition clock_ints {bits : XmlFlags} (flags : Z) (now : option tm) : Prop :=
  has flags NFLOG_XML_TIME = true -> exists t, now = Some t /\ tm_ints t.

(** Attributes as netlink carries them: the length field of an attribute
    has sixteen bits. *)
Definition attrs_16bit (tb : nflog_data) : Prop :=
  forall attr a,
    nfa tb attr = Some a -> Z.of_nat (List.length (NFA_DATA a)) < 2 ^ 16.


(** The attributes [nflog_snprintf_xml] reads. *)
Definition xml_attrs : list nfulnl_attr_type :=
  [NFULA_PREFIX; NFULA_PACKET_HDR; NFULA_HWADDR; NFULA_MARK;
   NFULA_IFINDEX_INDEV; NFULA_IFINDEX_OUTDEV; NFULA_IFINDEX_PHYSINDEV;
   NFULA_IFINDEX_PHYSOUTDEV; NFULA_CT; NFULA_PAYLOAD].

(** Two records with the same attributes among those. *)
Definition same_for_xml (tb tb' : nflog_data) : Prop :=
  forall a, In a xml_attrs -> nfa tb a = nfa tb' a.

(** No flag of the formatter is set in [flags]. *)
Definition no_xml_flag {bits : XmlFlags} (flags : Z) : Prop :=
  Forall (fun mask => has flags mask = false)
         [NFLOG_XML_PREFIX; NFLOG_XML_HW; NFLOG_XML_MARK; NFLOG_XML_DEV;
          NFLOG_XML_PHYSDEV; NFLOG_XML_PAYLOAD; NFLOG_XML_TIME; NFLOG_XML_CTID].

(* ================================================================== *)
(** * Library setup: [nflog_open], [nflog_close]

    The calls into libnfnetlink and the allocator that open and close a
    handle are embedded like the requests of the session: an event for each
    call, in order, and an environment that answers them. *)
(* ================================================================== *)

(** [struct nflog_handle].  Pointers are addresses; the third member is the
    chain [gh_list], whose name is the one of the chain in [world]. *)
Record nflog_handle : Set := {
  nfnlh : Z;
  nfnlssh : Z;
  h_gh_list : list nflog_g_handle
}.

(** [NFNL_SUBSYS_ULOG] of linux/netfilter/nfnetlink.h, and [NFULNL_MSG_MAX],
    the bound of [enum nfulnl_msg_types]. *)
Definition NFNL_SUBSYS_ULOG : Z := 4.
Definition NFULNL_MSG_MAX : Z := 2.

(** The calls: [nfnl_open()], [nfnl_unset_sequence_tracking(h)],
    [calloc(1, sizeof( *h))], [nfnl_subsys_open(h, subsys_id, cb_count,
    subscriptions)], [nfnl_callback_register(ssh, type, &pkt_cb)] where
    [pkt_cb] is the callback [__nflog_rcv_pkt] with the user data [data],
    [nfnl_close(h)] and [free(p)]. *)
Inductive setup_event : Set :=
| ev_nfnl_open
| ev_nfnl_unset_sequence_tracking (nfnlh : Z)
| ev_calloc
| ev_nfnl_subsys_open (nfnlh : Z) (subsys_id cb_count subscriptions : Z)
| ev_nfnl_callback_register (ssh : Z) (type : nfulnl_msg_types) (data : Z)
| ev_nfnl_close (nfnlh : Z)
| ev_free (p : Z).

(** The calls so far and the global [nflog_errno]. *)
Record setup : Set := {
  calls : list setup_event;
  nflog_errno : Z
}.

(** What libnfnetlink and the allocator answer, given the calls so far: a
    handle or [NULL] for [nfnl_open], [calloc] and [nfnl_subsys_open], a
    status for [nfnl_callback_register] and [nfnl_close]; and the file
    descriptor [nfnl_fd] reads in a netlink handle. *)
Class Transport : Type := {
  nfnl_open_reply : list setup_event -> option Z;
  handle_calloc_reply : list setup_event -> option Z;
  nfnl_subsys_open_reply : list setup_event -> Z -> option Z;
  nfnl_callback_register_reply : list setup_event -> Z -> Z;
  nfnl_close_reply : list setup_event -> Z -> Z;
  nfnl_fd_reply : Z -> Z
}.

Definition call (s : setup) (e : setup_event) : setup :=
  {| calls := calls s ++ [e]; nflog_errno := nflog_errno s |}.

Section Setup.

Context {transport : Transport}.

(** [nflog_nfnlh(h)]. *)
Definition nflog_nfnlh (h : nflog_handle) : Z := nfnlh h.

(** [nflog_fd(h)]. *)
Definition nflog_fd (h : nflog_handle) : Z := nfnl_fd_reply (nflog_nfnlh h).

(** [nflog_open_nfnl(nfnlh)]: the address and the content of the new
    handle, or [NULL]. *)
Definition nflog_open_nfnl (s : setup) (nfnlh : Z)
  : option (Z * nflog_handle) * setup :=
  let s1 := call s ev_calloc in
  match handle_calloc_reply (calls s) with
  | None => (None, s1)
  | Some h =>
      let s2 := call s1 (ev_nfnl_subsys_open nfnlh NFNL_SUBSYS_ULOG
                                             NFULNL_MSG_MAX 0) in
      match nfnl_subsys_open_reply (calls s1) nfnlh with
      | None =>
          (* out_free *)
          (None, call s2 (ev_free h))
      | Some ssh =>
          let err := nfnl_callback_register_reply (calls s2) ssh in
          let s3 := call s2 (ev_nfnl_callback_register ssh NFULNL_MSG_PACKET h) in
          if err <? 0 then
            let s4 := {| calls := calls s3; nflog_errno := err |} in
            (* out_close, out_free *)
            let s5 := call s4 (ev_nfnl_close nfnlh) in
            (None, call s5 (ev_free h))
          else
            (Some (h, {| nfnlh := nfnlh; nfnlssh := ssh; h_gh_list := [] |}), s3)
      end
  end.

(** [nflog_open()]. *)
Definition nflog_open (s : setup) : option (Z * nflog_handle) * setup :=
  let s1 := call s ev_nfnl_open in
  match nfnl_open_reply (calls s) with
  | None => (None, s1)
  | Some nfnlh =>
      let s2 := call s1 (ev_nfnl_unset_sequence_tracking nfnlh) in
      let (lh, s3) := nflog_open_nfnl s2 nfnlh in
      match lh with
      | None => (None, call s3 (ev_nfnl_close nfnlh))
      | Some _ => (lh, s3)
      end
  end.

(** [nflog_close(h)], for the handle at [fst h] with the content [snd h]. *)
Definition nflog_close (s : setup) (h : Z * nflog_handle) : Z * setup :=
  let ret := nfnl_close_reply (calls s) (nfnlh (snd h)) in
  let s1 := call s (ev_nfnl_close (nfnlh (snd h))) in
  (ret, call s1 (ev_free (fst h))).

End Setup.

(** How often a handle is closed and a block freed among some calls. *)
Definition closes (nfnlh : Z) (evs : list setup_event) : nat :=
  List.length (filter (fun e => match e with
                                | ev_nfnl_close n => n =? nfnlh
                                | _ => false
                                end) evs).

Definition frees (p : Z) (evs : list setup_event) : nat :=
  List.length (filter (fun e => match e with
                                | ev_free q => q =? p
                                | _ => false
                                end) evs).

(** A transport for examples: handles 10 and 20, a block at 30, and the
    status given for [nfnl_callback_register]. *)
Definition transport_with (register_status : Z) : Transport :=
  {| nfnl_open_reply := fun _ => Some 10;
     handle_calloc_reply := fun _ => Some 30;
     nfnl_subsys_open_reply := fun _ _ => Some 20;
     nfnl_callback_register_reply := fun _ _ => register_status;
     nfnl_close_reply := fun _ _ => 0;
     nfnl_fd_reply := fun _ => 3 |}.

(* ================================================================== *)
(** * The test program: [utils/nfulnl_test.c]

    What the program writes to [stdout] is a byte string; [perror] is kept
    as the list of its arguments.  Writing is taken to succeed. *)
(* ================================================================== *)

(** [AF_INET] of <sys/socket.h>, [NFULNL_COPY_PACKET] of the public header
    and [EXIT_SUCCESS] of <stdlib.h>. *)
Definition AF_INET : Z := 2.
Definition NFULNL_COPY_PACKET : Z := 2.
Definition EXIT_SUCCESS : Z := 0.

(** The end of a line, and the double quote. *)
Definition nl : list byte := [x0a].
Definition dquote : list byte := [x22].

Section PrintPkt.

Context {host : Host}.

(** [print_pkt(nfad)]: the return value and the text that goes to
    [stdout]; [None] when a read leaves an attribute. *)
Definition print_pkt (nfad : nflog_data) : option (Z * list byte) :=
  let ph := nflog_get_msg_packet_hdr nfad in
  mark <- nflog_get_nfmark nfad ;;
  indev <- nflog_get_indev nfad ;;
  outdev <- nflog_get_outdev nfad ;;
  let prefix := nflog_get_prefix nfad in
  let (payload_len, payload) := nflog_get_payload nfad in
  header <- match ph with
            | Some ph =>
                proto <- option_map ntohs (hw_protocol ph) ;;
                hk <- hook ph ;;
                Some (txt "hw_protocol=0x" ++ fmt_0x 4 proto
                      ++ txt " hook=" ++ fmt_u hk ++ txt " ")
            | None => Some []
            end ;;
  quoted <- match prefix with
            | Some data =>
                s <- c_str data ;;
                Some (txt "prefix=" ++ dquote ++ s ++ dquote ++ txt " ")
            | None => Some []
            end ;;
  Some (0,
        header
        ++ (txt "mark=" ++ fmt_u mark ++ txt " ")
        ++ (if indev >? 0 then txt "indev=" ++ fmt_u indev ++ txt " " else [])
        ++ (if outdev >? 0 then txt "outdev=" ++ fmt_u outdev ++ txt " " else [])
        ++ quoted
        ++ (if payload_len >=? 0
            then txt "payload_len=" ++ fmt_d payload_len ++ txt " " else [])
        ++ nl).

(** The callback [cb(gh, nfmsg, nfa, data)] of the program (its name is the
    one of the member [cb] of a group handle): it prints the packet and
    returns 0. *)
Definition test_cb (nfa : nflog_data) : option (Z * list byte) :=
  r <- print_pkt nfa ;; Some (0, snd r).

End PrintPkt.

(** A record [print_pkt] can print: the attributes it reads as structures
    have their sizes, and the prefix ends in a NUL. *)
Definition printable (nfad : nflog_data) : Prop :=
  (forall attr a,
      In attr [NFULA_PACKET_HDR; NFULA_MARK; NFULA_IFINDEX_INDEV;
               NFULA_IFINDEX_OUTDEV] ->
      nfa nfad attr = Some a -> (4 <= List.length (NFA_DATA a))%nat)
  /\ (forall a, nfa nfad NFULA_PREFIX = Some a -> In x00 (NFA_DATA a)).

(** ** [main]

    The state of the program: the session of its handle (the chain of
    groups, [errno], the requests and callbacks so far), the calls that
    opened and close the handle, and what it has written. *)
Record process : Set := {
  session : world;
  setup_calls : setup;
  stdout : list byte;
  perrors : list string
}.

Definition set_session (p : process) (w : world) : process :=
  {| session := w; setup_calls := setup_calls p; stdout := stdout p;
     perrors := perrors p |}.

Definition set_setup (p : process) (s : setup) : process :=
  {| session := session p; setup_calls := s; stdout := stdout p;
     perrors := perrors p |}.

(** [printf] of a text, and [perror(s)]. *)
Definition printf (p : process) (s : list byte) : process :=
  {| session := session p; setup_calls := setup_calls p;
     stdout := stdout p ++ s; perrors := perrors p |}.

Definition perror (p : process) (s : string) : process :=
  {| session := session p; setup_calls := setup_calls p; stdout := stdout p;
     perrors := perrors p ++ [s] |}.

(** The environment of the program: its one callback returns 0. *)
Definition test_callbacks (env : Environment) : Environment :=
  {| nfnl_query_reply := nfnl_query_reply;
     nfnl_rcvbufsiz_reply := nfnl_rcvbufsiz_reply;
     calloc_reply := calloc_reply;
     callback_run := fun _ _ _ _ _ => 0 |}.

Section Main.

Context {host : Host} {env : Environment} {transport : Transport}.

(** [nflog_handle_packet(h, buf, len)] is [nfnl_handle_packet(h->nfnlh, buf,
    len)].  After libnfnetlink, and as the comment of the function has it
    ("0 on success, -1 if either the callback returned -ve or buf contains
    corrupt data"): the packet messages of the buffer, here [msgs], each
    with the attribute table made for it, are handed in order to the
    callback that [nflog_open_nfnl] registered, [__nflog_rcv_pkt]; a
    negative result ends the call with -1, and the end of the buffer
    with 0. *)
Fixpoint nflog_handle_packet (w : world) (msgs : list (nfgenmsg * nfattr_table))
  : Z * world :=
  match msgs with
  | [] => (0, w)
  | (nfmsg, nfa) :: rest =>
      let (r, w1) := __nflog_rcv_pkt w nfmsg nfa in
      if r <? 0 then (-1, w1) else nflog_handle_packet w1 rest
  end.

(** What the callbacks among some events have printed: each of them is
    the callback of the program, on the record of the event. *)
Fixpoint printed (evs : list event) : option (list byte) :=
  match evs with
  | [] => Some []
  | ev_callback _ _ _ nfad _ :: rest =>
      r <- test_cb nfad ;;
      out <- printed rest ;;
      Some (snd r ++ out)
  | _ :: rest => printed rest
  end.

(** [while ((rv = recv(fd, buf, sizeof(buf), 0)) && rv >= 0) { ... }] over
    the results of the successive calls of [recv], each with the packet
    messages of the bytes received; [None] when the results end while the
    loop goes on, or a callback has no defined result. *)
Fixpoint main_loop (results : list (Z * list (nfgenmsg * nfattr_table)))
         (p : process) : option process :=
  match results with
  | [] => None
  | (rv, msgs) :: rest =>
      if negb (rv =? 0) && (rv >=? 0) then
        let p1 := printf p (txt "pkt received (len=" ++ fmt_u rv ++ txt ")"
                            ++ nl) in
        let (_, w) := nflog_handle_packet (session p1) msgs in
        out <- printed (skipn (List.length (trace (session p1))) (trace w)) ;;
        main_loop rest (printf (set_session p1 w) out)
      else Some p
  end.

End Main.

Section Program.

Context {host : Host} {env : Environment} {transport : Transport}.

(** [main(argc, argv)]: the exit status and the final state.  [cb] is the
    address of the callback and [recv fd] the results of the calls of
    [recv] on the descriptor [fd]. *)
Definition main (cb : Z) (recv : Z -> list (Z * list (nfgenmsg * nfattr_table)))
           (p : process) : option (Z * process) :=
  let (h, s) := nflog_open (setup_calls p) in
  let p := set_setup p s in
  match h with
  | None => Some (1, perror p "nflog_open")
  | Some h =>
  let p := set_session p (set_gh_list (session p) (h_gh_list (snd h))) in
  let p := printf p (txt "unbinding existing nf_log handler for AF_INET (if any)"
                     ++ nl) in
  let (r, w) := nflog_unbind_pf (session p) AF_INET in
  let p := set_session p w in
  if r <? 0 then Some (1, perror p "nflog_unbind_pf") else
  let p := printf p (txt "binding nfnetlink_log to AF_INET" ++ nl) in
  let (r, w) := nflog_bind_pf (session p) AF_INET in
  let p := set_session p w in
  if r <? 0 then Some (1, perror p "nflog_bind_pf") else
  let p := printf p (txt "binding this socket to group 0" ++ nl) in
  let (gh, w) := nflog_bind_group (session p) 0 in
  let p := set_session p w in
  match gh with
  | None => Some (1, perror p "nflog_bind_group 0")
  | Some gh =>
  let p := printf p (txt "binding this socket to group 100" ++ nl) in
  let (gh100, w) := nflog_bind_group (session p) 100 in
  let p := set_session p w in
  match gh100 with
  | None => Some (1, perror p "nflog_bind_group 100")
  | Some gh100 =>
  let p := printf p (txt "setting copy_packet mode" ++ nl) in
  r <- nflog_set_mode (session p) gh NFULNL_COPY_PACKET 65535 ;;
  let p := set_session p (snd r) in
  if fst r <? 0 then Some (1, perror p "nflog_set_mode NFULNL_COPY_PACKET") else
  let fd := nflog_fd (snd h) in
  let p := printf p (txt "registering callback for group 0" ++ nl) in
  r <- nflog_callback_register (session p) gh (Some cb) 0 ;;
  let p := set_session p (snd r) in
  let p := printf p (txt "going into main loop" ++ nl) in
  p <- main_loop (env := test_callbacks env) (recv fd) p ;;
  let p := printf p (txt "unbinding from group 100" ++ nl) in
  r <- nflog_unbind_group (session p) gh100 ;;
  let p := set_session p (snd r) in
  let p := printf p (txt "unbinding from group 0" ++ nl) in
  r <- nflog_unbind_group (session p) gh ;;
  let p := set_session p (snd r) in
  let p := printf p (txt "closing handle" ++ nl) in
  let (_, s) := nflog_close (setup_calls p) h in
  Some (EXIT_SUCCESS, set_setup p s)
  end end end.

End Program.

(** The requests among some events, in order. *)
Fixpoint requests (evs : list event) : list nlmsghdr :=
  match evs with
  | [] => []
  | ev_nfnl_query m :: rest => m :: requests rest
  | _ :: rest => requests rest
  end.

(** A kernel that takes every request and an allocator that has memory. *)
Definition kernel_acks {env : Environment} : Prop :=
  (forall tr m, nfnl_query_reply tr m = (0, 0))
  /\ (forall tr live, calloc_reply tr live <> None).

(** Results of [recv] that end the loop of [main]: some datagrams whose
    records [print_pkt] can print, then the end of the input or an
    error. *)
Definition recv_ends (results : list (Z * list (nfgenmsg * nfattr_table)))
  : Prop :=
  exists packets rv msgs rest,
    results = packets ++ (rv, msgs) :: rest
    /\ rv <= 0
    /\ Forall (fun r => 0 < fst r
                        /\ Forall (fun m => printable {| nfa := snd m |})
                                  (snd r)) packets.

(** A callback event of the dispatch of one of the messages [msgs] in the
    registry [l]. *)
Definition dispatched {host : Host} (l : list nflog_g_handle)
           (msgs : list (nfgenmsg * nfattr_table)) (e : event) : Prop :=
  exists nfmsg nfa gh f,
    In (nfmsg, nfa) msgs
    /\ find_gh l (u16 (ntohs (res_id nfmsg))) = Some gh
    /\ cb gh = Some f
    /\ e = ev_callback f (self gh) nfmsg {| nfa := nfa |} (data gh).


(* ================================================================== *)
(** * Facts on bytes and byte order *)
(* ================================================================== *)

Lemma bz_range (b : byte) : 0 <= bz b < 256.
Proof.
  unfold bz. pose proof (Byte.to_N_bounded b). lia.
Qed.

Lemma byte_of_0 (r q : Z) : 0 <= r < 256 -> byte_of (r + 2 ^ 8 * q) 0 = r.
Proof.
  intros Hr. unfold byte_of. change (2 ^ (8 * 0)) with 1. rewrite Z.div_1_r.
  change (2 ^ 8) with 256. Z.div_mod_to_equations. lia.
Qed.

Lemma byte_of_succ (r q k : Z) :
  0 <= r < 256 -> 0 <= k -> byte_of (r + 2 ^ 8 * q) (k + 1) = byte_of q k.
Proof.
  intros Hr Hk. unfold byte_of.
  replace (8 * (k + 1)) with (8 + 8 * k) by lia.
  rewrite Z.pow_add_r by lia.
  assert (Hp : 0 < 2 ^ (8 * k)) by (apply Z.pow_pos_nonneg; lia).
  rewrite <- Z.div_div by lia.
  replace ((r + 2 ^ 8 * q) / 2 ^ 8) with q; [reflexivity|].
  change (2 ^ 8) with 256. Z.div_mod_to_equations. lia.
Qed.

Lemma byte_of_step (r q k : Z) :
  0 <= r < 256 -> 1 <= k -> byte_of (r + 2 ^ 8 * q) k = byte_of q (k - 1).
Proof.
  intros Hr Hk. replace k with ((k - 1) + 1) at 1 by lia.
  apply byte_of_succ; lia.
Qed.

Ltac byte_of_norm :=
  repeat first
    [ rewrite byte_of_0 by assumption
    | rewrite byte_of_step by (assumption || lia)
    | match goal with
      | |- context [byte_of _ (?a - 1)] =>
          let v := eval compute in (a - 1) in change (a - 1) with v
      end ].

Ltac load_norm :=
  unfold load_u8, load_u16, load_u32, load_u64, load;
  cbn [List.length Nat.leb firstn option_map le_value be_value].

Ltac pow_norm :=
  repeat match goal with
         | |- context [2 ^ (8 * Z.of_nat ?n)] =>
             let v := eval compute in (8 * Z.of_nat n) in
             change (8 * Z.of_nat n) with v
         end;
  change (2 ^ 0) with 1.

Section ByteOrderFacts.

Context {host : Host}.

(** Whatever the host, a load followed by the conversion to host order
    gives the network-order value of the bytes. *)
Lemma ntohs_load (b0 b1 : byte) (r : list byte) :
  option_map ntohs (load_u16 (b0 :: b1 :: r)) = Some (be_value [b0; b1]).
Proof.
  load_norm. unfold ntohs. destruct host_big_endian; [reflexivity|].
  f_equal. unfold bswap16.
  pose proof (bz_range b0). pose proof (bz_range b1).
  byte_of_norm. pow_norm. lia.
Qed.

Lemma ntohl_load (b0 b1 b2 b3 : byte) (r : list byte) :
  option_map ntohl (load_u32 (b0 :: b1 :: b2 :: b3 :: r))
  = Some (be_value [b0; b1; b2; b3]).
Proof.
  load_norm. unfold ntohl. destruct host_big_endian; [reflexivity|].
  f_equal. unfold bswap32.
  pose proof (bz_range b0). pose proof (bz_range b1).
  pose proof (bz_range b2). pose proof (bz_range b3).
  byte_of_norm. pow_norm. lia.
Qed.

Lemma be64_load (b0 b1 b2 b3 b4 b5 b6 b7 : byte) (r : list byte) :
  option_map __be64_to_cpu
             (load_u64 (b0 :: b1 :: b2 :: b3 :: b4 :: b5 :: b6 :: b7 :: r))
  = Some (be_value [b0; b1; b2; b3; b4; b5; b6; b7]).
Proof.
  load_norm. unfold __be64_to_cpu. destruct host_big_endian; [reflexivity|].
  f_equal. unfold bswap64.
  pose proof (bz_range b0). pose proof (bz_range b1).
  pose proof (bz_range b2). pose proof (bz_range b3).
  pose proof (bz_range b4). pose proof (bz_range b5).
  pose proof (bz_range b6). pose proof (bz_range b7).
  byte_of_norm. pow_norm. lia.
Qed.

Lemma be_value_range (bs : list byte) :
  0 <= be_value bs < 2 ^ (8 * Z.of_nat (List.length bs)).
Proof.
  induction bs as [|b r IH]; [cbn; lia|].
  cbn [be_value List.length].
  pose proof (bz_range b) as Hb.
  replace (8 * Z.of_nat (S (List.length r)))
    with (8 + 8 * Z.of_nat (List.length r)) by lia.
  rewrite Z.pow_add_r by lia. change (2 ^ 8) with 256. nia.
Qed.

Lemma load_some (n : nat) (p : list byte) :
  (n <= List.length p)%nat -> exists v, load n p = Some v.
Proof.
  intros H. unfold load.
  destruct (Nat.leb_spec n (List.length p)); [eexists; reflexivity | lia].
Qed.

Lemma load_none (n : nat) (p : list byte) :
  (List.length p < n)%nat -> load n p = None.
Proof.
  intros H. unfold load.
  destruct (Nat.leb_spec n (List.length p)); [lia | reflexivity].
Qed.

End ByteOrderFacts.

(* ================================================================== *)
(** * Facts on the nested attribute walk *)
(* ================================================================== *)

Lemma MNL_ALIGN_eq (l : Z) : MNL_ALIGN l = (l + 3) / 4 * 4.
Proof.
  unfold MNL_ALIGN. rewrite <- Z.ldiff_land.
  change (Z.ldiff (l + 3) 3) with (Z.ldiff (l + 3) (Z.ones 2)).
  rewrite Z.ldiff_ones_r, Z.shiftl_mul_pow2, Z.shiftr_div_pow2 by lia.
  reflexivity.
Qed.

Lemma MNL_ALIGN_bounds (l : Z) : l <= MNL_ALIGN l < l + 4.
Proof.
  rewrite MNL_ALIGN_eq. Z.div_mod_to_equations. lia.
Qed.

Lemma le_value_range (bs : list byte) :
  0 <= le_value bs < 2 ^ (8 * Z.of_nat (List.length bs)).
Proof.
  induction bs as [|b r IH]; [cbn; lia|].
  cbn [le_value List.length].
  pose proof (bz_range b) as Hb.
  replace (8 * Z.of_nat (S (List.length r)))
    with (8 + 8 * Z.of_nat (List.length r)) by lia.
  rewrite Z.pow_add_r by lia. change (2 ^ 8) with 256. nia.
Qed.

Lemma bz_byte_of_Z (x : Z) : bz (byte_of_Z x) = x mod 256.
Proof.
  pose proof (Z.mod_pos_bound x 256 ltac:(lia)) as Hx.
  unfold byte_of_Z, bz.
  destruct (Byte.of_N (Z.to_N (x mod 256))) as [b|] eqn:E.
  - apply Byte.to_of_N in E. rewrite E. lia.
  - apply Byte.of_N_None_iff in E. lia.
Qed.

Section WalkFacts.

Context {host : Host}.

Lemma load_range (n : nat) (p : list byte) (v : Z) :
  load n p = Some v -> 0 <= v < 2 ^ (8 * Z.of_nat n).
Proof.
  unfold load. destruct (Nat.leb_spec n (List.length p)) as [H|H]; [|discriminate].
  intros [= <-].
  assert (Hl : List.length (firstn n p) = n) by (rewrite length_firstn; lia).
  destruct host_big_endian.
  - pose proof (be_value_range (firstn n p)) as R. now rewrite Hl in R.
  - pose proof (le_value_range (firstn n p)) as R. now rewrite Hl in R.
Qed.

Lemma load_app (n : nat) (p r : list byte) :
  (n <= List.length p)%nat -> load n (p ++ r) = load n p.
Proof.
  intros H. unfold load. rewrite length_app.
  destruct (Nat.leb_spec n (List.length p)); [|lia].
  destruct (Nat.leb_spec n (List.length p + List.length r)); [|lia].
  rewrite firstn_app. replace (n - List.length p)%nat with 0%nat by lia.
  cbn [firstn]. now rewrite app_nil_r.
Qed.

Lemma load_store_u16 (x : Z) (r : list byte) :
  0 <= x < 2 ^ 16 -> load_u16 (store_u16 x ++ r) = Some x.
Proof.
  intros Hx. unfold load_u16. rewrite load_app.
  2:{ unfold store_u16. destruct host_big_endian; cbn; lia. }
  unfold load, store_u16.
  destruct host_big_endian; cbn [List.length Nat.leb firstn be_value le_value];
    rewrite !bz_byte_of_Z; f_equal; pow_norm;
    change (2 ^ 16) with 65536 in Hx; change (2 ^ 8) with 256;
    Z.div_mod_to_equations; lia.
Qed.

Lemma store_u16_length (x : Z) : List.length (store_u16 x) = 2%nat.
Proof. unfold store_u16. now destruct host_big_endian. Qed.

(** An attribute the walk accepts has a whole header and at least as many
    bytes as its header declares. *)
Lemma mnl_attr_ok_inv (attr : list byte) :
  mnl_attr_ok attr = true ->
  exists l, nla_len attr = Some l
            /\ 4 <= l <= Z.of_nat (List.length attr) /\ l < 2 ^ 16.
Proof.
  unfold mnl_attr_ok. intros H.
  apply andb_true_iff in H. destruct H as [H4 H].
  destruct (nla_len attr) as [l|] eqn:E; [|discriminate].
  apply andb_true_iff in H. destruct H as [Hl Hr].
  exists l. split; [reflexivity|].
  apply (load_range 2) in E. change (2 ^ (8 * Z.of_nat 2)) with (2 ^ 16) in E.
  lia.
Qed.

Lemma nla_type_some (attr : list byte) :
  4 <= Z.of_nat (List.length attr) -> exists t, nla_type attr = Some t.
Proof.
  intros H. apply load_some. rewrite length_skipn. lia.
Qed.

(** The walk ends before its bound: with more iterations than the nest has
    bytes the loop has a value, and the attribute it finds, if any, has
    passed [mnl_attr_ok]. *)
Lemma ctid_loop_total (n : nat) :
  forall attr : list byte,
    (List.length attr < n)%nat ->
    ctid_loop n attr = Some None
    \/ exists ida, ctid_loop n attr = Some (Some ida) /\ mnl_attr_ok ida = true.
Proof.
  induction n as [|n IH]; intros attr Hn; [lia|].
  cbn [ctid_loop]. destruct (mnl_attr_ok attr) eqn:Hok; [|now left].
  destruct (mnl_attr_ok_inv _ Hok) as (l & Hl & Hb & _).
  destruct (nla_type_some attr ltac:(lia)) as (t & Ht).
  unfold mnl_attr_get_type, mnl_attr_next. rewrite Ht, Hl.
  destruct (Z.land t NLA_TYPE_MASK =? CTA_ID).
  - right. exists attr. now split.
  - apply IH. rewrite length_skipn.
    pose proof (MNL_ALIGN_bounds l). lia.
Qed.

(** More iterations do not change a value the loop has. *)
Lemma ctid_loop_mono (n : nat) :
  forall (attr : list byte) (r : option (list byte)) (m : nat),
    ctid_loop n attr = Some r -> (n <= m)%nat -> ctid_loop m attr = Some r.
Proof.
  induction n as [|n IH]; intros attr r m H Hm; [discriminate|].
  destruct m as [|m]; [lia|]. cbn [ctid_loop] in *.
  destruct (mnl_attr_ok attr); [|exact H].
  destruct (mnl_attr_get_type attr) as [t|]; [|discriminate].
  destruct (t =? CTA_ID); [exact H|].
  destruct (mnl_attr_next attr) as [next|]; [|discriminate].
  apply IH; [exact H | lia].
Qed.

(** ** The walk over well laid out attributes *)

Lemma nla_encode_length (a : nlattr) :
  Z.of_nat (List.length (nla_encode a))
  = MNL_ALIGN (MNL_ATTR_HDRLEN + Z.of_nat (List.length (attr_payload a))).
Proof.
  unfold nla_encode. rewrite !length_app, !store_u16_length, repeat_length.
  pose proof (MNL_ALIGN_bounds
                (MNL_ATTR_HDRLEN + Z.of_nat (List.length (attr_payload a)))).
  unfold MNL_ATTR_HDRLEN in *. lia.
Qed.

Lemma nla_fits_inv (a : nlattr) :
  nla_fits a = true ->
  0 <= attr_type a < 2 ^ 16
  /\ 4 <= MNL_ATTR_HDRLEN + Z.of_nat (List.length (attr_payload a)) < 2 ^ 16.
Proof.
  unfold nla_fits, MNL_ATTR_HDRLEN. intros H.
  apply andb_true_iff in H. destruct H as [H H3].
  apply andb_true_iff in H. destruct H as [H1 H2]. lia.
Qed.

Lemma nla_len_encode (a : nlattr) (r : list byte) :
  nla_fits a = true ->
  nla_len (nla_encode a ++ r)
  = Some (MNL_ATTR_HDRLEN + Z.of_nat (List.length (attr_payload a))).
Proof.
  intros H. apply nla_fits_inv in H. unfold nla_len, nla_encode.
  rewrite <- app_assoc. apply load_store_u16. lia.
Qed.

Lemma skipn_store_u16 (x : Z) (r : list byte) : skipn 2 (store_u16 x ++ r) = r.
Proof. unfold store_u16. now destruct host_big_endian. Qed.

Lemma nla_type_encode (a : nlattr) (r : list byte) :
  nla_fits a = true -> nla_type (nla_encode a ++ r) = Some (attr_type a).
Proof.
  intros H. apply nla_fits_inv in H. unfold nla_type, nla_encode.
  rewrite <- app_assoc, skipn_store_u16, <- app_assoc.
  apply load_store_u16. lia.
Qed.

Lemma mnl_attr_ok_encode (a : nlattr) (r : list byte) :
  nla_fits a = true -> mnl_attr_ok (nla_encode a ++ r) = true.
Proof.
  intros H. unfold mnl_attr_ok. rewrite (nla_len_encode a r H).
  pose proof (nla_fits_inv a H) as [_ Hl].
  pose proof (nla_encode_length a) as He.
  pose proof (MNL_ALIGN_bounds
                (MNL_ATTR_HDRLEN + Z.of_nat (List.length (attr_payload a)))).
  rewrite length_app.
  apply andb_true_iff. split; [|apply andb_true_iff; split];
    apply Z.leb_le; lia.
Qed.

Lemma mnl_attr_next_encode (a : nlattr) (r : list byte) :
  nla_fits a = true -> mnl_attr_next (nla_encode a ++ r) = Some r.
Proof.
  intros H. unfold mnl_attr_next. rewrite (nla_len_encode a r H).
  rewrite <- nla_encode_length, Nat2Z.id.
  rewrite skipn_app, Nat.sub_diag, skipn_all. reflexivity.
Qed.

(** The loop steps over the attributes that are not the id and stops at
    the first one that is. *)
Lemma ctid_loop_finds (pre : list nlattr) (a : nlattr) (rest : list byte) :
  forallb nla_fits pre = true ->
  forallb (fun x => negb (is_ctid x)) pre = true ->
  nla_fits a = true -> is_ctid a = true ->
  forall k : nat,
    ctid_loop (S (List.length pre + k))
              (flat_map nla_encode pre ++ nla_encode a ++ rest)
    = Some (Some (nla_encode a ++ rest)).
Proof.
  intros Hfit Hno Ha Hid.
  induction pre as [|x pre IH]; intros k.
  - cbn [flat_map List.length Nat.add ctid_loop]. rewrite app_nil_l.
    rewrite (mnl_attr_ok_encode a rest Ha).
    unfold mnl_attr_get_type. rewrite (nla_type_encode a rest Ha).
    unfold is_ctid in Hid. now rewrite Hid.
  - cbn [forallb] in Hfit, Hno.
    apply andb_true_iff in Hfit. destruct Hfit as [Hx Hfit].
    apply andb_true_iff in Hno. destruct Hno as [Hnx Hno].
    cbn [flat_map List.length Nat.add]. rewrite <- app_assoc.
    cbn [ctid_loop].
    rewrite (mnl_attr_ok_encode x _ Hx).
    unfold mnl_attr_get_type. rewrite (nla_type_encode x _ Hx).
    unfold is_ctid in Hnx. apply negb_true_iff in Hnx. rewrite Hnx.
    rewrite (mnl_attr_next_encode x _ Hx).
    now apply IH.
Qed.

Lemma ctid_loop_misses (pre : list nlattr) :
  forallb nla_fits pre = true ->
  forallb (fun x => negb (is_ctid x)) pre = true ->
  forall k : nat,
    ctid_loop (S (List.length pre + k)) (flat_map nla_encode pre) = Some None.
Proof.
  intros Hfit Hno.
  induction pre as [|x pre IH]; intros k.
  - reflexivity.
  - cbn [forallb] in Hfit, Hno.
    apply andb_true_iff in Hfit. destruct Hfit as [Hx Hfit].
    apply andb_true_iff in Hno. destruct Hno as [Hnx Hno].
    cbn [flat_map List.length Nat.add ctid_loop].
    rewrite (mnl_attr_ok_encode x _ Hx).
    unfold mnl_attr_get_type. rewrite (nla_type_encode x _ Hx).
    unfold is_ctid in Hnx. apply negb_true_iff in Hnx. rewrite Hnx.
    rewrite (mnl_attr_next_encode x _ Hx).
    now apply IH.
Qed.

End WalkFacts.

Section CtidFacts.

Context {host : Host}.

Lemma ntohl_load_range (p : list byte) :
  (4 <= List.length p)%nat ->
  exists w, load_u32 p = Some w /\ 0 <= ntohl w < 2 ^ 32.
Proof.
  intros H.
  destruct p as [|b0 [|b1 [|b2 [|b3 r]]]]; cbn [List.length] in H; try lia.
  pose proof (ntohl_load b0 b1 b2 b3 r) as E.
  destruct (load_u32 (b0 :: b1 :: b2 :: b3 :: r)) as [w|]; [|discriminate].
  exists w. split; [reflexivity|].
  cbn [option_map] in E. injection E as ->.
  apply (be_value_range [b0; b1; b2; b3]).
Qed.

Lemma ctid_of_total (ida : list byte) (id : Z) :
  mnl_attr_ok ida = true ->
  ctid_of ida id = Some (-1, id)
  \/ exists v, ctid_of ida id = Some (0, v) /\ 0 <= v < 2 ^ 32.
Proof.
  intros Hok. destruct (mnl_attr_ok_inv _ Hok) as (l & Hl & Hb & H16).
  unfold ctid_of, mnl_attr_validate, mnl_attr_get_payload_len.
  rewrite Hl. unfold u16, MNL_ATTR_HDRLEN.
  rewrite Z.mod_small by lia. cbn [mnl_attr_data_type_len].
  destruct (Z.ltb_spec (l - 4) 4); [now left|].
  change (negb (4 =? 0)) with true. cbn [andb].
  destruct (Z.gtb_spec (l - 4) 4); [now left|].
  change (0 <? 0) with false. cbv iota.
  destruct (ntohl_load_range (mnl_attr_get_payload ida)) as (w & Hw & Hr).
  { unfold mnl_attr_get_payload. rewrite length_skipn.
    unfold MNL_ATTR_HDRLEN. lia. }
  unfold mnl_attr_get_u32. rewrite Hw. right. eexists. split; [reflexivity|].
  exact Hr.
Qed.

Lemma ctid_of_encode (a : nlattr) (rest : list byte) (id : Z) :
  nla_fits a = true ->
  ctid_of (nla_encode a ++ rest) id
  = if (List.length (attr_payload a) =? 4)%nat
    then Some (0, be_value (attr_payload a))
    else Some (-1, id).
Proof.
  intros Hfit. pose proof (nla_fits_inv a Hfit) as [_ Hl].
  unfold ctid_of, mnl_attr_validate, mnl_attr_get_payload_len.
  rewrite (nla_len_encode a rest Hfit).
  unfold MNL_ATTR_HDRLEN in *. unfold u16.
  replace (4 + Z.of_nat (List.length (attr_payload a)) - 4)
    with (Z.of_nat (List.length (attr_payload a))) by lia.
  rewrite Z.mod_small by lia. cbn [mnl_attr_data_type_len].
  destruct (Nat.eqb_spec (List.length (attr_payload a)) 4) as [E|N].
  - rewrite E. change (Z.of_nat 4 <? 4) with false.
    change (negb (4 =? 0) && (Z.of_nat 4 >? 4)) with false.
    change (0 <? 0) with false. cbv iota.
    unfold mnl_attr_get_u32, mnl_attr_get_payload, nla_encode, MNL_ATTR_HDRLEN.
    change (Z.to_nat 4) with (2 + 2)%nat. rewrite <- skipn_skipn.
    rewrite <- !app_assoc, !skipn_store_u16.
    destruct (attr_payload a) as [|b0 [|b1 [|b2 [|b3 [|b4 r]]]]];
      try discriminate E.
    cbn [app].
    pose proof (ntohl_load b0 b1 b2 b3
                  (repeat x00 (Z.to_nat (MNL_ALIGN (4 + Z.of_nat 4) - (4 + Z.of_nat 4)))
                   ++ rest)) as Hn.
    cbn [List.length].
    destruct (load_u32 _) as [w|]; [|discriminate].
    cbn [option_map] in Hn. injection Hn as ->. reflexivity.
  - destruct (Z.ltb_spec (Z.of_nat (List.length (attr_payload a))) 4);
      [reflexivity|].
    change (negb (4 =? 0)) with true. cbn [andb].
    destruct (Z.gtb_spec (Z.of_nat (List.length (attr_payload a))) 4);
      [reflexivity | lia].
Qed.

Lemma get_ctid_unfold (nfad : nflog_data) (id : Z) (cta : nfattr) :
  nfa nfad NFULA_CT = Some cta ->
  nflog_get_ctid nfad id
  = ida <- ctid_loop (S (List.length (NFA_DATA cta))) (NFA_DATA cta) ;;
    match ida with
    | None => Some (-1, id)
    | Some ida => ctid_of ida id
    end.
Proof. intros H. unfold nflog_get_ctid. now rewrite H. Qed.

(** The value of the loop on a nest, whatever bound at least the one of
    [nflog_get_ctid] it is run with. *)
Lemma ctid_loop_value (data : list byte) (n : nat) (r : option (list byte)) :
  ctid_loop n data = Some r ->
  ctid_loop (S (List.length data)) data = Some r.
Proof.
  intros H.
  destruct (Nat.le_ge_cases n (S (List.length data))) as [Hle|Hge].
  - eapply ctid_loop_mono; eassumption.
  - destruct (ctid_loop_total (n := S (List.length data)) data ltac:(lia))
      as [E|(ida & E & _)];
      rewrite E; rewrite (ctid_loop_mono _ E Hge) in H; exact H.
Qed.

(** On any record the call ends, unavailable or with a 32-bit value. *)
Lemma get_ctid_total (nfad : nflog_data) (id : Z) :
  nflog_get_ctid nfad id = Some (-1, id)
  \/ exists v, nflog_get_ctid nfad id = Some (0, v) /\ 0 <= v < 2 ^ 32.
Proof.
  destruct (nfa nfad NFULA_CT) as [cta|] eqn:Hct.
  - rewrite (get_ctid_unfold nfad id Hct).
    destruct (ctid_loop_total (n := S (List.length (NFA_DATA cta)))
                              (NFA_DATA cta) ltac:(lia))
      as [E|(ida & E & Hok)]; rewrite E.
    + now left.
    + now apply ctid_of_total.
  - left. unfold nflog_get_ctid. now rewrite Hct.
Qed.

End CtidFacts.

(* ================================================================== *)
(** * Facts on the group registry *)
(* ================================================================== *)

Lemma u16_idem (x : Z) : u16 (u16 x) = u16 x.
Proof. unfold u16. apply Z.mod_mod. lia. Qed.

Lemma find_gh_some (l : list nflog_g_handle) (group : Z) (gh : nflog_g_handle) :
  find_gh l group = Some gh -> In gh l /\ id gh = group.
Proof.
  induction l as [|x l IH]; cbn [find_gh]; [discriminate|].
  destruct (Z.eqb_spec (id x) group) as [E|N].
  - intros [= <-]. split; [now left | exact E].
  - intros H. destruct (IH H) as [Hin Hid]. split; [now right | exact Hid].
Qed.

Lemma find_gh_none (l : list nflog_g_handle) (group : Z) :
  find_gh l group = None <-> ~ In group (map id l).
Proof.
  induction l as [|x l IH]; cbn [find_gh map In]; [tauto|].
  destruct (Z.eqb_spec (id x) group) as [E|N].
  - split; [discriminate | intros H; exfalso; apply H; now left].
  - rewrite IH. tauto.
Qed.

Lemma deref_some (l : list nflog_g_handle) (gh : Z) (g : nflog_g_handle) :
  deref l gh = Some g -> In g l /\ self g = gh.
Proof.
  induction l as [|x l IH]; cbn [deref]; [discriminate|].
  destruct (Z.eqb_spec (self x) gh) as [E|N].
  - intros [= <-]. split; [now left | exact E].
  - intros H. destruct (IH H) as [Hin Hs]. split; [now right | exact Hs].
Qed.

Lemma deref_none (l : list nflog_g_handle) (gh : Z) :
  deref l gh = None <-> ~ In gh (map self l).
Proof.
  induction l as [|x l IH]; cbn [deref map In]; [tauto|].
  destruct (Z.eqb_spec (self x) gh) as [E|N].
  - split; [discriminate | intros H; exfalso; apply H; now left].
  - rewrite IH. tauto.
Qed.

Lemma del_gh_incl (l : list nflog_g_handle) (gh : Z) (x : nflog_g_handle) :
  In x (del_gh l gh) -> In x l.
Proof.
  induction l as [|y l IH]; cbn [del_gh]; [tauto|].
  destruct (self y =? gh); cbn [In]; tauto.
Qed.

Lemma del_gh_NoDup {A : Type} (f : nflog_g_handle -> A)
      (l : list nflog_g_handle) (gh : Z) :
  NoDup (map f l) -> NoDup (map f (del_gh l gh)).
Proof.
  induction l as [|y l IH]; cbn [del_gh map]; [trivial|].
  intros H. inversion H as [|? ? Hnin Hnd]; subst.
  destruct (self y =? gh); [exact Hnd|].
  cbn [map]. constructor; [|now apply IH].
  intros Hin. apply Hnin.
  apply in_map_iff in Hin. destruct Hin as (x & Hx & Hxin).
  apply in_map_iff. exists x. split; [exact Hx|].
  eapply del_gh_incl; eassumption.
Qed.

(** After [del_gh], the address is no live handle any more. *)
Lemma deref_del_gh (l : list nflog_g_handle) (gh : Z) :
  NoDup (map self l) -> deref (del_gh l gh) gh = None.
Proof.
  induction l as [|y l IH]; cbn [del_gh map]; [reflexivity|].
  intros H. inversion H as [|? ? Hnin Hnd]; subst.
  destruct (Z.eqb_spec (self y) gh) as [E|N].
  - apply deref_none. now rewrite <- E.
  - cbn [deref]. destruct (Z.eqb_spec (self y) gh); [contradiction|].
    now apply IH.
Qed.

(** After [del_gh], the group of the handle is not served any more. *)
Lemma find_gh_del_gh (l : list nflog_g_handle) (gh : Z) (g : nflog_g_handle) :
  NoDup (map id l) -> deref l gh = Some g ->
  find_gh (del_gh l gh) (id g) = None.
Proof.
  induction l as [|y l IH]; cbn [del_gh deref map]; [discriminate|].
  intros H. inversion H as [|? ? Hnin Hnd]; subst.
  destruct (Z.eqb_spec (self y) gh) as [E|N].
  - intros [= <-]. now apply find_gh_none.
  - intros Hd. cbn [find_gh].
    destruct (Z.eqb_spec (id y) (id g)) as [E'|N'].
    + exfalso. apply Hnin. rewrite E'.
      apply in_map. now apply (deref_some l gh).
    + now apply IH.
Qed.

(** [del_gh] leaves the other handles alone. *)
Lemma deref_del_gh_other (l : list nflog_g_handle) (gh gh' : Z) :
  gh' <> gh -> deref (del_gh l gh) gh' = deref l gh'.
Proof.
  intros Hne. induction l as [|y l IH]; cbn [del_gh deref]; [reflexivity|].
  destruct (Z.eqb_spec (self y) gh) as [E|N].
  - destruct (Z.eqb_spec (self y) gh'); [congruence | reflexivity].
  - cbn [deref]. now rewrite IH.
Qed.

Section SessionFacts.

Context {host : Host} {env : Environment}.

Lemma build_send_cfg_msg_spec (w : world) (command : nfulnl_msg_config_cmds)
      (groupnum pf : Z) :
  let m := cfg_request command groupnum pf in
  __build_send_cfg_msg w command groupnum pf
  = (fst (nfnl_query_reply (trace w) m),
     {| gh_list := gh_list w;
        errno := snd (nfnl_query_reply (trace w) m);
        trace := trace w ++ [ev_nfnl_query m] |}).
Proof.
  cbn zeta. unfold __build_send_cfg_msg, cfg_request, nfnl_query.
  destruct (nfnl_query_reply _ _) as [status e]. reflexivity.
Qed.

(** The registry invariant holds at [nflog_open] and every operation of the
    public interface keeps it. *)
Lemma registry_wf_open : registry_wf [].
Proof. split; constructor. Qed.

Lemma registry_wf_bind (w : world) (num : Z) :
  allocator_fresh -> registry_wf (gh_list w) ->
  registry_wf (gh_list (snd (nflog_bind_group w num))).
Proof.
  intros Hfresh [Hs Hi]. unfold nflog_bind_group.
  destruct (find_gh (gh_list w) (u16 num)) eqn:Hf; [split; assumption|].
  destruct (calloc_reply _ _) as [p|] eqn:Hc; [|split; assumption].
  rewrite build_send_cfg_msg_spec. cbn zeta.
  destruct (_ <? 0); cbn [snd gh_list set_gh_list]; [split; assumption|].
  unfold add_gh. split; cbn [map self id]; constructor; trivial.
  - eapply Hfresh; eassumption.
  - now apply find_gh_none.
Qed.

Lemma registry_wf_unbind (w w' : world) (gh ret : Z) :
  registry_wf (gh_list w) -> nflog_unbind_group w gh = Some (ret, w') ->
  registry_wf (gh_list w').
Proof.
  intros [Hs Hi]. unfold nflog_unbind_group.
  destruct (deref _ _) as [g|]; [|discriminate].
  rewrite build_send_cfg_msg_spec. cbn zeta.
  destruct (_ =? 0); intros [= _ <-]; cbn [gh_list set_gh_list].
  - split; now apply del_gh_NoDup.
  - split; assumption.
Qed.

Lemma registry_wf_callback_register (w w' : world) (gh : Z) (f : option Z)
      (d ret : Z) :
  registry_wf (gh_list w) -> nflog_callback_register w gh f d = Some (ret, w') ->
  registry_wf (gh_list w').
Proof.
  intros [Hs Hi]. unfold nflog_callback_register.
  destruct (deref _ _); [|discriminate].
  intros [= _ <-]. cbn [gh_list set_gh_list].
  split; rewrite map_map.
  - erewrite map_ext; [exact Hs|]. intros a. now destruct (self a =? gh).
  - erewrite map_ext; [exact Hi|]. intros a. now destruct (self a =? gh).
Qed.

End SessionFacts.

Section Reachable.

Context {host : Host} {env : Environment}.

Lemma group_request_gh_list (w w' : world) (gh ret : Z)
      (attr : nfulnl_attr_config * cfg_payload) :
  group_request w gh attr = Some (ret, w') -> gh_list w' = gh_list w.
Proof.
  unfold group_request, nfnl_query.
  destruct (deref _ _); [|discriminate].
  destruct (nfnl_query_reply _ _). now intros [= _ <-].
Qed.

Lemma set_nlbufsiz_gh_list (w w' : world) (gh nlbufsiz ret : Z) :
  nflog_set_nlbufsiz w gh nlbufsiz = Some (ret, w') -> gh_list w' = gh_list w.
Proof.
  unfold nflog_set_nlbufsiz.
  destruct (group_request _ _ _) as [[status w1]|] eqn:E; [|discriminate].
  apply group_request_gh_list in E.
  destruct (status >=? 0).
  - unfold nfnl_rcvbufsiz. destruct (nfnl_rcvbufsiz_reply _ _).
    intros [= _ <-]. exact E.
  - now intros [= _ <-].
Qed.

(** Every step keeps the registry invariant, so it holds in every world an
    application can reach. *)
Lemma api_step_registry_wf (w w' : world) :
  allocator_fresh -> api_step w w' -> registry_wf (gh_list w) ->
  registry_wf (gh_list w').
Proof.
  intros Hfresh Hstep Hwf. destruct Hstep.
  - unfold nflog_bind_pf. now rewrite build_send_cfg_msg_spec.
  - unfold nflog_unbind_pf. now rewrite build_send_cfg_msg_spec.
  - now apply registry_wf_bind.
  - eapply registry_wf_unbind; eassumption.
  - eapply registry_wf_callback_register; eassumption.
  - unfold nflog_set_mode in *. erewrite group_request_gh_list; eassumption.
  - unfold nflog_set_timeout in *. erewrite group_request_gh_list; eassumption.
  - unfold nflog_set_qthresh in *. erewrite group_request_gh_list; eassumption.
  - erewrite set_nlbufsiz_gh_list; eassumption.
  - unfold nflog_set_flags in *. erewrite group_request_gh_list; eassumption.
  - unfold __nflog_rcv_pkt.
    destruct (find_gh _ _) as [gh|]; [|exact Hwf].
    destruct (cb gh); exact Hwf.
Qed.

Lemma reachable_registry_wf (w : world) :
  allocator_fresh -> reachable w -> registry_wf (gh_list w).
Proof.
  intros Hfresh H. induction H as [e|w w' _ IH Hstep].
  - apply registry_wf_open.
  - eapply api_step_registry_wf; eassumption.
Qed.

End Reachable.

(* ================================================================== *)
(** * Facts on the formatter *)
(* ================================================================== *)

(** ** Memory *)

Lemma store_bytes_outside (bs : list byte) :
  forall (m : memory) (a x : Z),
    x < a \/ a + Z.of_nat (List.length bs) <= x -> store_bytes m a bs x = m x.
Proof.
  induction bs as [|b r IH]; intros m a x H; cbn [store_bytes]; [reflexivity|].
  cbn [List.length] in H. rewrite IH by lia.
  unfold store. destruct (Z.eqb_spec x a); [lia | reflexivity].
Qed.

Lemma store_bytes_inside (bs : list byte) :
  forall (m : memory) (a : Z) (i : nat),
    (i < List.length bs)%nat ->
    nth_error bs i = Some (store_bytes m a bs (a + Z.of_nat i)).
Proof.
  induction bs as [|b r IH]; intros m a i H; cbn [List.length] in H; [lia|].
  cbn [store_bytes]. destruct i as [|i]; cbn [nth_error].
  - rewrite store_bytes_outside by lia.
    unfold store. replace (a + Z.of_nat 0) with a by lia.
    now rewrite Z.eqb_refl.
  - replace (a + Z.of_nat (S i)) with (a + 1 + Z.of_nat i) by lia.
    apply IH. lia.
Qed.

Lemma bytes_at_firstn (n : nat) :
  forall (out : list byte) (m : memory) (a : Z),
    (forall i, (i < n)%nat -> nth_error out i = Some (m (a + Z.of_nat i))) ->
    bytes_at m a n = firstn n out.
Proof.
  induction n as [|n IH]; intros out m a H; [reflexivity|].
  cbn [bytes_at].
  pose proof (H 0%nat ltac:(lia)) as H0.
  replace (a + Z.of_nat 0) with a in H0 by lia.
  destruct out as [|b out]; [discriminate|].
  cbn [nth_error] in H0. injection H0 as H0.
  cbn [firstn]. rewrite <- H0. f_equal.
  apply IH. intros i Hi.
  replace (a + 1 + Z.of_nat i) with (a + Z.of_nat (S i)) by lia.
  apply (H (S i)). lia.
Qed.

(** ** One fragment *)

Section Rendering.

Variable mem0 : memory.
Variable N : Z.

Lemma rendering_start :
  0 <= N <= INT_MAX -> rendering mem0 N (xstart mem0 N) [].
Proof.
  intros HN. unfold rendering, xstart. cbn [len offset rem buf List.length].
  repeat split; intros; try lia; reflexivity.
Qed.

(** With no capacity left a fragment writes nothing and is counted. *)
Lemma fragment_full (s : list byte) (st : xstate) :
  rem st = 0 ->
  Z.of_nat (List.length s) <= INT_MAX ->
  len st + Z.of_nat (List.length s) <= INT_MAX ->
  fragment s st
  = XOk tt {| buf := buf st; rem := 0; offset := offset st;
              len := len st + Z.of_nat (List.length s) |}.
Proof.
  intros Hrem Hs Hl. unfold fragment, snprintf, SNPRINTF_FAILURE.
  rewrite Hrem. change (INT_MAX <? 0) with false. cbn [orb].
  destruct (Z.ltb_spec INT_MAX (Z.of_nat (List.length s))); [lia|].
  change (0 <? 0) with false. cbv iota. cbn [len rem offset buf].
  destruct (Z.ltb_spec (Z.of_nat (List.length s)) 0); [lia|].
  destruct (Z.ltb_spec INT_MAX (len st + Z.of_nat (List.length s))); [lia|].
  destruct (Z.gtb_spec (Z.of_nat (List.length s)) 0) as [G|G].
  - f_equal. f_equal; lia.
  - f_equal. f_equal; lia.
Qed.

Lemma emits_fragment (s : list byte) : emits mem0 N (fragment s) s.
Proof.
  intros st out (Hcap & Hlen & Hoff & Hrem & Hout & Hin & Hnul) Hmax.
  rewrite length_app, Nat2Z.inj_add in Hmax.
  set (n := Z.of_nat (List.length out)) in *.
  set (k := Z.of_nat (List.length s)) in *.
  assert (Hn : 0 <= n) by (subst n; lia).
  assert (Hk : 0 <= k) by (subst k; lia).
  assert (Hnk : n + k <= INT_MAX) by (subst n k; lia).
  destruct (Z.le_gt_cases N n) as [Hfull|Hroom].
  - (* nothing left *)
    assert (Hr0 : rem st = 0) by lia.
    rewrite fragment_full by (fold k; lia).
    eexists. split; [reflexivity|].
    unfold rendering. cbn [len offset rem buf].
    rewrite length_app, Nat2Z.inj_add. fold n k. repeat split; try lia.
    + exact Hout.
    + intros i Hi. rewrite nth_error_app1 by lia. apply Hin. lia.
    + intros HN _. replace (Z.min (n + k) (N - 1)) with (Z.min n (N - 1)) by lia.
      apply Hnul; lia.
  - (* room for at least the NUL *)
    assert (Ho : offset st = n) by lia.
    assert (Hr : rem st = N - n) by lia.
    unfold fragment, snprintf, SNPRINTF_FAILURE. fold k.
    destruct (Z.ltb_spec INT_MAX (rem st)); [lia|].
    destruct (Z.ltb_spec INT_MAX k); [lia|]. cbn [orb].
    destruct (Z.ltb_spec 0 (rem st)); [|lia].
    cbn [len rem offset buf].
    destruct (Z.ltb_spec k 0); [lia|].
    destruct (Z.ltb_spec INT_MAX (len st + k)); [lia|].
    eexists. split; [reflexivity|].
    set (w := firstn (Z.to_nat (rem st - 1)) s ++ [x00]).
    assert (Hw : Z.of_nat (List.length w) = Z.min k (rem st - 1) + 1).
    { subst w. rewrite length_app, length_firstn. cbn [List.length]. lia. }
    unfold rendering. cbn [len offset rem buf].
    rewrite length_app, Nat2Z.inj_add. fold n k.
    split; [exact Hcap|]. split; [lia|]. split.
    { destruct (Z.gtb_spec k (rem st)); lia. }
    split.
    { destruct (Z.gtb_spec k (rem st)); lia. }
    split; [|split].
    + intros a Ha. rewrite store_bytes_outside by lia. now apply Hout.
    + intros i Hi.
      destruct (Z.lt_ge_cases i n) as [Hlo|Hhi].
      * rewrite store_bytes_outside by lia.
        rewrite nth_error_app1 by lia. apply Hin. lia.
      * rewrite nth_error_app2 by lia.
        replace i with (offset st + Z.of_nat (Z.to_nat i - List.length out)) at 2
          by lia.
        rewrite <- (store_bytes_inside w (buf st) (offset st)) by lia.
        subst w. rewrite nth_error_app1 by (rewrite length_firstn; lia).
        rewrite nth_error_firstn.
        replace (Z.to_nat i - List.length out <? Z.to_nat (rem st - 1))%nat
          with true by (symmetry; apply Nat.ltb_lt; lia).
        reflexivity.
    + intros HN _.
      replace (Z.min (n + k) (N - 1))
        with (offset st + Z.of_nat (List.length (firstn (Z.to_nat (rem st - 1)) s)))
        by (rewrite length_firstn; lia).
      assert (E : nth_error w (List.length (firstn (Z.to_nat (rem st - 1)) s))
                  = Some x00).
      { subst w. rewrite nth_error_app2 by lia. now rewrite Nat.sub_diag. }
      rewrite (store_bytes_inside w (buf st) (offset st)) in E
        by (rewrite length_firstn in *; lia).
      now injection E.
Qed.

End Rendering.

(** ** Statements that render a text *)

Section Emits.

Variable mem0 : memory.
Variable N : Z.

Lemma emits_ret : emits mem0 N (xret tt) [].
Proof.
  intros st out H _. exists st. rewrite app_nil_r. now split.
Qed.

Lemma emits_bind (m1 m2 : X unit) (t1 t2 : list byte) :
  emits mem0 N m1 t1 -> emits mem0 N m2 t2 ->
  emits mem0 N (m1 >> m2) (t1 ++ t2).
Proof.
  intros H1 H2 st out Hst Hmax.
  rewrite app_assoc in Hmax |- *.
  destruct (H1 st out Hst) as (st1 & E1 & Hst1).
  { rewrite length_app in Hmax. lia. }
  destruct (H2 st1 (out ++ t1) Hst1 Hmax) as (st2 & E2 & Hst2).
  exists st2. unfold xbind. rewrite E1. now split.
Qed.

Lemma emits_read {A : Type} (o : option A) (a : A) (k : A -> X unit)
      (t : list byte) :
  o = Some a -> emits mem0 N (k a) t -> emits mem0 N (xbind (xread o) k) t.
Proof.
  intros -> H st out Hst Hmax. unfold xbind, xread. now apply H.
Qed.

Lemma emits_eq (m : X unit) (t t' : list byte) :
  emits mem0 N m t -> t = t' -> emits mem0 N m t'.
Proof. now intros H <-. Qed.

Lemma skipn_nth_error {A : Type} (l : list A) (i : nat) (x : A) :
  nth_error l i = Some x -> skipn i l = x :: skipn (S i) l.
Proof.
  revert i. induction l as [|y l IH]; intros [|i] H; try discriminate.
  - now injection H as ->.
  - cbn [nth_error] in H. cbn [skipn]. now apply IH.
Qed.

Lemma emits_hex_loop (l : list byte) (g : nat -> option byte) (f : byte -> Z)
      (n : nat) :
  (forall i, g i = nth_error l i) -> (forall b, f b = bz b) ->
  forall i0 : nat,
    (i0 + n <= List.length l)%nat ->
    emits mem0 N
          (xfor n i0 (fun i => xbind (xread (g i))
                                     (fun b => fragment (fmt_0x 2 (f b)))))
          (hex_text (firstn n (skipn i0 l))).
Proof.
  intros Hg Hf. induction n as [|n IH]; intros i0 Hl.
  - cbn [xfor firstn]. apply emits_ret.
  - cbn [xfor].
    destruct (nth_error l i0) as [x|] eqn:Hx.
    2:{ apply nth_error_None in Hx. lia. }
    rewrite (skipn_nth_error _ _ Hx). cbn [firstn].
    unfold hex_text. cbn [flat_map]. apply emits_bind.
    + eapply emits_read; [rewrite Hg; exact Hx|].
      rewrite Hf. apply emits_fragment.
    + apply IH. lia.
Qed.

End Emits.

Ltac emits_step :=
  first [ apply emits_bind
        | apply emits_fragment
        | apply emits_ret
        | eapply emits_read; [eassumption|] ].

(** Both sides are the same bytes once the concatenations are bracketed the
    same way. *)
Ltac literal_bytes :=
  repeat match goal with
         | |- context [txt ?s] =>
             let v := eval vm_compute in (txt s) in change (txt s) with v
         end.

Ltac same_text :=
  unfold elem; literal_bytes;
  repeat first [ rewrite <- app_assoc
               | rewrite <- app_comm_cons
               | rewrite app_nil_l
               | rewrite app_nil_r ];
  reflexivity.

Ltac emits_text := eapply emits_eq; [repeat emits_step | same_text].

Lemma txt_app (s1 s2 : string) : txt (s1 ++ s2) = txt s1 ++ txt s2.
Proof.
  unfold txt, list_byte_of_string.
  induction s1 as [|c s1 IH]; [reflexivity|].
  cbn [String.append list_ascii_of_string map app]. now rewrite IH.
Qed.

Lemma land_255 (b : byte) : Z.land (bz b) 255 = bz b.
Proof.
  change 255 with (Z.ones 8). rewrite Z.land_ones by lia.
  apply Z.mod_small. apply bz_range.
Qed.

Section Blocks.

Context {host : Host} {bits : XmlFlags}.

Variable mem0 : memory.
Variable N : Z.

Lemma emits_time (flags : Z) (now : option tm) (t : list byte) :
  text_time flags now = Some t -> emits mem0 N (xml_time flags now) t.
Proof.
  unfold text_time, xml_time.
  destruct (has flags NFLOG_XML_TIME).
  2:{ intros [= <-]. apply emits_ret. }
  destruct now as [tm|]; [|discriminate].
  destruct (int_add (tm_wday tm) 1) as [wday|] eqn:Hw; [|discriminate].
  destruct (int_add (tm_mon tm) 1) as [month|] eqn:Hm; [|discriminate].
  destruct (int_add 1900 (tm_year tm)) as [year|] eqn:Hy; [|discriminate].
  intros [= <-]. emits_text.
Qed.

Lemma emits_prefix (tb : nflog_data) (flags : Z) (t : list byte) :
  text_prefix tb flags = Some t -> emits mem0 N (xml_prefix tb flags) t.
Proof.
  unfold text_prefix, xml_prefix.
  destruct (nflog_get_prefix tb) as [data|].
  2:{ intros [= <-]. apply emits_ret. }
  destruct (has flags NFLOG_XML_PREFIX).
  2:{ intros [= <-]. apply emits_ret. }
  destruct (c_str data) as [s|] eqn:Hs; [|discriminate].
  intros [= <-]. emits_text.
Qed.

Lemma emits_hw (tb : nflog_data) (flags : Z) (t : list byte) :
  text_hw tb flags = Some t -> emits mem0 N (xml_hw tb flags) t.
Proof.
  unfold text_hw, xml_hw.
  destruct (nflog_get_msg_packet_hdr tb) as [ph|].
  2:{ intros [= <-]. apply emits_ret. }
  destruct (hook ph) as [hk|] eqn:Hhk; [|discriminate].
  destruct (nflog_get_packet_hw tb) as [hwph|].
  - destruct (has flags NFLOG_XML_HW).
    2:{ intros [= <-]. emits_text. }
    destruct (option_map ntohs (hw_addrlen hwph)) as [hlen|] eqn:Hlen;
      [|discriminate].
    destruct (option_map ntohs (hw_protocol ph)) as [proto|] eqn:Hproto;
      [|discriminate].
    destruct (Nat.leb_spec (Z.to_nat hlen) (List.length (skipn 4 hwph)));
      [|discriminate].
    intros [= <-].
    eapply emits_eq.
    + repeat emits_step.
      apply (@emits_hex_loop mem0 N (skipn 4 hwph) (hw_addr hwph) bz);
        [reflexivity | reflexivity | cbn [Nat.add]; lia].
    + cbn [skipn]. same_text.
  - destruct (has flags NFLOG_XML_HW).
    2:{ intros [= <-]. emits_text. }
    destruct (option_map ntohs (hw_protocol ph)) as [proto|] eqn:Hproto;
      [|discriminate].
    intros [= <-]. emits_text.
Qed.

Lemma emits_u32 (name : string) (value : option Z) (flags mask : Z)
      (t : list byte) :
  text_u32 name value flags mask = Some t ->
  emits mem0 N
        (xbind (xread value)
               (fun v => if negb (v =? 0) && has flags mask
                         then fragment (txt ("<" ++ name ++ ">") ++ fmt_u v
                                        ++ txt ("</" ++ name ++ ">"))
                         else xret tt))
        t.
Proof.
  unfold text_u32. destruct value as [v|]; [|discriminate].
  intros [= <-]. eapply emits_read; [reflexivity|].
  destruct (negb (v =? 0) && has flags mask).
  - eapply emits_eq; [apply emits_fragment|].
    unfold elem. rewrite !txt_app.
    repeat rewrite <- app_assoc. reflexivity.
  - apply emits_ret.
Qed.

Lemma emits_ctid (tb : nflog_data) (flags : Z) (t : list byte) :
  text_ctid tb flags = Some t -> emits mem0 N (xml_ctid tb flags) t.
Proof.
  unfold text_ctid, xml_ctid.
  destruct (has flags NFLOG_XML_CTID).
  2:{ intros [= <-]. apply emits_ret. }
  destruct (nflog_get_ctid tb 0) as [[ret ctid]|] eqn:Hc; [|discriminate].
  cbn [fst snd]. intros [= <-].
  eapply emits_read; [reflexivity|]. cbv beta iota.
  destruct (ret >=? 0).
  - emits_text.
  - apply emits_ret.
Qed.

Lemma get_payload_cases (tb : nflog_data) :
  (exists d, nflog_get_payload tb = (Z.of_nat (List.length d), Some d))
  \/ nflog_get_payload tb = (-1, None).
Proof.
  unfold nflog_get_payload, nfnl_get_pointer_to_data, NFA_PAYLOAD.
  destruct (nfa tb NFULA_PAYLOAD) as [a|]; cbn [option_map].
  - left. now exists (NFA_DATA a).
  - now right.
Qed.

Lemma emits_payload (tb : nflog_data) (flags : Z) (t : list byte) :
  text_payload tb flags = Some t -> emits mem0 N (xml_payload tb flags) t.
Proof.
  unfold text_payload, xml_payload.
  destruct (get_payload_cases tb) as [(d & ->)| ->].
  - destruct (Z.geb_spec (Z.of_nat (List.length d)) 0); [|lia].
    cbn [andb]. destruct (has flags NFLOG_XML_PAYLOAD).
    2:{ intros [= <-]. apply emits_ret. }
    intros [= <-]. eapply emits_eq.
    + repeat emits_step.
      rewrite Nat2Z.id.
      apply (@emits_hex_loop mem0 N d (fun i => nth_error d i)
                             (fun b => Z.land (bz b) 255));
        [reflexivity | apply land_255 | cbn [Nat.add]; lia].
    + cbn [skipn]. rewrite firstn_all. same_text.
  - cbn [andb]. intros [= <-]. apply emits_ret.
Qed.

(** The body renders the document. *)
Lemma emits_body (tb : nflog_data) (flags : Z) (now : option tm)
      (doc : list byte) :
  xml_text tb flags now = Some doc ->
  emits mem0 N (xml_body tb flags now) doc.
Proof.
  unfold xml_text, xml_body.
  destruct (text_time flags now) as [t|] eqn:Ht; [|discriminate].
  destruct (text_prefix tb flags) as [p|] eqn:Hp; [|discriminate].
  destruct (text_hw tb flags) as [h|] eqn:Hh; [|discriminate].
  destruct (text_u32 "mark" _ flags NFLOG_XML_MARK) as [m|] eqn:Hm;
    [|discriminate].
  destruct (text_u32 "indev" _ flags NFLOG_XML_DEV) as [i|] eqn:Hi;
    [|discriminate].
  destruct (text_u32 "outdev" _ flags NFLOG_XML_DEV) as [o|] eqn:Ho;
    [|discriminate].
  destruct (text_u32 "physindev" _ flags NFLOG_XML_PHYSDEV) as [pi|] eqn:Hpi;
    [|discriminate].
  destruct (text_u32 "physoutdev" _ flags NFLOG_XML_PHYSDEV) as [po|] eqn:Hpo;
    [|discriminate].
  destruct (text_ctid tb flags) as [c|] eqn:Hc; [|discriminate].
  destruct (text_payload tb flags) as [d|] eqn:Hd; [|discriminate].
  intros [= <-].
  eapply emits_eq.
  - apply emits_bind; [apply emits_fragment|].
    apply emits_bind; [apply emits_time; exact Ht|].
    apply emits_bind; [apply emits_prefix; exact Hp|].
    apply emits_bind; [apply emits_hw; exact Hh|].
    apply emits_bind; [exact (emits_u32 _ _ _ _ Hm)|].
    apply emits_bind; [exact (emits_u32 _ _ _ _ Hi)|].
    apply emits_bind; [exact (emits_u32 _ _ _ _ Ho)|].
    apply emits_bind; [exact (emits_u32 _ _ _ _ Hpi)|].
    apply emits_bind; [exact (emits_u32 _ _ _ _ Hpo)|].
    apply emits_bind; [apply emits_ctid; exact Hc|].
    apply emits_bind; [apply emits_payload; exact Hd|].
    apply emits_fragment.
  - same_text.
Qed.

End Blocks.

Section Call.

Context {host : Host} {bits : XmlFlags}.

Lemma xml_text_length (tb : nflog_data) (flags : Z) (now : option tm)
      (doc : list byte) :
  xml_text tb flags now = Some doc -> (0 < List.length doc)%nat.
Proof.
  unfold xml_text.
  repeat match goal with
         | |- context [match ?o with Some _ => _ | None => None end] =>
             destruct o; [|discriminate]
         end.
  intros [= <-]. unfold elem. rewrite length_app. cbn. lia.
Qed.

(** The call on a record that has a document: the state at the end. *)
Lemma snprintf_xml_rendering (mem0 : memory) (N : Z) (tb : nflog_data)
      (flags : Z) (now : option tm) (doc : list byte) :
  0 <= N <= INT_MAX ->
  xml_text tb flags now = Some doc ->
  Z.of_nat (List.length doc) <= INT_MAX ->
  exists st,
    xml_body tb flags now (xstart mem0 N) = XOk tt st
    /\ rendering mem0 N st doc.
Proof.
  intros HN Hdoc Hmax.
  apply (emits_body (mem0 := mem0) (N := N) _ _ _ Hdoc (out := []));
    [apply rendering_start; exact HN | exact Hmax].
Qed.

(** When the time is asked for and [localtime_r] fails, the call returns
    -1 after the opening tag. *)
Lemma snprintf_xml_no_localtime (mem0 : memory) (N : Z) (tb : nflog_data)
      (flags : Z) :
  0 <= N <= INT_MAX -> has flags NFLOG_XML_TIME = true ->
  exists mem', nflog_snprintf_xml mem0 N tb flags None = Some (-1, mem').
Proof.
  intros HN Hflag.
  destruct (@emits_fragment mem0 N (txt "<log>") _ _ (rendering_start mem0 HN))
    as (st & E & _).
  { vm_compute. discriminate. }
  unfold nflog_snprintf_xml, xml_body, xbind. rewrite E.
  unfold xml_time. rewrite Hflag. unfold xreturn. cbn [xfinish].
  now eexists.
Qed.

End Call.

(** ** Records that have a document *)

Lemma c_str_defined (p : list byte) : In x00 p -> exists s, c_str p = Some s.
Proof.
  induction p as [|b p IH]; intros H; [contradiction|].
  cbn [c_str]. destruct (Byte.eqb b x00) eqn:E; [now eexists|].
  destruct H as [->|H]; [discriminate E|].
  destruct (IH H) as (s & ->). now eexists.
Qed.

Lemma int_add_defined (a b : Z) :
  - INT_MAX - 1 <= a + b <= INT_MAX -> int_add a b = Some (a + b).
Proof.
  intros H. unfold int_add.
  destruct (Z.leb_spec (- INT_MAX - 1) (a + b)); [|lia].
  destruct (Z.leb_spec (a + b) INT_MAX); [reflexivity | lia].
Qed.

Section Defined.

Context {host : Host} {bits : XmlFlags}.

Lemma get_data_u32_defined (tb : nfattr_table) (attr : nfulnl_attr_type) :
  (forall a, tb attr = Some a -> (4 <= List.length (NFA_DATA a))%nat) ->
  exists v, option_map ntohl (nfnl_get_data load_u32 tb attr) = Some v.
Proof.
  intros H. unfold nfnl_get_data. destruct (tb attr) as [a|].
  - destruct (@load_some _ 4%nat (NFA_DATA a) (H a eq_refl)) as (v & Hv).
    unfold load_u32. rewrite Hv. now eexists.
  - now eexists.
Qed.

Lemma text_u32_defined (name : string) (value : option Z) (flags mask : Z) :
  (exists v, value = Some v) -> exists t, text_u32 name value flags mask = Some t.
Proof. intros (v & ->). unfold text_u32. now eexists. Qed.

Lemma text_hw_defined (tb : nflog_data) (flags : Z) :
  record_ok tb -> exists t, text_hw tb flags = Some t.
Proof.
  intros (Hlen & Hhw & _). unfold text_hw, nflog_get_msg_packet_hdr,
    nflog_get_packet_hw, nfnl_get_pointer_to_data.
  destruct (nfa tb NFULA_PACKET_HDR) as [ph|] eqn:Hph; cbn [option_map];
    [|now eexists].
  pose proof (Hlen NFULA_PACKET_HDR ph ltac:(cbn; tauto) Hph) as Lph.
  destruct (@load_some _ 1%nat (skipn 2 (NFA_DATA ph))) as (hk & Hhk).
  { rewrite length_skipn. lia. }
  destruct (@load_some _ 2%nat (NFA_DATA ph)) as (proto & Hproto); [lia|].
  unfold hook, hw_protocol, load_u8, load_u16. rewrite Hhk, Hproto.
  cbn [option_map].
  destruct (nfa tb NFULA_HWADDR) as [hw|] eqn:Hw; cbn [option_map].
  - destruct (has flags NFLOG_XML_HW); [|now eexists].
    pose proof (Hlen NFULA_HWADDR hw ltac:(cbn; tauto) Hw) as Lhw.
    destruct (@load_some _ 2%nat (NFA_DATA hw)) as (hlen & Hlenv); [lia|].
    pose proof (Hhw hw (ntohs hlen) eq_refl) as Hfit.
    unfold hw_addrlen, load_u16 in *. rewrite Hlenv in *. cbn [option_map] in *.
    specialize (Hfit eq_refl).
    destruct (Nat.leb_spec (Z.to_nat (ntohs hlen))
                           (List.length (skipn 4 (NFA_DATA hw)))) as [_|C].
    + now eexists.
    + rewrite length_skipn in C. lia.
  - destruct (has flags NFLOG_XML_HW); now eexists.
Qed.

(** A record whose attributes have their sizes has a document at any time
    the clock can tell. *)
Lemma xml_text_defined (tb : nflog_data) (flags : Z) (now : option tm) :
  record_ok tb -> clock_ok flags now ->
  exists doc, xml_text tb flags now = Some doc.
Proof.
  intros Hrec Hclock. pose proof Hrec as (Hlen & _ & Hprefix).
  assert (Ht : exists t, text_time flags now = Some t).
  { unfold text_time. destruct (has flags NFLOG_XML_TIME) eqn:E; [|now eexists].
    destruct (Hclock E) as (tm & -> & Hw & Hm & Hy).
    rewrite !int_add_defined by lia. now eexists. }
  assert (Hp : exists p, text_prefix tb flags = Some p).
  { unfold text_prefix, nflog_get_prefix, nfnl_get_pointer_to_data.
    destruct (nfa tb NFULA_PREFIX) as [a|] eqn:Ha; cbn [option_map];
      [|now eexists].
    destruct (has flags NFLOG_XML_PREFIX); [|now eexists].
    destruct (c_str_defined _ (Hprefix a eq_refl)) as (s & ->). now eexists. }
  destruct Ht as (t & Ht). destruct Hp as (p & Hp).
  destruct (text_hw_defined flags Hrec) as (h & Hh).
  assert (Hu : forall name attr mask,
             In attr [NFULA_PACKET_HDR; NFULA_MARK; NFULA_IFINDEX_INDEV;
                      NFULA_IFINDEX_OUTDEV; NFULA_IFINDEX_PHYSINDEV;
                      NFULA_IFINDEX_PHYSOUTDEV; NFULA_HWADDR] ->
             exists x,
               text_u32 name
                        (option_map ntohl (nfnl_get_data load_u32 (nfa tb) attr))
                        flags mask = Some x).
  { intros name attr mask Hin. apply text_u32_defined.
    apply get_data_u32_defined. intros a Ha. exact (Hlen attr a Hin Ha). }
  destruct (Hu "mark"%string NFULA_MARK NFLOG_XML_MARK ltac:(cbn; tauto))
    as (m & Hm).
  destruct (Hu "indev"%string NFULA_IFINDEX_INDEV NFLOG_XML_DEV
               ltac:(cbn; tauto)) as (i & Hi).
  destruct (Hu "outdev"%string NFULA_IFINDEX_OUTDEV NFLOG_XML_DEV
               ltac:(cbn; tauto)) as (o & Ho).
  destruct (Hu "physindev"%string NFULA_IFINDEX_PHYSINDEV NFLOG_XML_PHYSDEV
               ltac:(cbn; tauto)) as (pi & Hpi).
  destruct (Hu "physoutdev"%string NFULA_IFINDEX_PHYSOUTDEV NFLOG_XML_PHYSDEV
               ltac:(cbn; tauto)) as (po & Hpo).
  assert (Hc : exists c, text_ctid tb flags = Some c).
  { unfold text_ctid. destruct (has flags NFLOG_XML_CTID); [|now eexists].
    destruct (get_ctid_total tb 0) as [->|(v & -> & _)]; now eexists. }
  destruct Hc as (c & Hc).
  assert (Hd : exists d, text_payload tb flags = Some d).
  { unfold text_payload. destruct (nflog_get_payload tb) as [ret [d|]];
      now eexists. }
  destruct Hd as (d & Hd).
  unfold xml_text, nflog_get_nfmark, nflog_get_indev, nflog_get_outdev,
    nflog_get_physindev, nflog_get_physoutdev.
  rewrite Ht, Hp, Hh, Hm, Hi, Ho, Hpi, Hpo, Hc, Hd. now eexists.
Qed.

End Defined.

(** ** No statement writes outside the buffer *)

Section Within.

Variable mem0 : memory.
Variable N : Z.

Lemma keeps_ret {A : Type} (a : A) : keeps_within mem0 N (xret a).
Proof. intros st H. exact H. Qed.

Lemma keeps_return {A : Type} (r : Z) : keeps_within mem0 N (@xreturn A r).
Proof. intros st H. exact H. Qed.

Lemma keeps_read {A : Type} (o : option A) : keeps_within mem0 N (xread o).
Proof. intros st H. unfold xread. now destruct o. Qed.

Lemma keeps_bind {A B : Type} (m : X A) (k : A -> X B) :
  keeps_within mem0 N m -> (forall a, keeps_within mem0 N (k a)) ->
  keeps_within mem0 N (xbind m k).
Proof.
  intros Hm Hk st H. unfold xbind. specialize (Hm st H).
  destruct (m st) as [a st'|r st'|]; [|exact Hm|exact I].
  exact (Hk a st' Hm).
Qed.

Lemma keeps_for (n : nat) (body : nat -> X unit) :
  (forall i, keeps_within mem0 N (body i)) ->
  forall i0, keeps_within mem0 N (xfor n i0 body).
Proof.
  intros Hb. induction n as [|n IH]; intros i0; cbn [xfor].
  - apply keeps_ret.
  - apply keeps_bind; [apply Hb | intros _; apply IH].
Qed.

Lemma keeps_fragment (s : list byte) : keeps_within mem0 N (fragment s).
Proof.
  intros st (Ho & Hr & Hs & Hout).
  unfold fragment, snprintf, SNPRINTF_FAILURE.
  set (k := Z.of_nat (List.length s)).
  assert (Hk : 0 <= k) by (subst k; lia).
  destruct ((INT_MAX <? rem st) || (INT_MAX <? k)); cbn [len rem offset buf].
  { change (-1 <? 0) with true. cbv iota. repeat split; assumption. }
  destruct (Z.ltb_spec 0 (rem st)) as [Hpos|Hzero]; cbn [len rem offset buf];
    (destruct (Z.ltb_spec k 0); [lia|]);
    (destruct (INT_MAX <? len st + k); [exact I|]);
    unfold within; cbn [len rem offset buf];
    (destruct (Z.gtb_spec k (rem st)));
    repeat split; try lia; intros a Ha;
    try (rewrite store_bytes_outside;
         [now apply Hout
         | rewrite length_app, length_firstn; cbn [List.length]; lia]);
    now apply Hout.
Qed.

End Within.

Ltac keeps :=
  repeat first
    [ apply keeps_fragment
    | apply keeps_ret
    | apply keeps_return
    | apply keeps_read
    | apply keeps_for; intros
    | apply keeps_bind; [|intros]
    | match goal with
      | |- keeps_within _ _ (match ?x with _ => _ end) => destruct x
      end ].

Section WithinCall.

Context {host : Host} {bits : XmlFlags}.

Lemma keeps_body (mem0 : memory) (N : Z) (tb : nflog_data) (flags : Z)
      (now : option tm) :
  keeps_within mem0 N (xml_body tb flags now).
Proof.
  unfold xml_body, xml_time, xml_prefix, xml_hw, xml_mark, xml_indev,
    xml_outdev, xml_physindev, xml_physoutdev, xml_ctid, xml_payload.
  keeps.
Qed.

(** Whatever the record, the flags and the time, a call that returns has
    written nothing outside the [N] bytes of its buffer. *)
Lemma snprintf_xml_within (mem0 : memory) (N : Z) (tb : nflog_data)
      (flags : Z) (now : option tm) (r : Z) (mem' : memory) :
  0 <= N ->
  nflog_snprintf_xml mem0 N tb flags now = Some (r, mem') ->
  forall a, a < 0 \/ N <= a -> mem' a = mem0 a.
Proof.
  intros HN. unfold nflog_snprintf_xml.
  assert (H0 : within mem0 N (xstart mem0 N)).
  { unfold within, xstart. cbn [len rem offset buf].
    repeat split; intros; try lia; try reflexivity. }
  pose proof (keeps_body tb flags now H0) as H.
  destruct (xml_body tb flags now (xstart mem0 N)) as [[] st|ret st|];
    cbn [xfinish]; [| |discriminate];
    intros [= _ <-]; apply H.
Qed.

End WithinCall.

(* ================================================================== *)
(** * Facts on the element structure of the document *)
(* ================================================================== *)

Lemma name_char_inv (b : byte) :
  name_char b = true ->
  Byte.eqb b "/"%byte = false /\ Byte.eqb b ">"%byte = false.
Proof.
  destruct b; vm_compute; intros H; (discriminate H || (split; reflexivity)).
Qed.

Lemma bytes_eqb_refl (a : list byte) : bytes_eqb a a = true.
Proof.
  induction a as [|x a IH]; [reflexivity|].
  cbn [bytes_eqb]. rewrite IH. now destruct x.
Qed.

Lemma scan_name (n : list byte) :
  forallb name_char n = true ->
  forall r opened closing acc d,
    xml_scan (n ++ r) opened (in_tag closing acc) d
    = xml_scan r opened (in_tag closing (List.rev n ++ acc)) d.
Proof.
  induction n as [|b n IH]; intros Hn r opened closing acc d; [reflexivity|].
  cbn [forallb] in Hn. apply andb_true_iff in Hn. destruct Hn as [Hb Hn].
  destruct (name_char_inv b Hb) as [H1 H2].
  cbn [app xml_scan]. rewrite H1, H2, Hb.
  rewrite IH by exact Hn. cbn [List.rev]. now rewrite <- app_assoc.
Qed.

Lemma scan_tag_open (name : list byte) (r : list byte)
      (opened : list (list byte)) (d : bool) :
  name <> [] ->
  xml_scan (">"%byte :: r) opened (in_tag false name) d
  = xml_scan r (name :: opened) in_text d.
Proof.
  intros H. destruct name as [|x name]; [contradiction|]. reflexivity.
Qed.

Lemma scan_tag_close (name : list byte) (r : list byte)
      (opened : list (list byte)) (d : bool) :
  name <> [] ->
  xml_scan (">"%byte :: r) (name :: opened) (in_tag true name) d
  = xml_scan r opened in_text (match opened with [] => true | _ => false end).
Proof.
  intros H. destruct name as [|x name]; [contradiction|].
  cbn [xml_scan]. change (Byte.eqb ">" "/") with false.
  change (Byte.eqb ">" ">") with true. cbv iota.
  now rewrite bytes_eqb_refl.
Qed.

Lemma tag_name_inv (name : string) :
  tag_name name = true ->
  forallb name_char (txt name) = true /\ List.rev (txt name) ++ [] <> [].
Proof.
  unfold tag_name. destruct (txt name) as [|b n] eqn:E; [discriminate|].
  intros H. split; [exact H|].
  cbn [List.rev]. rewrite app_nil_r. intros C.
  apply (f_equal (@List.length byte)) in C.
  rewrite length_app in C. cbn [List.length] in C. lia.
Qed.

(** Through a whole element, in any surrounding [opened]. *)
Lemma scan_elem (name : string) (body r : list byte)
      (opened : list (list byte)) :
  tag_name name = true ->
  (forall r', xml_scan (body ++ r') ((List.rev (txt name) ++ []) :: opened) in_text false
              = xml_scan r' ((List.rev (txt name) ++ []) :: opened) in_text false) ->
  xml_scan (elem name body ++ r) opened in_text false
  = xml_scan r opened in_text (match opened with [] => true | _ => false end).
Proof.
  intros Hname Hbody. destruct (tag_name_inv name Hname) as [Hchars Hne].
  unfold elem. change (txt "<") with ["<"%byte].
  change (txt ">") with [">"%byte]. change (txt "</") with ["<"%byte; "/"%byte].
  repeat rewrite <- app_assoc. cbn [app].
  cbn [xml_scan]. change (Byte.eqb "<" "<") with true. cbv iota.
  rewrite scan_name by exact Hchars.
  rewrite scan_tag_open by exact Hne.
  rewrite Hbody.
  cbn [xml_scan]. change (Byte.eqb "<" "<") with true.
  change (Byte.eqb "/" "/") with true. cbv iota.
  rewrite scan_name by exact Hchars.
  now rewrite scan_tag_close by exact Hne.
Qed.

Lemma content_nil : xml_content [].
Proof. intros r o os. reflexivity. Qed.

Lemma content_app (t1 t2 : list byte) :
  xml_content t1 -> xml_content t2 -> xml_content (t1 ++ t2).
Proof.
  intros H1 H2 r o os. now rewrite <- app_assoc, H1, H2.
Qed.

Lemma content_plain (s : list byte) : forallb plain s = true -> xml_content s.
Proof.
  induction s as [|b s IH]; intros H r o os; [reflexivity|].
  cbn [forallb] in H. apply andb_true_iff in H. destruct H as [Hb Hs].
  unfold plain in Hb. apply andb_true_iff in Hb. destruct Hb as [H1 H2].
  apply negb_true_iff in H1, H2.
  cbn [app xml_scan]. rewrite H1, H2. now apply IH.
Qed.

Lemma content_elem (name : string) (body : list byte) :
  tag_name name = true -> xml_content body -> xml_content (elem name body).
Proof.
  intros Hname Hbody r o os.
  rewrite scan_elem; [reflexivity | exact Hname |].
  intros r'. apply Hbody.
Qed.

Lemma well_formed_root (name : string) (body : list byte) :
  tag_name name = true -> xml_content body ->
  xml_well_formed (elem name body) = true.
Proof.
  intros Hname Hbody. unfold xml_well_formed.
  rewrite <- (app_nil_r (elem name body)).
  rewrite scan_elem; [reflexivity | exact Hname |].
  intros r'. apply Hbody.
Qed.

(** ** The conversions give character data *)

Lemma forallb_repeat {A : Type} (p : A -> bool) (x : A) (n : nat) :
  p x = true -> forallb p (repeat x n) = true.
Proof.
  intros H. induction n as [|n IH]; [reflexivity|].
  cbn [repeat forallb]. now rewrite H, IH.
Qed.

Lemma plain_dec_digits (d : Decimal.uint) : forallb plain (dec_digits d) = true.
Proof. induction d; cbn [dec_digits forallb]; now rewrite ?IHd. Qed.

Lemma plain_hex_digits (d : Hexadecimal.uint) :
  forallb plain (hex_digits d) = true.
Proof. induction d; cbn [hex_digits forallb]; now rewrite ?IHd. Qed.

Lemma plain_zero_pad (w : nat) (s : list byte) :
  forallb plain s = true -> forallb plain (zero_pad w s) = true.
Proof.
  intros H. unfold zero_pad. rewrite forallb_app, H.
  now rewrite forallb_repeat.
Qed.

Lemma plain_fmt_u (x : Z) : forallb plain (fmt_u x) = true.
Proof. apply plain_dec_digits. Qed.

Lemma plain_fmt_d (x : Z) : forallb plain (fmt_d x) = true.
Proof.
  unfold fmt_d. destruct (x <? 0); cbn [forallb]; now rewrite plain_fmt_u.
Qed.

Lemma plain_fmt_02d (x : Z) : forallb plain (fmt_02d x) = true.
Proof.
  unfold fmt_02d. destruct (x <? 0); cbn [forallb];
    now rewrite plain_zero_pad by apply plain_fmt_u.
Qed.

Lemma plain_fmt_0x (w : nat) (x : Z) : forallb plain (fmt_0x w x) = true.
Proof. apply plain_zero_pad, plain_hex_digits. Qed.

Lemma plain_hex_text (bs : list byte) : forallb plain (hex_text bs) = true.
Proof.
  unfold hex_text. induction bs as [|b bs IH]; [reflexivity|].
  cbn [flat_map]. now rewrite forallb_app, plain_fmt_0x, IH.
Qed.

Ltac content_step :=
  lazymatch goal with
  | |- xml_content [] => apply content_nil
  | |- xml_content (elem _ _) => apply content_elem; [reflexivity|]
  | |- xml_content (_ ++ _) => apply content_app
  | |- xml_content _ =>
      apply content_plain;
      first [ apply plain_fmt_u | apply plain_fmt_d | apply plain_fmt_02d
            | apply plain_fmt_0x | apply plain_hex_text | assumption ]
  end.

Lemma Some_inj {A : Type} (a b : A) : Some a = Some b -> a = b.
Proof. now intros [= ->]. Qed.

Ltac take_text :=
  let H := fresh in intros H; apply Some_inj in H; rewrite <- H; clear H.

Section DocumentFacts.

Context {host : Host} {bits : XmlFlags}.

Lemma content_time (flags : Z) (now : option tm) (t : list byte) :
  text_time flags now = Some t -> xml_content t.
Proof.
  unfold text_time. destruct (has flags NFLOG_XML_TIME).
  2:{ take_text. apply content_nil. }
  destruct now as [tm|]; [|discriminate].
  destruct (int_add (tm_wday tm) 1); [|discriminate].
  destruct (int_add (tm_mon tm) 1); [|discriminate].
  destruct (int_add 1900 (tm_year tm)); [|discriminate].
  take_text. repeat content_step.
Qed.

Lemma content_prefix (tb : nflog_data) (flags : Z) (t : list byte) :
  prefix_plain tb flags -> text_prefix tb flags = Some t -> xml_content t.
Proof.
  unfold prefix_plain, prefix_text, text_prefix.
  destruct (nflog_get_prefix tb) as [data|].
  2:{ intros _; take_text. apply content_nil. }
  destruct (has flags NFLOG_XML_PREFIX).
  2:{ intros _; take_text. apply content_nil. }
  destruct (c_str data) as [s|]; [|discriminate].
  intros Hp; take_text. pose proof (Hp s eq_refl). repeat content_step.
Qed.

Lemma content_hw (tb : nflog_data) (flags : Z) (t : list byte) :
  text_hw tb flags = Some t -> xml_content t.
Proof.
  unfold text_hw.
  destruct (nflog_get_msg_packet_hdr tb) as [ph|].
  2:{ take_text. apply content_nil. }
  destruct (hook ph); [|discriminate].
  destruct (nflog_get_packet_hw tb) as [hwph|];
    destruct (has flags NFLOG_XML_HW);
    repeat match goal with
           | |- context [match ?o with Some _ => _ | None => None end] =>
               destruct o; [|discriminate]
           | |- context [if ?b then Some _ else None] =>
               destruct b; [|discriminate]
           end;
    take_text; repeat content_step.
Qed.

Lemma content_u32 (name : string) (value : option Z) (flags mask : Z)
      (t : list byte) :
  tag_name name = true -> text_u32 name value flags mask = Some t ->
  xml_content t.
Proof.
  intros Hname. unfold text_u32. destruct value as [v|]; [|discriminate].
  take_text. destruct (negb (v =? 0) && has flags mask).
  - apply content_elem; [exact Hname|]. repeat content_step.
  - apply content_nil.
Qed.

Lemma content_ctid (tb : nflog_data) (flags : Z) (t : list byte) :
  text_ctid tb flags = Some t -> xml_content t.
Proof.
  unfold text_ctid. destruct (has flags NFLOG_XML_CTID).
  2:{ take_text. apply content_nil. }
  destruct (nflog_get_ctid tb 0) as [r|]; [|discriminate].
  take_text. destruct (fst r >=? 0); repeat content_step.
Qed.

Lemma content_payload (tb : nflog_data) (flags : Z) (t : list byte) :
  text_payload tb flags = Some t -> xml_content t.
Proof.
  unfold text_payload. destruct (nflog_get_payload tb) as [ret [d|]].
  - take_text. destruct (has flags NFLOG_XML_PAYLOAD); repeat content_step.
  - take_text. apply content_nil.
Qed.

(** The document is well formed when the prefix it shows is character
    data. *)
Lemma xml_text_well_formed (tb : nflog_data) (flags : Z) (now : option tm)
      (doc : list byte) :
  prefix_plain tb flags -> xml_text tb flags now = Some doc ->
  xml_well_formed doc = true.
Proof.
  intros Hplain. unfold xml_text.
  destruct (text_time flags now) as [t|] eqn:Ht; [|discriminate].
  destruct (text_prefix tb flags) as [p|] eqn:Hp; [|discriminate].
  destruct (text_hw tb flags) as [h|] eqn:Hh; [|discriminate].
  destruct (text_u32 "mark" _ flags NFLOG_XML_MARK) as [m|] eqn:Hm;
    [|discriminate].
  destruct (text_u32 "indev" _ flags NFLOG_XML_DEV) as [i|] eqn:Hi;
    [|discriminate].
  destruct (text_u32 "outdev" _ flags NFLOG_XML_DEV) as [o|] eqn:Ho;
    [|discriminate].
  destruct (text_u32 "physindev" _ flags NFLOG_XML_PHYSDEV) as [pi|] eqn:Hpi;
    [|discriminate].
  destruct (text_u32 "physoutdev" _ flags NFLOG_XML_PHYSDEV) as [po|] eqn:Hpo;
    [|discriminate].
  destruct (text_ctid tb flags) as [c|] eqn:Hc; [|discriminate].
  destruct (text_payload tb flags) as [d|] eqn:Hd; [|discriminate].
  take_text. apply well_formed_root; [reflexivity|].
  apply content_app; [exact (content_time _ _ Ht)|].
  apply content_app; [exact (content_prefix Hplain Hp)|].
  apply content_app; [exact (content_hw _ _ Hh)|].
  apply content_app; [eapply content_u32; [|exact Hm]; reflexivity|].
  apply content_app; [eapply content_u32; [|exact Hi]; reflexivity|].
  apply content_app; [eapply content_u32; [|exact Ho]; reflexivity|].
  apply content_app; [eapply content_u32; [|exact Hpi]; reflexivity|].
  apply content_app; [eapply content_u32; [|exact Hpo]; reflexivity|].
  apply content_app; [exact (content_ctid _ _ Hc)|].
  exact (content_payload _ _ Hd).
Qed.

End DocumentFacts.
(* ================================================================== *)
(** * More facts on the session *)
(* ================================================================== *)

(** A group number goes onto the wire and comes back unchanged, whatever
    the byte order of the host. *)
Lemma bswap16_involutive (x : Z) : 0 <= x < 2 ^ 16 -> bswap16 (bswap16 x) = x.
Proof.
  intros Hx. unfold bswap16, byte_of.
  change (2 ^ (8 * 0)) with 1. change (2 ^ (8 * 1)) with 256.
  change (2 ^ 8) with 256. change (2 ^ 16) with 65536 in Hx.
  rewrite !Z.div_1_r. Z.div_mod_to_equations. lia.
Qed.

Lemma bswap16_range (x : Z) : 0 <= bswap16 x < 2 ^ 16.
Proof.
  unfold bswap16, byte_of.
  change (2 ^ (8 * 0)) with 1. change (2 ^ (8 * 1)) with 256.
  change (2 ^ 8) with 256. change (2 ^ 16) with 65536.
  rewrite !Z.div_1_r. Z.div_mod_to_equations. lia.
Qed.

Lemma u16_range (x : Z) : 0 <= u16 x < 2 ^ 16.
Proof. unfold u16. apply Z.mod_pos_bound. reflexivity. Qed.

Lemma u16_small (x : Z) : 0 <= x < 2 ^ 16 -> u16 x = x.
Proof. intros H. unfold u16. now apply Z.mod_small. Qed.

Lemma ntohs_htons {host : Host} (x : Z) : u16 (ntohs (htons (u16 x))) = u16 x.
Proof.
  pose proof (u16_range x) as Hx. unfold htons, ntohs.
  destruct host_big_endian.
  - apply u16_idem.
  - rewrite (bswap16_involutive Hx). apply u16_idem.
Qed.

Lemma u8_u16 (x : Z) : u8 (u16 x) = u8 x.
Proof.
  unfold u8, u16. change (2 ^ 16) with 65536. change (2 ^ 8) with 256.
  Z.div_mod_to_equations. lia.
Qed.

Lemma u8_mod (x : Z) : u8 (x mod 2 ^ 8) = u8 x.
Proof. unfold u8. apply Z.mod_mod. lia. Qed.

(** [del_gh] leaves the lookups of the other groups alone. *)
Lemma find_gh_del_gh_other (l : list nflog_g_handle) (gh : Z)
      (g : nflog_g_handle) (group : Z) :
  deref l gh = Some g -> group <> id g ->
  find_gh (del_gh l gh) group = find_gh l group.
Proof.
  intros Hd Hne. induction l as [|y l IH]; cbn [del_gh deref] in *;
    [discriminate|].
  destruct (Z.eqb_spec (self y) gh) as [E|N].
  - injection Hd as <-. cbn [find_gh].
    destruct (Z.eqb_spec (id y) group); [congruence | reflexivity].
  - cbn [find_gh]. destruct (id y =? group); [reflexivity|]. now apply IH.
Qed.

(** The unlinking undoes the linking. *)
Lemma del_gh_add_gh (l : list nflog_g_handle) (gh : nflog_g_handle) :
  del_gh (add_gh l gh) (self gh) = l.
Proof. unfold add_gh. cbn [del_gh]. now rewrite Z.eqb_refl. Qed.

Lemma registered_self (gh : Z) (f : option Z) (d : Z) (n : nflog_g_handle) :
  self (registered gh f d n) = self n.
Proof. unfold registered. now destruct (self n =? gh). Qed.

Lemma registered_id (gh : Z) (f : option Z) (d : Z) (n : nflog_g_handle) :
  id (registered gh f d n) = id n.
Proof. unfold registered. now destruct (self n =? gh). Qed.

Lemma find_gh_registered (l : list nflog_g_handle) (gh : Z)
      (g : nflog_g_handle) (f : option Z) (d : Z) :
  NoDup (map id l) -> deref l gh = Some g ->
  find_gh (map (registered gh f d) l) (id g)
  = Some {| self := gh; id := id g; cb := f; data := d |}.
Proof.
  induction l as [|y l IH]; cbn [deref map find_gh]; [discriminate|].
  intros H. inversion H as [|? ? Hnin Hnd]; subst.
  rewrite registered_id. unfold registered at 1.
  destruct (Z.eqb_spec (self y) gh) as [E|N].
  - intros [= <-]. rewrite Z.eqb_refl. now rewrite E.
  - intros Hd. destruct (Z.eqb_spec (id y) (id g)) as [E'|N'].
    + exfalso. apply Hnin. rewrite E'.
      apply in_map. now apply (deref_some l gh).
    + now apply IH.
Qed.

Lemma deref_registered (l : list nflog_g_handle) (gh : Z)
      (g : nflog_g_handle) (f : option Z) (d : Z) :
  deref l gh = Some g ->
  deref (map (registered gh f d) l) gh
  = Some {| self := gh; id := id g; cb := f; data := d |}.
Proof.
  induction l as [|y l IH]; cbn [deref map]; [discriminate|].
  rewrite registered_self. unfold registered at 1.
  destruct (Z.eqb_spec (self y) gh) as [E|N].
  - intros [= <-]. now rewrite E.
  - exact IH.
Qed.

Lemma deref_registered_other (l : list nflog_g_handle) (gh gh' : Z)
      (f : option Z) (d : Z) :
  gh' <> gh -> deref (map (registered gh f d) l) gh' = deref l gh'.
Proof.
  intros Hne. induction l as [|y l IH]; cbn [deref map]; [reflexivity|].
  rewrite registered_self. unfold registered at 1.
  destruct (Z.eqb_spec (self y) gh') as [E|N]; [|exact IH].
  destruct (Z.eqb_spec (self y) gh); [congruence | reflexivity].
Qed.

Lemma registered_absent (l : list nflog_g_handle) (gh : Z) (f : option Z)
      (d : Z) :
  ~ In gh (map self l) -> map (registered gh f d) l = l.
Proof.
  induction l as [|y l IH]; cbn [map In]; [reflexivity|].
  intros H. unfold registered at 1.
  destruct (Z.eqb_spec (self y) gh) as [E|N]; [tauto|].
  f_equal. apply IH. tauto.
Qed.

Lemma find_gh_registered_other (l : list nflog_g_handle) (gh : Z)
      (g : nflog_g_handle) (f : option Z) (d : Z) (group : Z) :
  deref l gh = Some g -> NoDup (map self l) -> group <> id g ->
  find_gh (map (registered gh f d) l) group = find_gh l group.
Proof.
  intros Hd Hs Hne. induction l as [|y l IH]; cbn [deref map find_gh] in *;
    [reflexivity|].
  inversion Hs as [|? ? Hnin Hnd]; subst.
  rewrite registered_id. unfold registered at 1.
  destruct (Z.eqb_spec (self y) gh) as [E|N].
  - injection Hd as <-.
    destruct (Z.eqb_spec (id y) group); [congruence|].
    rewrite registered_absent; [reflexivity | now rewrite <- E].
  - destruct (id y =? group); [reflexivity|]. now apply IH.
Qed.

Section MoreSessionFacts.

Context {host : Host} {env : Environment}.

Lemma callback_register_spec (w : world) (gh : Z) (g : nflog_g_handle)
      (f : option Z) (d : Z) :
  deref (gh_list w) gh = Some g ->
  nflog_callback_register w gh f d
  = Some (0, set_gh_list w (map (registered gh f d) (gh_list w))).
Proof.
  intros Hd. unfold nflog_callback_register. rewrite Hd. reflexivity.
Qed.

Lemma group_request_spec (w : world) (gh : Z) (g : nflog_g_handle)
      (attr : nfulnl_attr_config * cfg_payload) :
  deref (gh_list w) gh = Some g ->
  let m := nfnl_fill_hdr AF_UNSPEC (id g) NFULNL_MSG_CONFIG
                         (Z.lor NLM_F_REQUEST NLM_F_ACK) attr in
  group_request w gh attr
  = Some (fst (nfnl_query_reply (trace w) m),
          {| gh_list := gh_list w;
             errno := snd (nfnl_query_reply (trace w) m);
             trace := trace w ++ [ev_nfnl_query m] |}).
Proof.
  intros Hd. cbn zeta. unfold group_request, nfnl_query. rewrite Hd.
  destruct (nfnl_query_reply _ _) as [status e]. reflexivity.
Qed.

(** Every step only adds events. *)
Lemma api_step_trace (w w' : world) :
  api_step w w' -> exists evs, trace w' = trace w ++ evs.
Proof.
  intros Hstep. destruct Hstep.
  - unfold nflog_bind_pf. rewrite build_send_cfg_msg_spec. now eexists.
  - unfold nflog_unbind_pf. rewrite build_send_cfg_msg_spec. now eexists.
  - unfold nflog_bind_group.
    destruct (find_gh _ _); [exists []; cbn; now rewrite app_nil_r|].
    destruct (calloc_reply _ _); [|exists []; cbn; now rewrite app_nil_r].
    rewrite build_send_cfg_msg_spec. cbn zeta.
    destruct (_ <? 0); now eexists.
  - unfold nflog_unbind_group in H.
    destruct (deref _ _); [|discriminate].
    rewrite build_send_cfg_msg_spec in H. cbn zeta in H.
    destruct (_ =? 0); injection H as _ <-; now eexists.
  - unfold nflog_callback_register in H.
    destruct (deref _ _); [|discriminate].
    injection H as _ <-. exists []. cbn. now rewrite app_nil_r.
  - unfold nflog_set_mode in H. destruct (deref (gh_list w) gh) as [g|] eqn:Hd.
    + rewrite (group_request_spec w gh _ Hd) in H. injection H as _ <-. now eexists.
    + unfold group_request in H. now rewrite Hd in H.
  - unfold nflog_set_timeout in H.
    destruct (deref (gh_list w) gh) as [g|] eqn:Hd.
    + rewrite (group_request_spec w gh _ Hd) in H. injection H as _ <-. now eexists.
    + unfold group_request in H. now rewrite Hd in H.
  - unfold nflog_set_qthresh in H.
    destruct (deref (gh_list w) gh) as [g|] eqn:Hd.
    + rewrite (group_request_spec w gh _ Hd) in H. injection H as _ <-. now eexists.
    + unfold group_request in H. now rewrite Hd in H.
  - unfold nflog_set_nlbufsiz in H.
    destruct (deref (gh_list w) gh) as [g|] eqn:Hd.
    + rewrite (group_request_spec w gh _ Hd) in H. cbn zeta in H.
      destruct (_ >=? 0).
      * unfold nfnl_rcvbufsiz in H. cbn [trace] in H.
        destruct (nfnl_rcvbufsiz_reply _ _). injection H as _ <-.
        cbn [trace set_errno log]. rewrite <- app_assoc. now eexists.
      * injection H as _ <-. now eexists.
    + unfold group_request in H. now rewrite Hd in H.
  - unfold nflog_set_flags in H.
    destruct (deref (gh_list w) gh) as [g|] eqn:Hd.
    + rewrite (group_request_spec w gh _ Hd) in H. injection H as _ <-. now eexists.
    + unfold group_request in H. now rewrite Hd in H.
  - unfold __nflog_rcv_pkt.
    destruct (find_gh _ _) as [gh|]; [|exists []; cbn; now rewrite app_nil_r].
    destruct (cb gh); [now eexists | exists []; cbn; now rewrite app_nil_r].
Qed.

End MoreSessionFacts.

(** The allocator of the examples gives an address above the live ones. *)
Lemma next_address_above (live : list Z) (p : Z) :
  In p live -> p < next_address live.
Proof.
  unfold next_address. induction live as [|x live IH]; cbn [In fold_right];
    [tauto|].
  intros [->|H]; [lia|]. specialize (IH H). lia.
Qed.

Lemma kernel_ack_fresh : allocator_fresh (env := kernel_ack).
Proof.
  intros tr live p [= <-] Hin. apply next_address_above in Hin. lia.
Qed.
(* ================================================================== *)
(** * How long the conversions of [printf] get *)
(* ================================================================== *)

Lemma dec_digits_length (d : Decimal.uint) :
  List.length (dec_digits d) = Decimal.nb_digits d.
Proof. induction d; cbn [dec_digits List.length Decimal.nb_digits]; congruence. Qed.

Lemma hex_digits_length (d : Hexadecimal.uint) :
  List.length (hex_digits d) = Hexadecimal.nb_digits d.
Proof.
  induction d; cbn [hex_digits List.length Hexadecimal.nb_digits]; congruence.
Qed.

Lemma dec_revapp_digits (d d' : Decimal.uint) :
  Decimal.nb_digits (Decimal.revapp d d')
  = (Decimal.nb_digits d + Decimal.nb_digits d')%nat.
Proof.
  revert d'. induction d; intros d'; cbn [Decimal.revapp Decimal.nb_digits];
    [reflexivity|..]; rewrite IHd; cbn [Decimal.nb_digits]; lia.
Qed.

Lemma hex_revapp_digits (d d' : Hexadecimal.uint) :
  Hexadecimal.nb_digits (Hexadecimal.revapp d d')
  = (Hexadecimal.nb_digits d + Hexadecimal.nb_digits d')%nat.
Proof.
  revert d'.
  induction d; intros d'; cbn [Hexadecimal.revapp Hexadecimal.nb_digits];
    [reflexivity|..]; rewrite IHd; cbn [Hexadecimal.nb_digits]; lia.
Qed.

(** Doubling adds one digit at most. *)
Lemma dec_double_digits (d : Decimal.uint) :
  (Decimal.nb_digits (Decimal.Little.double d) <= S (Decimal.nb_digits d))%nat
  /\ (Decimal.nb_digits (Decimal.Little.succ_double d)
      <= S (Decimal.nb_digits d))%nat.
Proof.
  induction d as [|d [IH1 IH2]|d [IH1 IH2]|d [IH1 IH2]|d [IH1 IH2]|d [IH1 IH2]
                  |d [IH1 IH2]|d [IH1 IH2]|d [IH1 IH2]|d [IH1 IH2]|d [IH1 IH2]];
    cbn [Decimal.Little.double Decimal.Little.succ_double Decimal.nb_digits];
    lia.
Qed.

Lemma hex_double_digits (d : Hexadecimal.uint) :
  (Hexadecimal.nb_digits (Hexadecimal.Little.double d)
   <= S (Hexadecimal.nb_digits d))%nat
  /\ (Hexadecimal.nb_digits (Hexadecimal.Little.succ_double d)
      <= S (Hexadecimal.nb_digits d))%nat.
Proof.
  induction d as [|d [IH1 IH2]|d [IH1 IH2]|d [IH1 IH2]|d [IH1 IH2]|d [IH1 IH2]
                  |d [IH1 IH2]|d [IH1 IH2]|d [IH1 IH2]|d [IH1 IH2]|d [IH1 IH2]
                  |d [IH1 IH2]|d [IH1 IH2]|d [IH1 IH2]|d [IH1 IH2]|d [IH1 IH2]
                  |d [IH1 IH2]];
    cbn [Hexadecimal.Little.double Hexadecimal.Little.succ_double
         Hexadecimal.nb_digits];
    lia.
Qed.

Lemma pos_dec_digits (p : positive) :
  (Decimal.nb_digits (Pos.to_little_uint p) <= Pos.size_nat p)%nat.
Proof.
  induction p as [p IH|p IH|]; cbn [Pos.to_little_uint Pos.size_nat].
  - pose proof (proj2 (dec_double_digits (Pos.to_little_uint p))). lia.
  - pose proof (proj1 (dec_double_digits (Pos.to_little_uint p))). lia.
  - cbn. lia.
Qed.

Lemma pos_hex_digits (p : positive) :
  (Hexadecimal.nb_digits (Pos.to_little_hex_uint p) <= Pos.size_nat p)%nat.
Proof.
  induction p as [p IH|p IH|]; cbn [Pos.to_little_hex_uint Pos.size_nat].
  - pose proof (proj2 (hex_double_digits (Pos.to_little_hex_uint p))). lia.
  - pose proof (proj1 (hex_double_digits (Pos.to_little_hex_uint p))). lia.
  - cbn. lia.
Qed.

Lemma pos_size_bound (p : positive) :
  forall k : nat, Z.pos p < 2 ^ Z.of_nat k -> (Pos.size_nat p <= k)%nat.
Proof.
  induction p as [p IH|p IH|]; intros k H; cbn [Pos.size_nat].
  - destruct k as [|k]; [cbn in H; lia|].
    rewrite Nat2Z.inj_succ, Z.pow_succ_r in H by lia.
    specialize (IH k). lia.
  - destruct k as [|k]; [cbn in H; lia|].
    rewrite Nat2Z.inj_succ, Z.pow_succ_r in H by lia.
    specialize (IH k). lia.
  - destruct k as [|k]; [cbn in H; lia | lia].
Qed.

(** A value below [2 ^ k] prints in [k] characters at most, in decimal and
    in hexadecimal. *)
Lemma fmt_u_length (x : Z) (k : nat) :
  0 <= x < 2 ^ Z.of_nat k -> (1 <= k)%nat -> (List.length (fmt_u x) <= k)%nat.
Proof.
  intros Hx Hk. unfold fmt_u. rewrite dec_digits_length.
  destruct x as [|p|p]; [cbn; lia | | lia].
  cbn [Z.to_N N.to_uint]. unfold Pos.to_uint, Decimal.rev.
  rewrite dec_revapp_digits. cbn [Decimal.nb_digits].
  pose proof (pos_dec_digits p). pose proof (@pos_size_bound p k (proj2 Hx)).
  lia.
Qed.

Lemma zero_pad_length (width : nat) (s : list byte) :
  List.length (zero_pad width s) = Nat.max width (List.length s).
Proof. unfold zero_pad. rewrite length_app, repeat_length. lia. Qed.

Lemma fmt_0x_length (width : nat) (x : Z) (k : nat) :
  0 <= x < 2 ^ Z.of_nat k -> (1 <= k)%nat ->
  (List.length (fmt_0x width x) <= Nat.max width k)%nat.
Proof.
  intros Hx Hk. unfold fmt_0x. rewrite zero_pad_length, hex_digits_length.
  destruct x as [|p|p]; [cbn; lia | | lia].
  cbn [Z.to_N N.to_hex_uint]. unfold Pos.to_hex_uint, Hexadecimal.rev.
  rewrite hex_revapp_digits. cbn [Hexadecimal.nb_digits].
  pose proof (pos_hex_digits p). pose proof (@pos_size_bound p k (proj2 Hx)).
  lia.
Qed.

Lemma fmt_d_length (x : Z) :
  - INT_MAX - 1 <= x <= INT_MAX -> (List.length (fmt_d x) <= 33)%nat.
Proof.
  unfold INT_MAX. intros Hx. unfold fmt_d.
  destruct (Z.ltb_spec x 0); cbn [List.length].
  - pose proof (@fmt_u_length (- x) 32
                  ltac:(change (2 ^ Z.of_nat 32) with (2 ^ 32); lia) ltac:(lia)).
    lia.
  - pose proof (@fmt_u_length x 32
                  ltac:(change (2 ^ Z.of_nat 32) with (2 ^ 32); lia) ltac:(lia)).
    lia.
Qed.

Lemma fmt_02d_length (x : Z) :
  - INT_MAX - 1 <= x <= INT_MAX -> (List.length (fmt_02d x) <= 33)%nat.
Proof.
  unfold INT_MAX. intros Hx. unfold fmt_02d.
  destruct (Z.ltb_spec x 0); cbn [List.length]; rewrite zero_pad_length.
  - pose proof (@fmt_u_length (- x) 32
                  ltac:(change (2 ^ Z.of_nat 32) with (2 ^ 32); lia) ltac:(lia)).
    lia.
  - pose proof (@fmt_u_length x 32
                  ltac:(change (2 ^ Z.of_nat 32) with (2 ^ 32); lia) ltac:(lia)).
    lia.
Qed.

(** A byte prints as two hexadecimal digits. *)
Lemma fmt_0x_byte (b : byte) : List.length (fmt_0x 2 (bz b)) = 2%nat.
Proof. destruct b; reflexivity. Qed.

Lemma hex_text_length (bs : list byte) :
  List.length (hex_text bs) = (2 * List.length bs)%nat.
Proof.
  unfold hex_text. induction bs as [|b bs IH]; [reflexivity|].
  cbn [flat_map List.length]. rewrite length_app, fmt_0x_byte, IH. lia.
Qed.

Lemma c_str_length (p s : list byte) :
  c_str p = Some s -> (List.length s < List.length p)%nat.
Proof.
  revert s. induction p as [|b p IH]; intros s; cbn [c_str]; [discriminate|].
  destruct (Byte.eqb b x00); [intros [= <-]; cbn; lia|].
  destruct (c_str p) as [s'|]; [|discriminate].
  intros [= <-]. specialize (IH s' eq_refl). cbn [List.length]. lia.
Qed.

Lemma elem_length (name : string) (body : list byte) :
  List.length (elem name body)
  = (2 * List.length (txt name) + 5 + List.length body)%nat.
Proof.
  unfold elem. rewrite !length_app.
  change (List.length (txt "<")) with 1%nat.
  change (List.length (txt ">")) with 1%nat.
  change (List.length (txt "</")) with 2%nat. lia.
Qed.
(* ================================================================== *)
(** * How long the document gets *)
(* ================================================================== *)

Lemma int_add_range (a b c : Z) :
  int_add a b = Some c -> - INT_MAX - 1 <= c <= INT_MAX.
Proof.
  unfold int_add.
  destruct (Z.leb_spec (- INT_MAX - 1) (a + b)); [|discriminate].
  destruct (Z.leb_spec (a + b) INT_MAX); [|discriminate].
  intros [= <-]. lia.
Qed.

Ltac len_norm :=
  repeat first [ rewrite length_app | rewrite elem_length
               | rewrite hex_text_length ].

Section Bounds.

Context {host : Host} {bits : XmlFlags}.

Lemma load_bound (n : nat) (p : list byte) (v : Z) :
  load n p = Some v -> 0 <= v < 2 ^ (8 * Z.of_nat n).
Proof. apply load_range. Qed.

Lemma get_u32_range (tb : nfattr_table) (attr : nfulnl_attr_type) (v : Z) :
  option_map ntohl (nfnl_get_data load_u32 tb attr) = Some v ->
  0 <= v < 2 ^ 32.
Proof.
  unfold nfnl_get_data. destruct (tb attr) as [a|].
  - destruct (Nat.le_gt_cases 4 (List.length (NFA_DATA a))) as [H|H].
    + destruct (ntohl_load_range (NFA_DATA a) H) as (w & -> & Hr).
      now intros [= <-].
    + unfold load_u32. rewrite load_none by exact H. discriminate.
  - cbn [option_map].
    assert (ntohl 0 = 0) as -> by (unfold ntohl; now destruct host_big_endian).
    intros [= <-]. lia.
Qed.

Lemma text_time_length (flags : Z) (now : option tm) (t : list byte) :
  text_time flags now = Some t -> clock_ints flags now ->
  (List.length t <= 331)%nat.
Proof.
  unfold text_time, clock_ints.
  destruct (has flags NFLOG_XML_TIME); [|intros H _; apply Some_inj in H as <-; cbn; lia].
  intros H Hints. destruct (Hints eq_refl) as (tm & -> & Htm).
  destruct (int_add (tm_wday tm) 1) as [wday|] eqn:Ew; [|discriminate].
  destruct (int_add (tm_mon tm) 1) as [month|] eqn:Em; [|discriminate].
  destruct (int_add 1900 (tm_year tm)) as [year|] eqn:Ey; [|discriminate].
  apply Some_inj in H as <-.
  apply int_add_range in Ew, Em, Ey.
  unfold tm_ints in Htm. rewrite !Forall_cons_iff in Htm.
  destruct Htm as (Hs & Hm & Hh & Hd & _).
  len_norm.
  pose proof (fmt_d_length Hh). pose proof (fmt_02d_length Hm).
  pose proof (fmt_02d_length Hs). pose proof (fmt_d_length Ew).
  pose proof (fmt_d_length Hd). pose proof (fmt_d_length Em).
  pose proof (fmt_d_length Ey).
  change (List.length (txt "when")) with 4%nat.
  change (List.length (txt "hour")) with 4%nat.
  change (List.length (txt "min")) with 3%nat.
  change (List.length (txt "sec")) with 3%nat.
  change (List.length (txt "wday")) with 4%nat.
  change (List.length (txt "day")) with 3%nat.
  change (List.length (txt "month")) with 5%nat.
  change (List.length (txt "year")) with 4%nat.
  lia.
Qed.

Lemma text_prefix_length (tb : nflog_data) (flags : Z) (t : list byte) :
  text_prefix tb flags = Some t -> attrs_16bit tb ->
  Z.of_nat (List.length t) <= 17 + 2 ^ 16.
Proof.
  unfold text_prefix, nflog_get_prefix, nfnl_get_pointer_to_data.
  intros H Hsize.
  destruct (nfa tb NFULA_PREFIX) as [a|] eqn:Ha; cbn [option_map] in H;
    [|apply Some_inj in H as <-; cbn; lia].
  destruct (has flags NFLOG_XML_PREFIX); [|apply Some_inj in H as <-; cbn; lia].
  destruct (c_str (NFA_DATA a)) as [s|] eqn:Es; [|discriminate].
  apply Some_inj in H as <-. apply c_str_length in Es.
  specialize (Hsize _ _ Ha). rewrite elem_length.
  change (List.length (txt "prefix")) with 6%nat. lia.
Qed.

Lemma text_hw_length (tb : nflog_data) (flags : Z) (t : list byte) :
  text_hw tb flags = Some t -> attrs_16bit tb ->
  Z.of_nat (List.length t) <= 72 + 2 ^ 17.
Proof.
  unfold text_hw, nflog_get_msg_packet_hdr, nflog_get_packet_hw,
    nfnl_get_pointer_to_data.
  intros H Hsize.
  destruct (nfa tb NFULA_PACKET_HDR) as [ph|] eqn:Hph; cbn [option_map] in H;
    [|apply Some_inj in H as <-; cbn; lia].
  destruct (hook (NFA_DATA ph)) as [hk|] eqn:Ehk; [|discriminate].
  apply (load_bound 1) in Ehk. change (2 ^ (8 * Z.of_nat 1)) with (2 ^ 8) in Ehk.
  pose proof (@fmt_u_length hk 8 Ehk ltac:(lia)) as Lhk.
  assert (Lproto : forall proto,
             option_map ntohs (hw_protocol (NFA_DATA ph)) = Some proto ->
             (List.length (fmt_0x 4 proto) <= 16)%nat).
  { intros proto E. unfold hw_protocol in E.
    destruct (NFA_DATA ph) as [|b0 [|b1 r]]; try discriminate E.
    rewrite ntohs_load in E. apply Some_inj in E. subst proto.
    pose proof (be_value_range [b0; b1]) as Hr.
    pose proof (@fmt_0x_length 4 _ 16 Hr ltac:(lia)). lia. }
  destruct (nfa tb NFULA_HWADDR) as [hw|] eqn:Hw; cbn [option_map] in H.
  - destruct (has flags NFLOG_XML_HW).
    + destruct (option_map ntohs (hw_addrlen (NFA_DATA hw))) as [hlen|];
        [|discriminate].
      destruct (option_map ntohs (hw_protocol (NFA_DATA ph))) as [proto|] eqn:Ep;
        [|discriminate].
      destruct (_ <=? _)%nat; [|discriminate].
      apply Some_inj in H as <-. specialize (Lproto _ eq_refl).
      specialize (Hsize _ _ Hw).
      len_norm. rewrite length_firstn, length_skipn.
      change (List.length (txt "hook")) with 4%nat.
      change (List.length (txt "hw")) with 2%nat.
      change (List.length (txt "proto")) with 5%nat.
      change (List.length (txt "src")) with 3%nat.
      change (2 ^ 17) with (2 * 2 ^ 16). lia.
    + apply Some_inj in H as <-. rewrite elem_length.
      change (List.length (txt "hook")) with 4%nat. lia.
  - destruct (has flags NFLOG_XML_HW).
    + destruct (option_map ntohs (hw_protocol (NFA_DATA ph))) as [proto|] eqn:Ep;
        [|discriminate].
      apply Some_inj in H as <-. specialize (Lproto _ eq_refl).
      len_norm.
      change (List.length (txt "hook")) with 4%nat.
      change (List.length (txt "hw")) with 2%nat.
      change (List.length (txt "proto")) with 5%nat. lia.
    + apply Some_inj in H as <-. rewrite elem_length.
      change (List.length (txt "hook")) with 4%nat. lia.
Qed.

Lemma text_u32_length (name : string) (value : option Z) (flags mask : Z)
      (t : list byte) :
  text_u32 name value flags mask = Some t ->
  (forall v, value = Some v -> 0 <= v < 2 ^ 32) ->
  (List.length t <= 2 * List.length (txt name) + 37)%nat.
Proof.
  unfold text_u32. destruct value as [v|]; [|discriminate].
  intros H Hv. apply Some_inj in H as <-. specialize (Hv v eq_refl).
  destruct (_ && _); [|cbn; lia].
  rewrite elem_length. pose proof (@fmt_u_length v 32 Hv ltac:(lia)). lia.
Qed.

Lemma text_ctid_length (tb : nflog_data) (flags : Z) (t : list byte) :
  text_ctid tb flags = Some t -> (List.length t <= 45)%nat.
Proof.
  unfold text_ctid. destruct (has flags NFLOG_XML_CTID);
    [|intros H; apply Some_inj in H as <-; cbn; lia].
  destruct (get_ctid_total tb 0) as [->|(v & -> & Hv)]; intros H;
    apply Some_inj in H as <-; cbn [fst snd].
  - cbn. lia.
  - change (0 >=? 0) with true. cbv iota. rewrite elem_length.
    pose proof (@fmt_u_length v 32 Hv ltac:(lia)).
    change (List.length (txt "ctid")) with 4%nat. lia.
Qed.

Lemma text_payload_length (tb : nflog_data) (flags : Z) (t : list byte) :
  text_payload tb flags = Some t -> attrs_16bit tb ->
  Z.of_nat (List.length t) <= 19 + 2 ^ 17.
Proof.
  unfold text_payload, nflog_get_payload, nfnl_get_pointer_to_data.
  intros H Hsize.
  destruct (nfa tb NFULA_PAYLOAD) as [a|] eqn:Ha; cbn [option_map] in H;
    [|apply Some_inj in H as <-; cbn; lia].
  apply Some_inj in H as <-. specialize (Hsize _ _ Ha).
  destruct (has flags NFLOG_XML_PAYLOAD); [|cbn; lia].
  len_norm.
  change (List.length (txt "payload")) with 7%nat.
  change (2 ^ 17) with (2 * 2 ^ 16). lia.
Qed.

(** The document of a record whose attributes fit the 16-bit length of a
    netlink attribute, at a time told in [int]s, has fewer than [2 ^ 19]
    bytes. *)
Lemma xml_text_bound (tb : nflog_data) (flags : Z) (now : option tm)
      (doc : list byte) :
  xml_text tb flags now = Some doc ->
  attrs_16bit tb -> clock_ints flags now ->
  11 <= Z.of_nat (List.length doc) < 2 ^ 19.
Proof.
  unfold xml_text. intros H Hsize Hclock.
  destruct (text_time flags now) as [t|] eqn:Et; [|discriminate].
  destruct (text_prefix tb flags) as [p|] eqn:Ep; [|discriminate].
  destruct (text_hw tb flags) as [h|] eqn:Eh; [|discriminate].
  destruct (text_u32 "mark" _ _ _) as [m|] eqn:Em; [|discriminate].
  destruct (text_u32 "indev" _ _ _) as [i|] eqn:Ei; [|discriminate].
  destruct (text_u32 "outdev" _ _ _) as [o|] eqn:Eo; [|discriminate].
  destruct (text_u32 "physindev" _ _ _) as [pi|] eqn:Epi; [|discriminate].
  destruct (text_u32 "physoutdev" _ _ _) as [po|] eqn:Epo; [|discriminate].
  destruct (text_ctid tb flags) as [c|] eqn:Ec; [|discriminate].
  destruct (text_payload tb flags) as [d|] eqn:Ed; [|discriminate].
  apply Some_inj in H as <-.
  pose proof (@text_time_length flags now t Et Hclock).
  pose proof (@text_prefix_length tb flags p Ep Hsize).
  pose proof (@text_hw_length tb flags h Eh Hsize).
  assert (Hv : forall get attr v,
             get = option_map ntohl (nfnl_get_data load_u32 (nfa tb) attr) ->
             get = Some v -> 0 <= v < 2 ^ 32).
  { intros get attr v -> E. eapply get_u32_range. exact E. }
  pose proof (@text_u32_length _ _ _ _ _ Em (fun v => Hv _ NFULA_MARK v eq_refl)).
  pose proof (@text_u32_length _ _ _ _ _ Ei
                (fun v => Hv _ NFULA_IFINDEX_INDEV v eq_refl)).
  pose proof (@text_u32_length _ _ _ _ _ Eo
                (fun v => Hv _ NFULA_IFINDEX_OUTDEV v eq_refl)).
  pose proof (@text_u32_length _ _ _ _ _ Epi
                (fun v => Hv _ NFULA_IFINDEX_PHYSINDEV v eq_refl)).
  pose proof (@text_u32_length _ _ _ _ _ Epo
                (fun v => Hv _ NFULA_IFINDEX_PHYSOUTDEV v eq_refl)).
  pose proof (@text_ctid_length tb flags c Ec).
  pose proof (@text_payload_length tb flags d Ed Hsize).
  len_norm.
  change (List.length (txt "log")) with 3%nat.
  change (List.length (txt "mark")) with 4%nat in *.
  change (List.length (txt "indev")) with 5%nat in *.
  change (List.length (txt "outdev")) with 6%nat in *.
  change (List.length (txt "physindev")) with 9%nat in *.
  change (List.length (txt "physoutdev")) with 10%nat in *.
  change (2 ^ 16) with 65536 in *. change (2 ^ 17) with 131072 in *.
  change (2 ^ 19) with 524288. lia.
Qed.

End Bounds.

(* ================================================================== *)
(** * The claims *)
(* ================================================================== *)

Lemma bind_group_busy {host : Host} {env : Environment}
      (w : world) (num : Z) (gh : nflog_g_handle) :
  find_gh (gh_list w) (u16 num) = Some gh ->
  nflog_bind_group w num = (None, set_errno w EBUSY).
Proof.
  intros H. unfold nflog_bind_group. now rewrite H.
Qed.

Lemma bind_group_bound {host : Host} {env : Environment}
      (w w1 : world) (num p : Z) :
  nflog_bind_group w num = (Some p, w1) ->
  find_gh (gh_list w1) (u16 num)
  = Some {| self := p; id := u16 num; cb := None; data := 0 |}.
Proof.
  unfold nflog_bind_group.
  destruct (find_gh _ _); [discriminate|].
  destruct (calloc_reply _ _) as [q|]; [|discriminate].
  rewrite build_send_cfg_msg_spec. cbn zeta.
  destruct (_ <? 0); [discriminate|].
  intros [= <- <-]. cbn [gh_list set_gh_list add_gh find_gh id].
  now rewrite Z.eqb_refl.
Qed.

(** C1. If a handle for group g is already in the registry, binding g again
    returns NULL with errno EBUSY, sends no configuration command (no event
    is added), and leaves the registry as it was: the same handle for g,
    with the same callback and user data.  In particular the second of two
    binds of g fails that way, whatever the kernel and the allocator do. *)
Theorem bind_group_twice {host : Host} {env : Environment}
        (w : world) (num : Z) :
  (forall gh,
      find_gh (gh_list w) (u16 num) = Some gh ->
      exists w',
        nflog_bind_group w num = (None, w')
        /\ errno w' = EBUSY
        /\ trace w' = trace w
        /\ gh_list w' = gh_list w
        /\ find_gh (gh_list w') (u16 num) = Some gh)
  /\ (forall p w1,
         nflog_bind_group w num = (Some p, w1) ->
         exists w2,
           nflog_bind_group w1 num = (None, w2)
           /\ errno w2 = EBUSY
           /\ trace w2 = trace w1
           /\ gh_list w2 = gh_list w1).
Proof.
  split.
  - intros gh H. exists (set_errno w EBUSY).
    rewrite (bind_group_busy _ _ H). repeat split. exact H.
  - intros p w1 H. exists (set_errno w1 EBUSY).
    rewrite (bind_group_busy _ _ (bind_group_bound _ _ H)). repeat split.
Qed.

Lemma bind_group_twice_witness :
  let w1 := snd (nflog_bind_group (host := little_endian) (env := kernel_ack)
                                  world0 100) in
  exists w2,
    nflog_bind_group (host := little_endian) (env := kernel_ack) w1 100 = (None, w2)
    /\ errno w2 = EBUSY
    /\ trace w2 = trace w1
    /\ gh_list w2 = gh_list w1.
Proof.
  intros w1.
  exact (proj2 (bind_group_twice (host := little_endian) (env := kernel_ack)
                                 world0 100) 1 w1 eq_refl).
Defined.

(** C2. Unbinding a bound group handle sends the unbind command for its
    group and returns the status of that command.  Only when the status is
    0 is the handle removed from the registry and released: a lookup of its
    group then finds nothing and the address is no live handle.  With any
    other status the registry is what it was before the call and the handle
    is still there, intact. *)
Theorem unbind_group_on_ack {host : Host} {env : Environment}
        (w : world) (gh : Z) (g : nflog_g_handle) :
  registry_wf (gh_list w) ->
  deref (gh_list w) gh = Some g ->
  let request := cfg_request NFULNL_CFG_CMD_UNBIND (id g) 0 in
  exists ret w',
    nflog_unbind_group w gh = Some (ret, w')
    /\ ret = fst (nfnl_query_reply (trace w) request)
    /\ trace w' = trace w ++ [ev_nfnl_query request]
    /\ (ret = 0 ->
        gh_list w' = del_gh (gh_list w) gh
        /\ find_gh (gh_list w') (id g) = None
        /\ deref (gh_list w') gh = None)
    /\ (ret <> 0 ->
        gh_list w' = gh_list w
        /\ deref (gh_list w') gh = Some g).
Proof.
  intros [Hs Hi] Hd request. unfold nflog_unbind_group. rewrite Hd.
  rewrite build_send_cfg_msg_spec. cbn zeta. fold request.
  destruct (Z.eqb_spec (fst (nfnl_query_reply (trace w) request)) 0) as [E|N].
  - eexists _, _. split; [reflexivity|]. cbn [gh_list trace set_gh_list].
    repeat split; try easy.
    + now apply find_gh_del_gh.
    + now apply deref_del_gh.
  - eexists _, _. split; [reflexivity|]. cbn [gh_list trace].
    repeat split; easy.
Qed.

Lemma unbind_group_on_ack_witness :
  let w := {| gh_list := [ {| self := 2; id := 100; cb := Some 7; data := 9 |};
                           {| self := 1; id := 0; cb := None; data := 0 |} ];
              errno := 0; trace := [] |} in
  (exists ret w',
      nflog_unbind_group (host := little_endian) (env := kernel_ack) w 2
      = Some (ret, w')
      /\ ret = 0
      /\ find_gh (gh_list w') 100 = None)
  /\ (exists ret w',
         nflog_unbind_group (host := little_endian) (env := kernel_nack) w 2
         = Some (ret, w')
         /\ ret = -1
         /\ gh_list w' = gh_list w).
Proof.
  intros w.
  assert (Hwf : registry_wf (gh_list w)).
  { split; cbn; repeat constructor; cbn; intuition discriminate. }
  split.
  - destruct (unbind_group_on_ack (host := little_endian) (env := kernel_ack)
                w 2 Hwf eq_refl) as (ret & w' & Hrun & Hret & _ & Hack & _).
    exists ret, w'. split; [exact Hrun|]. split; [exact Hret|].
    exact (proj1 (proj2 (Hack Hret))).
  - destruct (unbind_group_on_ack (host := little_endian) (env := kernel_nack)
                w 2 Hwf eq_refl) as (ret & w' & Hrun & Hret & _ & _ & Hnack).
    exists ret, w'. split; [exact Hrun|]. split; [exact Hret|].
    apply Hnack. rewrite Hret. discriminate.
Defined.

(** C3 as the specification words it does not hold of the code.  On an
    empty record without flags the document is the 11 bytes
    [<log></log>].  With a capacity of 11 the call returns 11, which is
    within the capacity, and the 11 bytes of the buffer are [<log></log]
    and a NUL: not a well-formed document.  With a capacity of 5 it returns
    11 and the 5 bytes are [<log] and a NUL, not the first 5 bytes of the
    document. *)
Lemma snprintf_xml_truncation_counterexample :
  let call N :=
    nflog_snprintf_xml (host := little_endian) (bits := libnetfilter_log_h)
                       (fun _ => "."%byte) N {| nfa := nfa_none |} 0 None in
  xml_text (host := little_endian) (bits := libnetfilter_log_h)
           {| nfa := nfa_none |} 0 None = Some (txt "<log></log>")
  /\ rendered (call 11) 11 = Some (11, txt "<log></log" ++ [x00])
  /\ xml_well_formed (txt "<log></log" ++ [x00]) = false
  /\ rendered (call 5) 5 = Some (11, txt "<log" ++ [x00])
  /\ txt "<log" ++ [x00] <> firstn 5 (txt "<log></log>")
  /\ ~ truncation_as_specified (host := little_endian) (bits := libnetfilter_log_h).
Proof.
  intros call.
  split; [reflexivity|]. split; [reflexivity|]. split; [reflexivity|].
  split; [reflexivity|]. split; [discriminate|].
  intros H.
  destruct (call 11) as [[L mem']|] eqn:E; [|discriminate E].
  assert (HL : L = 11) by (vm_compute in E; now injection E as <- _).
  subst L.
  destruct (H (fun _ => "."%byte) 11 {| nfa := nfa_none |} 0 None 11 mem'
              (txt "<log></log>") ltac:(unfold INT_MAX; lia) eq_refl E) as [Hwf _].
  specialize (Hwf ltac:(lia)).
  vm_compute in E. injection E as <-.
  vm_compute in Hwf. discriminate Hwf.
Qed.

(** C3, amended.  A call with a buffer of capacity N, at most INT_MAX,
    that returns has written nothing outside the N bytes of the buffer,
    whatever the record.  For a record that has a document (the attributes
    hold the bytes the formatter reads, the local time is there when the
    time flag asks for it) of at most INT_MAX bytes, the call returns the
    length L of the whole document.  If L < N the buffer holds the L bytes
    of the document and then a NUL; if L >= N >= 1 it holds the first N - 1
    bytes of the document and then a NUL.  The document is well formed when
    the prefix it shows has no [<] and no [&].  A fragment that comes when
    no capacity is left writes nothing and is still counted. *)
Theorem snprintf_xml_bounded {host : Host} {bits : XmlFlags}
        (mem0 : memory) (N : Z) (tb : nflog_data) (flags : Z)
        (now : option tm) :
  0 <= N <= INT_MAX ->
  (forall r mem',
      nflog_snprintf_xml mem0 N tb flags now = Some (r, mem') ->
      forall a, a < 0 \/ N <= a -> mem' a = mem0 a)
  /\ (forall doc,
         xml_text tb flags now = Some doc ->
         Z.of_nat (List.length doc) <= INT_MAX ->
         let L := Z.of_nat (List.length doc) in
         exists mem',
           nflog_snprintf_xml mem0 N tb flags now = Some (L, mem')
           /\ (L < N ->
               bytes_at mem' 0 (List.length doc) = doc /\ mem' L = x00)
           /\ (N <= L -> 0 < N ->
               bytes_at mem' 0 (Z.to_nat (N - 1)) = firstn (Z.to_nat (N - 1)) doc
               /\ mem' (N - 1) = x00)
           /\ (prefix_plain tb flags -> xml_well_formed doc = true))
  /\ (forall s st,
         rem st = 0 ->
         len st + Z.of_nat (List.length s) <= INT_MAX -> 0 <= len st ->
         fragment s st
         = XOk tt {| buf := buf st; rem := 0; offset := offset st;
                     len := len st + Z.of_nat (List.length s) |}).
Proof.
  intros HN. split; [|split].
  - intros r mem' Hrun. eapply snprintf_xml_within; [lia | exact Hrun].
  - intros doc Hdoc Hmax L.
    destruct (snprintf_xml_rendering mem0 tb flags now HN Hdoc Hmax)
      as (st & Hrun & _ & Hlen & Hoff & Hrem & Hout & Hin & Hnul).
    pose proof (xml_text_length _ _ _ Hdoc) as Hpos.
    fold L in Hlen, Hoff, Hin, Hnul.
    exists (buf st). unfold nflog_snprintf_xml. rewrite Hrun. cbn [xfinish].
    rewrite Hlen.
    split; [reflexivity|]. split; [|split].
    + intros Hfit. split.
      * rewrite <- (firstn_all doc) at 2. apply bytes_at_firstn.
        intros i Hi. rewrite <- (Nat2Z.id i) at 1. apply Hin. lia.
      * replace L with (Z.min L (N - 1)) at 1 by lia. apply Hnul; lia.
    + intros Hcut HN1. split.
      * apply bytes_at_firstn.
        intros i Hi. rewrite <- (Nat2Z.id i) at 1. apply Hin. lia.
      * replace (N - 1) with (Z.min L (N - 1)) at 1 by lia. apply Hnul; lia.
    + intros Hplain. eapply xml_text_well_formed; eassumption.
  - intros s st' Hr Hl H0. apply fragment_full; [exact Hr | lia | exact Hl].
Qed.

Lemma snprintf_xml_bounded_witness :
  let tb := {| nfa := nfa_put (nfa_put nfa_none NFULA_PAYLOAD (attr_of [xde; xad]))
                              NFULA_PREFIX (attr_of (txt "in" ++ [x00])) |} in
  let doc := txt "<log><prefix>in</prefix><payload>dead</payload></log>" in
  let mem0 : memory := fun _ => "."%byte in
  (exists mem',
      nflog_snprintf_xml (host := little_endian) (bits := libnetfilter_log_h)
                         mem0 64 tb 33 None = Some (53, mem')
      /\ bytes_at mem' 0 53 = doc /\ mem' 53 = x00 /\ mem' 64 = "."%byte)
  /\ (exists mem',
         nflog_snprintf_xml (host := little_endian) (bits := libnetfilter_log_h)
                            mem0 53 tb 33 None = Some (53, mem')
         /\ bytes_at mem' 0 52 = firstn 52 doc /\ mem' 52 = x00
         /\ mem' 53 = "."%byte)
  /\ xml_well_formed doc = true.
Proof.
  intros tb doc mem0.
  assert (Hdoc : xml_text (host := little_endian) (bits := libnetfilter_log_h)
                          tb 33 None = Some doc) by reflexivity.
  assert (Hmax : Z.of_nat (List.length doc) <= INT_MAX)
    by (vm_compute; discriminate).
  assert (Hplain : prefix_plain (host := little_endian)
                                (bits := libnetfilter_log_h) tb 33).
  { intros s Hs. vm_compute in Hs. injection Hs as <-. reflexivity. }
  assert (HL : Z.of_nat (List.length doc) = 53) by reflexivity.
  assert (Hl : List.length doc = 53%nat) by reflexivity.
  destruct (@snprintf_xml_bounded little_endian libnetfilter_log_h
              mem0 64 tb 33 None ltac:(unfold INT_MAX; lia))
    as (Hout64 & Hdoc64 & _).
  destruct (@snprintf_xml_bounded little_endian libnetfilter_log_h
              mem0 53 tb 33 None ltac:(unfold INT_MAX; lia))
    as (Hout53 & Hdoc53 & _).
  destruct (Hdoc64 doc Hdoc Hmax) as (m64 & Hrun64 & Hfit & _ & Hwf).
  destruct (Hdoc53 doc Hdoc Hmax) as (m53 & Hrun53 & _ & Hcut & _).
  rewrite HL in Hrun64, Hfit, Hrun53, Hcut. rewrite Hl in Hfit.
  split; [|split].
  - exists m64. split; [exact Hrun64|].
    destruct (Hfit ltac:(lia)) as [Hb Hn].
    split; [exact Hb|]. split; [exact Hn|].
    apply (Hout64 _ _ Hrun64). lia.
  - exists m53. split; [exact Hrun53|].
    destruct (Hcut ltac:(lia) ltac:(lia)) as [Hb Hn].
    split; [exact Hb|]. split; [exact Hn|].
    apply (Hout53 _ _ Hrun53). lia.
  - exact (Hwf Hplain).
Defined.
(** The claim read on what the application sees: a message of a group
    without handle, in front of a message of a group with a callback.  The
    call of [nflog_handle_packet] returns -1, its value for a failure, and
    the second message is not dispatched; the buffer without the first
    message returns 0 and runs the callback. *)
Lemma rcv_pkt_miss_counterexample :
  let only3 := {| gh_list := [ {| self := 1; id := 3; cb := Some 7; data := 9 |} ];
                  errno := 0; trace := [] |} in
  let msg g := {| nfgen_family := 2; version := 0;
                  res_id := htons (host := little_endian) g |} in
  nflog_handle_packet (host := little_endian) (env := kernel_ack) only3
                      [(msg 7, nfa_none); (msg 3, nfa_none)]
  = (-1, only3)
  /\ nflog_handle_packet (host := little_endian) (env := kernel_ack) only3
                         [(msg 3, nfa_none)]
     = (0, log only3 (ev_callback 7 1 (msg 3) {| nfa := nfa_none |} 9))
  /\ -1 <> 0.
Proof.
  intros only3 msg. split; [reflexivity|]. split; [reflexivity | discriminate].
Qed.

(** C4, amended.  Dispatch of one packet message, the first of a buffer
    handed to [nflog_handle_packet].  When the registry has no handle for
    the group of the message, or the handle has no callback, no callback
    runs: the result handed back to the transport is -ENODEV, a negative
    value, errno is not written and no event is added; the transport takes
    it as a failed callback, so that [nflog_handle_packet] returns -1 to
    the application and the messages behind it in the buffer are not
    dispatched.  Otherwise the callback of the handle runs once, on the
    handle, the message, its attributes and the user data, and what it
    returns is the result: a negative one ends the buffer with -1 in the
    same way, any other lets the dispatch go on with the next message. *)
Theorem rcv_pkt_dispatch {host : Host} {env : Environment}
        (w : world) (nfmsg : nfgenmsg) (nfa : nfattr_table)
        (rest : list (nfgenmsg * nfattr_table)) :
  let group := u16 (ntohs (res_id nfmsg)) in
  let buf := (nfmsg, nfa) :: rest in
  (find_gh (gh_list w) group = None ->
   __nflog_rcv_pkt w nfmsg nfa = (- ENODEV, w)
   /\ nflog_handle_packet w buf = (-1, w))
  /\ (forall gh,
         find_gh (gh_list w) group = Some gh -> cb gh = None ->
         __nflog_rcv_pkt w nfmsg nfa = (- ENODEV, w)
         /\ nflog_handle_packet w buf = (-1, w))
  /\ (forall gh f,
         find_gh (gh_list w) group = Some gh -> cb gh = Some f ->
         let nfldata := {| nfa := nfa |} in
         let r := callback_run f (self gh) nfmsg nfldata (data gh) in
         let w1 := log w (ev_callback f (self gh) nfmsg nfldata (data gh)) in
         __nflog_rcv_pkt w nfmsg nfa = (r, w1)
         /\ (r < 0 -> nflog_handle_packet w buf = (-1, w1))
         /\ (0 <= r ->
             nflog_handle_packet w buf = nflog_handle_packet w1 rest))
  /\ - ENODEV < 0.
Proof.
  intros group buf. subst buf. cbn [nflog_handle_packet].
  unfold __nflog_rcv_pkt. fold group.
  split; [|split; [|split]].
  - intros ->. split; reflexivity.
  - intros gh -> ->. split; reflexivity.
  - intros gh f -> ->. cbv zeta. split; [reflexivity|]. split; intros Hr.
    + destruct (Z.ltb_spec (callback_run f (self gh) nfmsg {| nfa := nfa |}
                                         (data gh)) 0); [reflexivity | lia].
    + destruct (Z.ltb_spec (callback_run f (self gh) nfmsg {| nfa := nfa |}
                                         (data gh)) 0); [lia | reflexivity].
  - reflexivity.
Qed.

Lemma rcv_pkt_dispatch_witness :
  let only3 := {| gh_list := [ {| self := 1; id := 3; cb := Some 7; data := 9 |} ];
                  errno := 0; trace := [] |} in
  let msg g := {| nfgen_family := 2; version := 0;
                  res_id := htons (host := little_endian) g |} in
  (__nflog_rcv_pkt (host := little_endian) (env := kernel_ack) only3 (msg 7)
                   nfa_none
   = (- ENODEV, only3)
   /\ nflog_handle_packet (host := little_endian) (env := kernel_ack) only3
                          [(msg 7, nfa_none); (msg 3, nfa_none)]
      = (-1, only3))
  /\ __nflog_rcv_pkt (host := little_endian) (env := kernel_ack) only3 (msg 3)
                     nfa_none
     = (9, log only3 (ev_callback 7 1 (msg 3) {| nfa := nfa_none |} 9)).
Proof.
  intros only3 msg. split.
  - exact (proj1 (rcv_pkt_dispatch (host := little_endian) (env := kernel_ack)
                                   only3 (msg 7) nfa_none [(msg 3, nfa_none)])
                 eq_refl).
  - exact (proj1 (proj1 (proj2 (proj2
             (rcv_pkt_dispatch (host := little_endian) (env := kernel_ack)
                               only3 (msg 3) nfa_none []))) _ 7 eq_refl eq_refl)).
Defined.

Lemma ntohl_0 {host : Host} : ntohl 0 = 0.
Proof. unfold ntohl. destruct host_big_endian; reflexivity. Qed.

Lemma get_data_absent {host : Host} (ld : list byte -> option Z)
      (tb : nfattr_table) (attr : nfulnl_attr_type) :
  tb attr = None -> nfnl_get_data ld tb attr = Some 0.
Proof. intros H. unfold nfnl_get_data. rewrite H. reflexivity. Qed.

(** C5. When one of the four interface-index attributes (indev, outdev,
    physindev, physoutdev) is absent from a record, its accessor returns
    exactly 0: no absence sentinel, no error, no undefined read. *)
Theorem ifindex_absent_is_zero {host : Host} (nfad : nflog_data) :
  (nfa nfad NFULA_IFINDEX_INDEV = None -> nflog_get_indev nfad = Some 0)
  /\ (nfa nfad NFULA_IFINDEX_OUTDEV = None -> nflog_get_outdev nfad = Some 0)
  /\ (nfa nfad NFULA_IFINDEX_PHYSINDEV = None -> nflog_get_physindev nfad = Some 0)
  /\ (nfa nfad NFULA_IFINDEX_PHYSOUTDEV = None -> nflog_get_physoutdev nfad = Some 0).
Proof.
  unfold nflog_get_indev, nflog_get_outdev, nflog_get_physindev,
    nflog_get_physoutdev.
  repeat split; intros H; rewrite (get_data_absent _ _ _ H);
    cbn [option_map]; now rewrite ntohl_0.
Qed.

Lemma ifindex_absent_is_zero_witness :
  let nfad := {| nfa := nfa_put nfa_none NFULA_MARK (attr_of [x00; x00; x00; x07]) |} in
  nflog_get_indev (host := little_endian) nfad = Some 0
  /\ nflog_get_outdev (host := little_endian) nfad = Some 0
  /\ nflog_get_physindev (host := big_endian) nfad = Some 0
  /\ nflog_get_physoutdev (host := big_endian) nfad = Some 0.
Proof.
  intros nfad.
  destruct (ifindex_absent_is_zero (host := little_endian) nfad) as (H1 & H2 & _).
  destruct (ifindex_absent_is_zero (host := big_endian) nfad) as (_ & _ & H3 & H4).
  exact (conj (H1 eq_refl) (conj (H2 eq_refl) (conj (H3 eq_refl) (H4 eq_refl)))).
Defined.

Lemma presence_checked_u32 {host : Host} (attr : nfulnl_attr_type)
      (get : nflog_data -> Z -> option (Z * Z)) :
  (forall nfad cell,
      get nfad cell
      = if negb (nfnl_attr_present (nfa nfad) attr) then Some (-1, cell)
        else v <- nfnl_get_data load_u32 (nfa nfad) attr ;; Some (0, ntohl v)) ->
  presence_checked get attr.
Proof.
  intros Hget nfad cell. rewrite Hget.
  unfold nfnl_attr_present, nfnl_get_data, attr_of. split.
  - intros ->. reflexivity.
  - intros b0 b1 b2 b3 r ->. cbn [negb NFA_DATA].
    pose proof (ntohl_load b0 b1 b2 b3 r) as H.
    destruct (load_u32 (b0 :: b1 :: b2 :: b3 :: r)) as [v|]; [|discriminate].
    cbn [option_map] in H. injection H as ->. reflexivity.
Qed.

(** C6. The presence-checked accessors (UID, GID, local sequence, global
    sequence, timestamp) return -1 and leave the out-parameter alone when
    their attribute is absent; when it is present they return 0, a value
    different from -1, and store the network-order value of the attribute
    through the out-parameter (for the timestamp: the two 64-bit halves,
    seconds then microseconds). *)
Theorem presence_checked_accessors {host : Host} :
  presence_checked nflog_get_uid NFULA_UID
  /\ presence_checked nflog_get_gid NFULA_GID
  /\ presence_checked nflog_get_seq NFULA_SEQ
  /\ presence_checked nflog_get_seq_global NFULA_SEQ_GLOBAL
  /\ (forall nfad tv,
         (nfa nfad NFULA_TIMESTAMP = None ->
          nflog_get_timestamp nfad tv = Some (-1, tv))
         /\ (forall s0 s1 s2 s3 s4 s5 s6 s7 u0 u1 u2 u3 u4 u5 u6 u7 r,
                nfa nfad NFULA_TIMESTAMP
                = attr_of (s0 :: s1 :: s2 :: s3 :: s4 :: s5 :: s6 :: s7
                           :: u0 :: u1 :: u2 :: u3 :: u4 :: u5 :: u6 :: u7 :: r) ->
                nflog_get_timestamp nfad tv
                = Some (0, {| tv_sec :=
                                s64 (be_value [s0; s1; s2; s3; s4; s5; s6; s7]);
                              tv_usec :=
                                s64 (be_value [u0; u1; u2; u3; u4; u5; u6; u7]) |}))).
Proof.
  do 4 (split; [apply presence_checked_u32; reflexivity|]).
  intros nfad tv. split.
  - intros H. unfold nflog_get_timestamp, nfnl_get_pointer_to_data.
    rewrite H. reflexivity.
  - intros s0 s1 s2 s3 s4 s5 s6 s7 u0 u1 u2 u3 u4 u5 u6 u7 r H.
    unfold nflog_get_timestamp, nfnl_get_pointer_to_data, attr_of in *.
    rewrite H. cbn [option_map NFA_DATA skipn].
    pose proof (be64_load s0 s1 s2 s3 s4 s5 s6 s7
                  (u0 :: u1 :: u2 :: u3 :: u4 :: u5 :: u6 :: u7 :: r)) as Hs.
    pose proof (be64_load u0 u1 u2 u3 u4 u5 u6 u7 r) as Hu.
    destruct (load_u64 (s0 :: _)) as [sec|]; [|discriminate].
    destruct (load_u64 (u0 :: _)) as [usec|]; [|discriminate].
    cbn [option_map] in Hs, Hu. injection Hs as ->. injection Hu as ->.
    reflexivity.
Qed.

Lemma presence_checked_accessors_witness :
  let absent := {| nfa := nfa_none |} in
  let root := {| nfa := nfa_put nfa_none NFULA_UID (attr_of [x00; x00; x00; x00]) |} in
  let stamped :=
    {| nfa := nfa_put nfa_none NFULA_TIMESTAMP
                (attr_of [x00; x00; x00; x00; x65; x43; x21; x00;
                          x00; x00; x00; x00; x00; x0f; x42; x3f]) |} in
  nflog_get_uid (host := little_endian) absent 77 = Some (-1, 77)
  /\ nflog_get_uid (host := little_endian) root 77 = Some (0, 0)
  /\ nflog_get_timestamp (host := little_endian) stamped
       {| tv_sec := 1; tv_usec := 2 |}
     = Some (0, {| tv_sec := 1698898176; tv_usec := 999999 |}).
Proof.
  intros absent root stamped.
  destruct (presence_checked_accessors (host := little_endian))
    as (Huid & _ & _ & _ & Hts).
  split; [|split].
  - apply (Huid absent 77). reflexivity.
  - apply (proj2 (Huid root 77) x00 x00 x00 x00 []). reflexivity.
  - apply (proj2 (Hts stamped {| tv_sec := 1; tv_usec := 2 |})
             x00 x00 x00 x00 x65 x43 x21 x00 x00 x00 x00 x00 x00 x0f x42 x3f []).
    reflexivity.
Defined.

(** C7. [nflog_get_ctid] walks the nested attributes.  Without the
    top-level conntrack attribute it returns -1.  With it, the walk goes
    over the sub-attributes up to the first one of type id; only when the
    payload of that one is exactly four bytes long does the call return 0
    and store its network-order value; when it has another size, or when no
    sub-attribute is the id, the call returns -1 and stores nothing.  On
    any bytes whatsoever the call ends with one of these two results, the
    value being a 32-bit one: there is no parse error and no cut value. *)
Theorem get_ctid_nested_walk {host : Host} (nfad : nflog_data) (id : Z) :
  (nfa nfad NFULA_CT = None -> nflog_get_ctid nfad id = Some (-1, id))
  /\ (forall pre a rest,
         nfa nfad NFULA_CT
         = attr_of (flat_map nla_encode pre ++ nla_encode a ++ rest) ->
         forallb nla_fits pre = true ->
         forallb (fun x => negb (is_ctid x)) pre = true ->
         nla_fits a = true -> is_ctid a = true ->
         nflog_get_ctid nfad id
         = if (List.length (attr_payload a) =? 4)%nat
           then Some (0, be_value (attr_payload a))
           else Some (-1, id))
  /\ (forall all,
         nfa nfad NFULA_CT = attr_of (flat_map nla_encode all) ->
         forallb nla_fits all = true ->
         forallb (fun x => negb (is_ctid x)) all = true ->
         nflog_get_ctid nfad id = Some (-1, id))
  /\ (nflog_get_ctid nfad id = Some (-1, id)
      \/ exists v, nflog_get_ctid nfad id = Some (0, v) /\ 0 <= v < 2 ^ 32).
Proof.
  split; [|split; [|split]].
  - intros H. unfold nflog_get_ctid. now rewrite H.
  - intros pre a rest Hct Hfit Hno Ha Hid.
    rewrite (get_ctid_unfold nfad id Hct). cbn [NFA_DATA].
    rewrite (ctid_loop_value _ _ (ctid_loop_finds pre a rest Hfit Hno Ha Hid 0)).
    now apply ctid_of_encode.
  - intros all Hct Hfit Hno.
    rewrite (get_ctid_unfold nfad id Hct). cbn [NFA_DATA].
    now rewrite (ctid_loop_value _ _ (ctid_loop_misses all Hfit Hno 0)).
  - apply get_ctid_total.
Qed.

Lemma get_ctid_nested_walk_witness :
  let mark := {| attr_type := 8; attr_payload := [x00; x00; x00; x01] |} in
  let good := {| attr_type := 12; attr_payload := [x12; x34; x56; x78] |} in
  let short := {| attr_type := 12; attr_payload := [x12; x34] |} in
  let record (subs : list nlattr) :=
    {| nfa := nfa_put nfa_none NFULA_CT
                (attr_of (flat_map (nla_encode (host := little_endian)) subs)) |} in
  nflog_get_ctid (host := little_endian) {| nfa := nfa_none |} 5 = Some (-1, 5)
  /\ nflog_get_ctid (host := little_endian) (record [mark; good]) 5
     = Some (0, 305419896)
  /\ nflog_get_ctid (host := little_endian) (record [mark; short; good]) 5
     = Some (-1, 5)
  /\ nflog_get_ctid (host := little_endian) (record [mark]) 5 = Some (-1, 5).
Proof.
  intros mark good short record.
  split; [|split; [|split]].
  - exact (proj1 (get_ctid_nested_walk (host := little_endian)
                                       {| nfa := nfa_none |} 5) eq_refl).
  - exact (proj1 (proj2 (get_ctid_nested_walk (host := little_endian)
                                              (record [mark; good]) 5))
                 [mark] good [] eq_refl eq_refl eq_refl eq_refl eq_refl).
  - exact (proj1 (proj2 (get_ctid_nested_walk (host := little_endian)
                                              (record [mark; short; good]) 5))
                 [mark] short (nla_encode (host := little_endian) good)
                 eq_refl eq_refl eq_refl eq_refl eq_refl).
  - exact (proj1 (proj2 (proj2 (get_ctid_nested_walk (host := little_endian)
                                                     (record [mark]) 5)))
                 [mark] eq_refl eq_refl eq_refl).
Defined.

Lemma set_nlbufsiz_spec {host : Host} {env : Environment}
      (w : world) (gh : Z) (g : nflog_g_handle) (nlbufsiz : Z) :
  deref (gh_list w) gh = Some g ->
  let request := nlbufsiz_request (id g) nlbufsiz in
  let status := fst (nfnl_query_reply (trace w) request) in
  exists w',
    nflog_set_nlbufsiz w gh nlbufsiz = Some (status, w')
    /\ gh_list w' = gh_list w
    /\ trace w'
       = trace w ++ ev_nfnl_query request
           :: (if status >=? 0
               then [ev_nfnl_rcvbufsiz (u32 (10 * u32 nlbufsiz))]
               else []).
Proof.
  intros Hd request status.
  unfold nflog_set_nlbufsiz, group_request. rewrite Hd.
  unfold nfnl_query. fold (nlbufsiz_request (id g) nlbufsiz). fold request.
  subst status. destruct (nfnl_query_reply (trace w) request) as [status e].
  cbn [fst]. destruct (status >=? 0).
  - unfold nfnl_rcvbufsiz. destruct (nfnl_rcvbufsiz_reply _ _) as [read_size e'].
    eexists. split; [reflexivity|]. cbn [gh_list trace log set_errno].
    split; [reflexivity|]. now rewrite <- app_assoc.
  - eexists. split; [reflexivity|]. cbn [gh_list trace log set_errno].
    split; reflexivity.
Qed.

(** C8.  [nflog_set_nlbufsiz] at [nlbufsiz = 429496730], the first value
    whose tenfold does not fit 32 bits: the command is acknowledged, and
    the transport is asked for a receive buffer of 4 bytes, not of ten
    times the requested value.  The product [10*nlbufsiz] is computed on
    [unsigned int] and wraps, against the comment above the call ("we try
    to have space for at least 10 messages in the socket buffer").  At
    429496729, one below, the size asked for is ten times the requested
    value. *)
Theorem set_nlbufsiz_rcvbuf_wraps :
  let w := {| gh_list := [ {| self := 1; id := 0; cb := None; data := 0 |} ];
              errno := 0; trace := [] |} in
  let run nlbufsiz :=
    option_map (fun r => (fst r, trace (snd r)))
               (nflog_set_nlbufsiz (host := little_endian) (env := kernel_ack)
                                   w 1 nlbufsiz) in
  run 429496730
  = Some (0, [ev_nfnl_query (nlbufsiz_request (host := little_endian) 0 429496730);
              ev_nfnl_rcvbufsiz 4])
  /\ 4 <> 10 * 429496730
  /\ run 429496729
     = Some (0, [ev_nfnl_query
                   (nlbufsiz_request (host := little_endian) 0 429496729);
                 ev_nfnl_rcvbufsiz (10 * 429496729)]).
Proof.
  intros w run. split; [reflexivity|]. split; [discriminate | reflexivity].
Qed.




Lemma xml_u32_zero (value : option Z) (flags mask : Z) (k : Z -> X unit)
      (st : xstate) :
  value = Some 0 ->
  xbind (xread value)
        (fun v => if negb (v =? 0) && has flags mask then k v else xret tt) st
  = XOk tt st.
Proof. intros ->. reflexivity. Qed.

(** C10. When the mark decodes to 0, or an interface index is 0, be it
    because the attribute is absent or because it holds 0, the statement of
    the formatter for that field leaves the state as it is, whatever the
    flags: nothing is written and nothing is counted, and the document has
    no such element.  Setting the flag does not make the element appear. *)
Theorem xml_zero_field_omitted {host : Host} {bits : XmlFlags}
        (tb : nflog_data) (flags : Z) (st : xstate) :
  (nflog_get_nfmark tb = Some 0 ->
   xml_mark tb flags st = XOk tt st
   /\ text_u32 "mark" (nflog_get_nfmark tb) flags NFLOG_XML_MARK = Some [])
  /\ (nflog_get_indev tb = Some 0 ->
      xml_indev tb flags st = XOk tt st
      /\ text_u32 "indev" (nflog_get_indev tb) flags NFLOG_XML_DEV = Some [])
  /\ (nflog_get_outdev tb = Some 0 ->
      xml_outdev tb flags st = XOk tt st
      /\ text_u32 "outdev" (nflog_get_outdev tb) flags NFLOG_XML_DEV = Some [])
  /\ (nflog_get_physindev tb = Some 0 ->
      xml_physindev tb flags st = XOk tt st
      /\ text_u32 "physindev" (nflog_get_physindev tb) flags NFLOG_XML_PHYSDEV
         = Some [])
  /\ (nflog_get_physoutdev tb = Some 0 ->
      xml_physoutdev tb flags st = XOk tt st
      /\ text_u32 "physoutdev" (nflog_get_physoutdev tb) flags NFLOG_XML_PHYSDEV
         = Some [])
  /\ (nfa tb NFULA_MARK = None -> nflog_get_nfmark tb = Some 0)
  /\ (nfa tb NFULA_IFINDEX_INDEV = None -> nflog_get_indev tb = Some 0)
  /\ (nfa tb NFULA_IFINDEX_OUTDEV = None -> nflog_get_outdev tb = Some 0)
  /\ (nfa tb NFULA_IFINDEX_PHYSINDEV = None -> nflog_get_physindev tb = Some 0)
  /\ (nfa tb NFULA_IFINDEX_PHYSOUTDEV = None -> nflog_get_physoutdev tb = Some 0).
Proof.
  unfold xml_mark, xml_indev, xml_outdev, xml_physindev, xml_physoutdev.
  repeat match goal with
         | |- (_ = Some 0 -> _ /\ _) /\ _ =>
             split; [intros H; split;
                     [now apply xml_u32_zero | now rewrite H]|]
         end.
  unfold nflog_get_nfmark, nflog_get_indev, nflog_get_outdev,
    nflog_get_physindev, nflog_get_physoutdev.
  repeat split; intros H; rewrite (get_data_absent _ _ _ H);
    cbn [option_map]; now rewrite ntohl_0.
Qed.

Lemma xml_zero_field_omitted_witness :
  let tb := {| nfa := nfa_put nfa_none NFULA_MARK (attr_of [x00; x00; x00; x00]) |} in
  let st := xstart (fun _ => "."%byte) 64 in
  let all := 255 in
  xml_mark (host := little_endian) (bits := libnetfilter_log_h) tb all st
  = XOk tt st
  /\ xml_indev (host := little_endian) (bits := libnetfilter_log_h) tb all st
     = XOk tt st
  /\ rendered (nflog_snprintf_xml (host := little_endian)
                 (bits := libnetfilter_log_h) (fun _ => "."%byte) 64 tb
                 (all - 64) None) 12
     = Some (11, txt "<log></log>" ++ [x00]).
Proof.
  intros tb st all.
  destruct (xml_zero_field_omitted (host := little_endian)
              (bits := libnetfilter_log_h) tb all st) as (Hm & Hi & _).
  split; [exact (proj1 (Hm eq_refl))|].
  split; [exact (proj1 (Hi eq_refl))|].
  split; reflexivity.
Defined.
(* ================================================================== *)
(** * Further properties: the session *)
(* ================================================================== *)

(** X1. A bind of a group that has no handle yet, with memory for the
    handle and a request the kernel does not refuse (status not negative),
    returns the new handle.  The handle is linked in front of the chain,
    with the group number cut to 16 bits, no callback and no user data;
    one BIND request for that group has gone out and errno is what the
    request left.  The lookups of the other groups are what they were, and
    as long as no callback is registered a packet message of the new group
    is answered with -ENODEV. *)
Theorem bind_group_links_handle {host : Host} {env : Environment}
        (w : world) (num p : Z) :
  let request := cfg_request NFULNL_CFG_CMD_BIND (u16 num) 0 in
  find_gh (gh_list w) (u16 num) = None ->
  calloc_reply (trace w) (map self (gh_list w)) = Some p ->
  0 <= fst (nfnl_query_reply (trace w) request) ->
  exists w',
    nflog_bind_group w num = (Some p, w')
    /\ gh_list w'
       = {| self := p; id := u16 num; cb := None; data := 0 |} :: gh_list w
    /\ trace w' = trace w ++ [ev_nfnl_query request]
    /\ errno w' = snd (nfnl_query_reply (trace w) request)
    /\ (forall group,
           group <> u16 num ->
           find_gh (gh_list w') group = find_gh (gh_list w) group)
    /\ (forall nfmsg nfa,
           u16 (ntohs (res_id nfmsg)) = u16 num ->
           __nflog_rcv_pkt w' nfmsg nfa = (- ENODEV, w')).
Proof.
  intros request Hfind Hcalloc Hstatus.
  unfold nflog_bind_group. rewrite Hfind, Hcalloc.
  rewrite build_send_cfg_msg_spec. cbn zeta. fold request.
  destruct (Z.ltb_spec (fst (nfnl_query_reply (trace w) request)) 0); [lia|].
  eexists. split; [reflexivity|].
  cbn [gh_list trace errno set_gh_list]. unfold add_gh.
  split; [reflexivity|]. split; [reflexivity|]. split; [reflexivity|]. split.
  - intros group Hne. cbn [find_gh id].
    destruct (Z.eqb_spec (u16 num) group); [congruence | reflexivity].
  - intros nfmsg nfa Hgroup. unfold __nflog_rcv_pkt. rewrite Hgroup.
    cbn [gh_list set_gh_list]. unfold add_gh. cbn [find_gh id].
    rewrite Z.eqb_refl. reflexivity.
Qed.

Lemma bind_group_links_handle_witness :
  exists w',
    nflog_bind_group (host := little_endian) (env := kernel_ack) world0 65636
    = (Some 1, w')
    /\ gh_list w' = [ {| self := 1; id := 100; cb := None; data := 0 |} ]
    /\ __nflog_rcv_pkt (host := little_endian) (env := kernel_ack) w'
         {| nfgen_family := 2; version := 0;
            res_id := htons (host := little_endian) 100 |} nfa_none
       = (- ENODEV, w').
Proof.
  destruct (bind_group_links_handle (host := little_endian) (env := kernel_ack)
              world0 65636 (p := 1) eq_refl eq_refl ltac:(cbn; lia))
    as (w' & Hrun & Hlist & _ & _ & _ & Hdrop).
  exists w'. split; [exact Hrun|]. split; [exact Hlist|].
  apply Hdrop. reflexivity.
Defined.

(** X2. A bind that returns NULL has left the registry as it was, whatever
    made it fail.  When the allocator has no memory no request is sent at
    all and errno is ENOMEM; when the kernel refuses the request (negative
    status) the request is the only event, errno is what the kernel left,
    and the handle that was allocated is not linked. *)
Theorem bind_group_failure {host : Host} {env : Environment}
        (w : world) (num : Z) :
  let request := cfg_request NFULNL_CFG_CMD_BIND (u16 num) 0 in
  (forall w', nflog_bind_group w num = (None, w') -> gh_list w' = gh_list w)
  /\ (find_gh (gh_list w) (u16 num) = None ->
      calloc_reply (trace w) (map self (gh_list w)) = None ->
      nflog_bind_group w num = (None, set_errno w ENOMEM))
  /\ (forall p,
         find_gh (gh_list w) (u16 num) = None ->
         calloc_reply (trace w) (map self (gh_list w)) = Some p ->
         fst (nfnl_query_reply (trace w) request) < 0 ->
         nflog_bind_group w num
         = (None, {| gh_list := gh_list w;
                     errno := snd (nfnl_query_reply (trace w) request);
                     trace := trace w ++ [ev_nfnl_query request] |})).
Proof.
  intros request. split; [|split].
  - intros w'. unfold nflog_bind_group.
    destruct (find_gh _ _); [now intros [= <-]|].
    destruct (calloc_reply _ _); [|now intros [= <-]].
    rewrite build_send_cfg_msg_spec. cbn zeta.
    destruct (_ <? 0); [now intros [= <-] | discriminate].
  - intros Hfind Hcalloc. unfold nflog_bind_group.
    now rewrite Hfind, Hcalloc.
  - intros p Hfind Hcalloc Hstatus. unfold nflog_bind_group.
    rewrite Hfind, Hcalloc, build_send_cfg_msg_spec. cbn zeta. fold request.
    destruct (Z.ltb_spec (fst (nfnl_query_reply (trace w) request)) 0);
      [reflexivity | lia].
Qed.

(** X3. Bind and unbind undo each other on the registry: after a bind that
    returned a handle and an unbind of that handle that the kernel
    acknowledged with 0, the chain is the one from before the bind, and the
    two requests, BIND then UNBIND of the same group, are the events of the
    two calls. *)
Theorem bind_unbind_round_trip {host : Host} {env : Environment}
        (w w1 w2 : world) (num p : Z) :
  nflog_bind_group w num = (Some p, w1) ->
  nflog_unbind_group w1 p = Some (0, w2) ->
  gh_list w2 = gh_list w
  /\ trace w2
     = trace w ++ [ev_nfnl_query (cfg_request NFULNL_CFG_CMD_BIND (u16 num) 0);
                   ev_nfnl_query (cfg_request NFULNL_CFG_CMD_UNBIND (u16 num) 0)].
Proof.
  unfold nflog_bind_group.
  destruct (find_gh _ _); [discriminate|].
  destruct (calloc_reply _ _) as [q|]; [|discriminate].
  rewrite build_send_cfg_msg_spec. cbn zeta.
  destruct (_ <? 0); [discriminate|].
  intros [= <- <-]. unfold nflog_unbind_group.
  cbn [gh_list set_gh_list]. unfold add_gh. cbn [deref self].
  rewrite Z.eqb_refl.
  rewrite build_send_cfg_msg_spec. cbn zeta. cbn [id trace gh_list].
  match goal with
  | |- context [?s =? 0] => destruct (Z.eqb_spec s 0) as [E|N]
  end.
  - intros [= _ <-]. cbn [gh_list set_gh_list del_gh self trace].
    rewrite Z.eqb_refl. split; [reflexivity|].
    now rewrite <- app_assoc.
  - intros [= E _]. contradiction.
Qed.

Lemma bind_unbind_round_trip_witness :
  let w := snd (nflog_bind_group (host := big_endian) (env := kernel_ack)
                                 world0 7) in
  let w1 := snd (nflog_bind_group (host := big_endian) (env := kernel_ack) w 100) in
  exists w2,
    nflog_unbind_group (host := big_endian) (env := kernel_ack) w1 2 = Some (0, w2)
    /\ gh_list w2 = gh_list w.
Proof.
  intros w w1. eexists. split; [reflexivity|].
  exact (proj1 (bind_unbind_round_trip (host := big_endian) (env := kernel_ack)
                  w 100 eq_refl eq_refl)).
Defined.

(** X4. Unbinding a handle, acknowledged or not, leaves every other handle
    and every other group as it was: the other addresses still stand for
    the same nodes, the other groups are looked up as before, and a packet
    message of another group gets the result it would have got before. *)
Theorem unbind_group_frame {host : Host} {env : Environment}
        (w w' : world) (gh ret : Z) (g : nflog_g_handle) :
  deref (gh_list w) gh = Some g ->
  nflog_unbind_group w gh = Some (ret, w') ->
  (forall gh', gh' <> gh -> deref (gh_list w') gh' = deref (gh_list w) gh')
  /\ (forall group,
         group <> id g ->
         find_gh (gh_list w') group = find_gh (gh_list w) group)
  /\ (forall nfmsg nfa,
         u16 (ntohs (res_id nfmsg)) <> id g ->
         fst (__nflog_rcv_pkt w' nfmsg nfa) = fst (__nflog_rcv_pkt w nfmsg nfa)).
Proof.
  intros Hd. unfold nflog_unbind_group. rewrite Hd.
  rewrite build_send_cfg_msg_spec. cbn zeta.
  assert (Hrcv : forall l : list nflog_g_handle,
             (forall group, group <> id g ->
                            find_gh l group = find_gh (gh_list w) group) ->
             forall e t nfmsg nfa,
               u16 (ntohs (res_id nfmsg)) <> id g ->
               fst (__nflog_rcv_pkt {| gh_list := l; errno := e; trace := t |}
                                    nfmsg nfa)
               = fst (__nflog_rcv_pkt w nfmsg nfa)).
  { intros l Hl e t nfmsg nfa Hne. unfold __nflog_rcv_pkt.
    cbn [gh_list]. rewrite (Hl _ Hne).
    destruct (find_gh _ _) as [x|]; [|reflexivity].
    destruct (cb x); reflexivity. }
  destruct (_ =? 0); intros [= _ <-]; cbn [gh_list set_gh_list].
  - split; [|split].
    + intros gh' Hne. now apply deref_del_gh_other.
    + intros group Hne. eapply find_gh_del_gh_other; eassumption.
    + apply Hrcv. intros group Hne. eapply find_gh_del_gh_other; eassumption.
  - split; [|split]; [reflexivity | reflexivity |].
    apply Hrcv. reflexivity.
Qed.

Lemma unbind_group_frame_witness :
  let w := {| gh_list := [ {| self := 2; id := 100; cb := Some 7; data := 9 |};
                           {| self := 1; id := 0; cb := Some 8; data := 3 |} ];
              errno := 0; trace := [] |} in
  let msg := {| nfgen_family := 2; version := 0; res_id := 0 |} in
  exists w',
    nflog_unbind_group (host := little_endian) (env := kernel_ack) w 2
    = Some (0, w')
    /\ find_gh (gh_list w') 0 = find_gh (gh_list w) 0
    /\ fst (__nflog_rcv_pkt (host := little_endian) (env := kernel_ack) w' msg
                            nfa_none) = 3.
Proof.
  intros w msg. eexists. split; [reflexivity|].
  destruct (unbind_group_frame (host := little_endian) (env := kernel_ack)
              w 2 eq_refl eq_refl) as (_ & Hfind & Hrcv).
  split.
  - apply Hfind. discriminate.
  - rewrite (Hrcv msg nfa_none); [reflexivity | discriminate].
Defined.
(** X5. Registering a callback on a live handle of a well-formed registry
    returns 0, sends nothing and leaves errno alone; it replaces the
    callback and the user data of that handle and of no other.  From then
    on a packet message of the handle's group is handed to the new callback
    with the handle, the message, its attributes and the new user data, and
    the callback's result is the result of the dispatch; registering NULL
    makes the group answer -ENODEV again. *)
Theorem callback_register_dispatch {host : Host} {env : Environment}
        (w : world) (gh : Z) (g : nflog_g_handle) (f : option Z) (d : Z) :
  registry_wf (gh_list w) ->
  deref (gh_list w) gh = Some g ->
  exists w',
    nflog_callback_register w gh f d = Some (0, w')
    /\ trace w' = trace w
    /\ errno w' = errno w
    /\ deref (gh_list w') gh
       = Some {| self := gh; id := id g; cb := f; data := d |}
    /\ (forall gh', gh' <> gh -> deref (gh_list w') gh' = deref (gh_list w) gh')
    /\ (forall group,
           group <> id g ->
           find_gh (gh_list w') group = find_gh (gh_list w) group)
    /\ (forall nfmsg nfa,
           u16 (ntohs (res_id nfmsg)) = id g ->
           __nflog_rcv_pkt w' nfmsg nfa
           = match f with
             | Some c =>
                 (callback_run c gh nfmsg {| nfa := nfa |} d,
                  log w' (ev_callback c gh nfmsg {| nfa := nfa |} d))
             | None => (- ENODEV, w')
             end).
Proof.
  intros [Hs Hi] Hd. rewrite (callback_register_spec w gh f d Hd).
  eexists. split; [reflexivity|]. cbn [gh_list trace errno set_gh_list].
  split; [reflexivity|]. split; [reflexivity|].
  split; [now apply deref_registered|].
  split; [intros gh' Hne; now apply deref_registered_other|].
  split; [intros group Hne; eapply find_gh_registered_other; eassumption|].
  intros nfmsg nfa Hgroup. unfold __nflog_rcv_pkt. rewrite Hgroup.
  cbn [gh_list set_gh_list].
  rewrite (find_gh_registered (gh_list w) gh f d Hi Hd). cbn [cb self data].
  destruct f; reflexivity.
Qed.

Lemma callback_register_dispatch_witness :
  let w := {| gh_list := [ {| self := 2; id := 100; cb := Some 7; data := 9 |};
                           {| self := 1; id := 0; cb := None; data := 0 |} ];
              errno := 0; trace := [] |} in
  let msg := {| nfgen_family := 2; version := 0; res_id := 0 |} in
  exists w',
    nflog_callback_register w 1 (Some 8) 5 = Some (0, w')
    /\ fst (__nflog_rcv_pkt (host := little_endian) (env := kernel_ack) w' msg
                            nfa_none) = 5
    /\ deref (gh_list w') 2 = deref (gh_list w) 2.
Proof.
  intros w msg.
  assert (Hwf : registry_wf (gh_list w)).
  { split; cbn; repeat constructor; cbn; intuition discriminate. }
  destruct (callback_register_dispatch (host := little_endian)
              (env := kernel_ack) w 1 (Some 8) 5 Hwf eq_refl)
    as (w' & Hrun & _ & _ & _ & Hother & _ & Hrcv).
  exists w'. split; [exact Hrun|]. split.
  - rewrite (Hrcv msg nfa_none eq_refl). reflexivity.
  - apply Hother. discriminate.
Defined.

(** X6. The group number makes the round trip over the wire on either byte
    order: after a bind that returned a handle and the registration of a
    callback on it, a packet message that carries the [res_id] the BIND
    request carried is handed to that callback, with the handle and the
    user data, and the callback's result is the result of the dispatch. *)
Theorem bind_register_dispatch {host : Host} {env : Environment}
        (w w1 : world) (num p f d : Z) (nfmsg : nfgenmsg) (nfa : nfattr_table) :
  nflog_bind_group w num = (Some p, w1) ->
  res_id nfmsg
  = res_id (nlmsg_data (cfg_request NFULNL_CFG_CMD_BIND (u16 num) 0)) ->
  exists w2,
    nflog_callback_register w1 p (Some f) d = Some (0, w2)
    /\ __nflog_rcv_pkt w2 nfmsg nfa
       = (callback_run f p nfmsg {| nfa := nfa |} d,
          log w2 (ev_callback f p nfmsg {| nfa := nfa |} d)).
Proof.
  unfold nflog_bind_group.
  destruct (find_gh _ _); [discriminate|].
  destruct (calloc_reply _ _) as [q|]; [|discriminate].
  rewrite build_send_cfg_msg_spec. cbn zeta.
  destruct (_ <? 0); [discriminate|].
  intros [= <- <-] Hres.
  unfold nflog_callback_register. cbn [gh_list set_gh_list]. unfold add_gh.
  cbn [deref self]. rewrite Z.eqb_refl.
  eexists. split; [reflexivity|].
  unfold __nflog_rcv_pkt. rewrite Hres.
  unfold cfg_request, nfnl_fill_hdr. cbn [nlmsg_data res_id].
  rewrite u16_idem, ntohs_htons.
  cbn [gh_list set_gh_list map self id]. rewrite Z.eqb_refl.
  cbn [find_gh id]. rewrite Z.eqb_refl. reflexivity.
Qed.

Lemma bind_register_dispatch_witness :
  let w1 := snd (nflog_bind_group (host := little_endian) (env := kernel_ack)
                                  world0 258) in
  let msg := {| nfgen_family := 2; version := 0; res_id := 513 |} in
  exists w2,
    nflog_callback_register w1 1 (Some 7) 9 = Some (0, w2)
    /\ __nflog_rcv_pkt (host := little_endian) (env := kernel_ack) w2 msg nfa_none
       = (9, log w2 (ev_callback 7 1 msg {| nfa := nfa_none |} 9)).
Proof.
  intros w1 msg.
  exact (bind_register_dispatch (host := little_endian) (env := kernel_ack)
           world0 258 (p := 1) 7 9 msg nfa_none eq_refl eq_refl).
Defined.

(** X7. The four commands on a bound group (copy mode, timeout, queue
    threshold, flags) send one request each: a CONFIG message with the
    flags REQUEST|ACK and the family AF_UNSPEC, addressed to the group of
    the handle, with the value cut to the width of its C type and put in
    network order.  The call returns the status of the request, and the
    registry is what it was whether the kernel accepts or refuses. *)
Theorem group_commands_one_request {host : Host} {env : Environment}
        (w : world) (gh : Z) (g : nflog_g_handle) :
  deref (gh_list w) gh = Some g ->
  let sent attr :=
    {| nlmsg_type := NFULNL_MSG_CONFIG;
       nlmsg_flags := 5;
       nlmsg_data := {| nfgen_family := 0; version := NFNETLINK_V0;
                        res_id := htons (id g mod 2 ^ 16) |};
       nlmsg_attr := attr |} in
  let outcome attr :=
    Some (fst (nfnl_query_reply (trace w) (sent attr)),
          {| gh_list := gh_list w;
             errno := snd (nfnl_query_reply (trace w) (sent attr));
             trace := trace w ++ [ev_nfnl_query (sent attr)] |}) in
  (forall mode range,
      nflog_set_mode w gh mode range
      = outcome (NFULA_CFG_MODE,
                 nfulnl_msg_config_mode (htonl (range mod 2 ^ 32))
                                        (mode mod 2 ^ 8)))
  /\ (forall timeout,
         nflog_set_timeout w gh timeout
         = outcome (NFULA_CFG_TIMEOUT, cfg_u32 (htonl (timeout mod 2 ^ 32))))
  /\ (forall qthresh,
         nflog_set_qthresh w gh qthresh
         = outcome (NFULA_CFG_QTHRESH, cfg_u32 (htonl (qthresh mod 2 ^ 32))))
  /\ (forall flags,
         nflog_set_flags w gh flags
         = outcome (NFULA_CFG_FLAGS, cfg_u16 (htons (flags mod 2 ^ 16)))).
Proof.
  intros Hd sent outcome.
  unfold nflog_set_mode, nflog_set_timeout, nflog_set_qthresh, nflog_set_flags.
  repeat split; intros; rewrite (group_request_spec w gh _ Hd);
    reflexivity.
Qed.

Lemma group_commands_one_request_witness :
  let w := {| gh_list := [ {| self := 1; id := 258; cb := None; data := 0 |} ];
              errno := 0; trace := [] |} in
  nflog_set_timeout (host := little_endian) (env := kernel_nack) w 1 (2 ^ 32 + 100)
  = Some (-1,
          {| gh_list := gh_list w;
             errno := 1;
             trace :=
               [ev_nfnl_query
                  {| nlmsg_type := NFULNL_MSG_CONFIG;
                     nlmsg_flags := 5;
                     nlmsg_data := {| nfgen_family := 0; version := 0;
                                      res_id := 513 |};
                     nlmsg_attr := (NFULA_CFG_TIMEOUT, cfg_u32 1677721600) |}] |}).
Proof.
  intros w.
  exact (proj1 (proj2 (group_commands_one_request
                         (host := little_endian) (env := kernel_nack)
                         w 1 eq_refl)) (2 ^ 32 + 100)).
Defined.

(** X8. In every session an application can reach from [nflog_open] by
    calls of the interface and dispatched messages, with an allocator that
    never hands out the address of a live handle: no two live handles share
    an address or a group, every group number fits 16 bits, and a live
    handle is the one its address and its group stand for, so that the
    messages of its group go to its callback. *)
Theorem reachable_registry_invariant {host : Host} {env : Environment}
        (w : world) :
  allocator_fresh -> reachable w ->
  registry_wf (gh_list w)
  /\ forall g,
      In g (gh_list w) ->
      0 <= id g < 2 ^ 16
      /\ deref (gh_list w) (self g) = Some g
      /\ find_gh (gh_list w) (id g) = Some g.
Proof.
  intros Hfresh Hreach.
  pose proof (reachable_registry_wf Hfresh Hreach) as Hwf.
  split; [exact Hwf|].
  assert (Hrange : forall g, In g (gh_list w) -> 0 <= id g < 2 ^ 16).
  { clear Hwf. induction Hreach as [e|w w' _ IH Hstep]; [intros g []|].
    destruct Hstep.
    - unfold nflog_bind_pf. rewrite build_send_cfg_msg_spec. exact IH.
    - unfold nflog_unbind_pf. rewrite build_send_cfg_msg_spec. exact IH.
    - unfold nflog_bind_group.
      destruct (find_gh _ _); [exact IH|].
      destruct (calloc_reply _ _); [|exact IH].
      rewrite build_send_cfg_msg_spec. cbn zeta.
      destruct (_ <? 0); [exact IH|].
      cbn [snd gh_list set_gh_list]. unfold add_gh.
      intros g [<-|Hin]; [apply u16_range | now apply IH].
    - unfold nflog_unbind_group in H.
      destruct (deref _ _); [|discriminate].
      rewrite build_send_cfg_msg_spec in H. cbn zeta in H.
      destruct (_ =? 0); injection H as _ <-; cbn [gh_list set_gh_list].
      + intros g Hin. apply IH. eapply del_gh_incl; eassumption.
      + exact IH.
    - destruct (deref (gh_list w) gh) as [x|] eqn:Hd.
      + rewrite (callback_register_spec w gh f d Hd) in H. injection H as _ <-.
        cbn [gh_list set_gh_list]. intros g Hin.
        apply in_map_iff in Hin. destruct Hin as (y & <- & Hy).
        rewrite registered_id. now apply IH.
      + unfold nflog_callback_register in H. now rewrite Hd in H.
    - unfold nflog_set_mode in H.
      now rewrite (group_request_gh_list _ _ _ H).
    - unfold nflog_set_timeout in H.
      now rewrite (group_request_gh_list _ _ _ H).
    - unfold nflog_set_qthresh in H.
      now rewrite (group_request_gh_list _ _ _ H).
    - now rewrite (set_nlbufsiz_gh_list _ _ _ H).
    - unfold nflog_set_flags in H.
      now rewrite (group_request_gh_list _ _ _ H).
    - unfold __nflog_rcv_pkt.
      destruct (find_gh _ _) as [x|]; [|exact IH].
      destruct (cb x); exact IH. }
  intros g Hin. split; [now apply Hrange|].
  destruct Hwf as [Hs Hi]. clear Hrange Hreach.
  induction (gh_list w) as [|y l IH]; [destruct Hin|].
  cbn [map] in Hs, Hi.
  inversion Hs as [|? ? Hsn Hsd]; inversion Hi as [|? ? Hin' Hid]; subst.
  cbn [deref find_gh]. destruct Hin as [->|Hin].
  - now rewrite !Z.eqb_refl.
  - destruct (Z.eqb_spec (self y) (self g)) as [E|_].
    { exfalso. apply Hsn. rewrite E. now apply in_map. }
    destruct (Z.eqb_spec (id y) (id g)) as [E|_].
    { exfalso. apply Hin'. rewrite E. now apply in_map. }
    now apply IH.
Qed.

Lemma reachable_registry_invariant_witness :
  let w := snd (nflog_bind_group (host := little_endian) (env := kernel_ack)
             (snd (nflog_bind_group (host := little_endian) (env := kernel_ack)
                                    world0 0)) 100) in
  registry_wf (gh_list w)
  /\ forall g,
      In g (gh_list w) ->
      0 <= id g < 2 ^ 16
      /\ deref (gh_list w) (self g) = Some g
      /\ find_gh (gh_list w) (id g) = Some g.
Proof.
  intros w.
  apply (reachable_registry_invariant (host := little_endian)
                                      (env := kernel_ack)).
  - exact kernel_ack_fresh.
  - unfold w.
    apply (reach_step
             (w := snd (nflog_bind_group (host := little_endian)
                                         (env := kernel_ack) world0 0))).
    + apply (reach_step (w := world0)); [apply (reach_open 0)|].
      apply step_bind_group.
    + apply step_bind_group.
Defined.

(** X9. The registry never holds a group the kernel was not asked for: in
    every session an application can reach, the BIND request for the group
    of each live handle is among the requests that were sent. *)
Theorem live_groups_were_requested {host : Host} {env : Environment}
        (w : world) :
  reachable w ->
  forall g,
    In g (gh_list w) ->
    In (ev_nfnl_query (cfg_request NFULNL_CFG_CMD_BIND (id g) 0)) (trace w).
Proof.
  intros Hreach. induction Hreach as [e|w w' _ IH Hstep]; [intros g []|].
  pose proof (api_step_trace Hstep) as [evs Htr].
  assert (Hkeep : forall g,
             In g (gh_list w) ->
             In (ev_nfnl_query (cfg_request NFULNL_CFG_CMD_BIND (id g) 0))
                (trace w')).
  { intros g Hin. rewrite Htr. apply in_or_app. left. now apply IH. }
  clear Htr evs. destruct Hstep.
  - revert Hkeep. unfold nflog_bind_pf. rewrite build_send_cfg_msg_spec.
    intros Hkeep. exact Hkeep.
  - revert Hkeep. unfold nflog_unbind_pf. rewrite build_send_cfg_msg_spec.
    intros Hkeep. exact Hkeep.
  - revert Hkeep. unfold nflog_bind_group.
    destruct (find_gh _ _); [intros Hkeep; exact Hkeep|].
    destruct (calloc_reply _ _); [|intros Hkeep; exact Hkeep].
    rewrite build_send_cfg_msg_spec. cbn zeta.
    destruct (_ <? 0); [intros Hkeep; exact Hkeep|].
    cbn [snd gh_list trace set_gh_list]. unfold add_gh.
    intros Hkeep g [<-|Hin]; [|now apply Hkeep].
    cbn [id]. apply in_or_app. right. now left.
  - unfold nflog_unbind_group in H.
    destruct (deref _ _); [|discriminate].
    rewrite build_send_cfg_msg_spec in H. cbn zeta in H.
    destruct (_ =? 0); injection H as _ <-; cbn [gh_list set_gh_list].
    + intros g Hin. apply Hkeep. eapply del_gh_incl; eassumption.
    + exact Hkeep.
  - destruct (deref (gh_list w) gh) as [x|] eqn:Hd.
    + rewrite (callback_register_spec w gh f d Hd) in H. injection H as _ <-.
      cbn [gh_list set_gh_list]. intros g Hin.
      apply in_map_iff in Hin. destruct Hin as (y & <- & Hy).
      rewrite registered_id. now apply Hkeep.
    + unfold nflog_callback_register in H. now rewrite Hd in H.
  - unfold nflog_set_mode in H.
    now rewrite (group_request_gh_list _ _ _ H).
  - unfold nflog_set_timeout in H.
    now rewrite (group_request_gh_list _ _ _ H).
  - unfold nflog_set_qthresh in H.
    now rewrite (group_request_gh_list _ _ _ H).
  - now rewrite (set_nlbufsiz_gh_list _ _ _ H).
  - unfold nflog_set_flags in H.
    now rewrite (group_request_gh_list _ _ _ H).
  - revert Hkeep. unfold __nflog_rcv_pkt.
    destruct (find_gh _ _) as [x|]; [|intros Hkeep; exact Hkeep].
    destruct (cb x); intros Hkeep; exact Hkeep.
Qed.

Lemma live_groups_were_requested_witness :
  let w := snd (nflog_bind_group (host := little_endian) (env := kernel_ack)
                                 world0 100) in
  In {| self := 1; id := 100; cb := None; data := 0 |} (gh_list w)
  /\ In (ev_nfnl_query (cfg_request (host := little_endian)
                                    NFULNL_CFG_CMD_BIND 100 0)) (trace w).
Proof.
  intros w.
  assert (Hin : In {| self := 1; id := 100; cb := None; data := 0 |} (gh_list w))
    by now left.
  split; [exact Hin|].
  apply (live_groups_were_requested (host := little_endian) (env := kernel_ack)
           (w := w)
           (reach_step (reach_open 0) (step_bind_group world0 100)) _ Hin).
Defined.

(** X10. Of the protocol family given to [nflog_bind_pf] and
    [nflog_unbind_pf] only the low eight bits reach the kernel: the request
    is a PF_BIND (PF_UNBIND) command for group 0 and the family [pf mod
    256], so that two families that differ by a multiple of 256 give the
    same call.  The call returns the status of that one request and does
    not touch the registry. *)
Theorem bind_pf_family_byte {host : Host} {env : Environment}
        (w : world) (pf : Z) :
  let sent command :=
    {| nlmsg_type := NFULNL_MSG_CONFIG;
       nlmsg_flags := 5;
       nlmsg_data := {| nfgen_family := pf mod 2 ^ 8; version := NFNETLINK_V0;
                        res_id := htons 0 |};
       nlmsg_attr := (NFULA_CFG_CMD, nfulnl_msg_config_cmd command) |} in
  let outcome command :=
    (fst (nfnl_query_reply (trace w) (sent command)),
     {| gh_list := gh_list w;
        errno := snd (nfnl_query_reply (trace w) (sent command));
        trace := trace w ++ [ev_nfnl_query (sent command)] |}) in
  nflog_bind_pf w pf = outcome NFULNL_CFG_CMD_PF_BIND
  /\ nflog_unbind_pf w pf = outcome NFULNL_CFG_CMD_PF_UNBIND
  /\ (forall k, nflog_bind_pf w (pf + 256 * k) = nflog_bind_pf w pf)
  /\ (forall k, nflog_unbind_pf w (pf + 256 * k) = nflog_unbind_pf w pf).
Proof.
  intros sent outcome.
  assert (Hreq : forall command x,
             cfg_request command 0 (u16 x)
             = {| nlmsg_type := NFULNL_MSG_CONFIG;
                  nlmsg_flags := 5;
                  nlmsg_data := {| nfgen_family := x mod 2 ^ 8;
                                   version := NFNETLINK_V0;
                                   res_id := htons 0 |};
                  nlmsg_attr := (NFULA_CFG_CMD, nfulnl_msg_config_cmd command) |}).
  { intros command x. unfold cfg_request, nfnl_fill_hdr.
    rewrite u8_u16. reflexivity. }
  assert (Hk : forall k, (pf + 256 * k) mod 2 ^ 8 = pf mod 2 ^ 8).
  { intros k. change (2 ^ 8) with 256. rewrite Z.mul_comm. apply Z.mod_add. lia. }
  unfold nflog_bind_pf, nflog_unbind_pf.
  rewrite !build_send_cfg_msg_spec. cbn zeta. rewrite !Hreq.
  split; [reflexivity|]. split; [reflexivity|].
  split; intros k; rewrite build_send_cfg_msg_spec; cbn zeta;
    rewrite Hreq, Hk; reflexivity.
Qed.
(* ================================================================== *)
(** * Further properties: the accessors *)
(* ================================================================== *)

Lemma get_u16_network_order {host : Host} (tb : nfattr_table)
      (attr : nfulnl_attr_type) :
  (tb attr = None -> option_map ntohs (nfnl_get_data load_u16 tb attr) = Some 0)
  /\ (forall b0 b1 r,
         tb attr = attr_of (b0 :: b1 :: r) ->
         option_map ntohs (nfnl_get_data load_u16 tb attr)
         = Some (be_value [b0; b1])).
Proof.
  unfold nfnl_get_data, attr_of. split.
  - intros ->. cbn [option_map]. unfold ntohs.
    now destruct host_big_endian.
  - intros b0 b1 r ->. cbn [NFA_DATA]. apply ntohs_load.
Qed.

Lemma get_u32_network_order {host : Host} (tb : nfattr_table)
      (attr : nfulnl_attr_type) :
  (tb attr = None -> option_map ntohl (nfnl_get_data load_u32 tb attr) = Some 0)
  /\ (forall b0 b1 b2 b3 r,
         tb attr = attr_of (b0 :: b1 :: b2 :: b3 :: r) ->
         option_map ntohl (nfnl_get_data load_u32 tb attr)
         = Some (be_value [b0; b1; b2; b3])).
Proof.
  unfold nfnl_get_data, attr_of. split.
  - intros ->. cbn [option_map]. now rewrite ntohl_0.
  - intros b0 b1 b2 b3 r ->. cbn [NFA_DATA]. apply ntohl_load.
Qed.

(** X11. The accessors of the hardware type, the hardware header length and
    the packet mark return 0 when their attribute is absent; when it is
    present they, and the four interface-index accessors, return the
    network-order value of its first two (hardware type, header length) or
    four bytes, on a host of either byte order, whatever follows those
    bytes in the attribute. *)
Theorem value_accessors_network_order {host : Host} (nfad : nflog_data) :
  (nfa nfad NFULA_HWTYPE = None -> nflog_get_hwtype nfad = Some 0)
  /\ (nfa nfad NFULA_HWLEN = None -> nflog_get_msg_packet_hwhdrlen nfad = Some 0)
  /\ (nfa nfad NFULA_MARK = None -> nflog_get_nfmark nfad = Some 0)
  /\ (forall b0 b1 r,
         nfa nfad NFULA_HWTYPE = attr_of (b0 :: b1 :: r) ->
         nflog_get_hwtype nfad = Some (be_value [b0; b1]))
  /\ (forall b0 b1 r,
         nfa nfad NFULA_HWLEN = attr_of (b0 :: b1 :: r) ->
         nflog_get_msg_packet_hwhdrlen nfad = Some (be_value [b0; b1]))
  /\ (forall b0 b1 b2 b3 r,
         nfa nfad NFULA_MARK = attr_of (b0 :: b1 :: b2 :: b3 :: r) ->
         nflog_get_nfmark nfad = Some (be_value [b0; b1; b2; b3]))
  /\ (forall b0 b1 b2 b3 r,
         nfa nfad NFULA_IFINDEX_INDEV = attr_of (b0 :: b1 :: b2 :: b3 :: r) ->
         nflog_get_indev nfad = Some (be_value [b0; b1; b2; b3]))
  /\ (forall b0 b1 b2 b3 r,
         nfa nfad NFULA_IFINDEX_OUTDEV = attr_of (b0 :: b1 :: b2 :: b3 :: r) ->
         nflog_get_outdev nfad = Some (be_value [b0; b1; b2; b3]))
  /\ (forall b0 b1 b2 b3 r,
         nfa nfad NFULA_IFINDEX_PHYSINDEV = attr_of (b0 :: b1 :: b2 :: b3 :: r) ->
         nflog_get_physindev nfad = Some (be_value [b0; b1; b2; b3]))
  /\ (forall b0 b1 b2 b3 r,
         nfa nfad NFULA_IFINDEX_PHYSOUTDEV = attr_of (b0 :: b1 :: b2 :: b3 :: r) ->
         nflog_get_physoutdev nfad = Some (be_value [b0; b1; b2; b3])).
Proof.
  unfold nflog_get_hwtype, nflog_get_msg_packet_hwhdrlen, nflog_get_nfmark,
    nflog_get_indev, nflog_get_outdev, nflog_get_physindev,
    nflog_get_physoutdev.
  split; [apply get_u16_network_order|].
  split; [apply get_u16_network_order|].
  split; [apply get_u32_network_order|].
  split; [apply get_u16_network_order|].
  split; [apply get_u16_network_order|].
  repeat split; apply get_u32_network_order.
Qed.
(* ================================================================== *)
(** * Further properties: the conntrack id *)
(* ================================================================== *)

Lemma ctid_loop_stops {host : Host} (pre : list nlattr) (bad : list byte) :
  forallb nla_fits pre = true ->
  forallb (fun x => negb (is_ctid x)) pre = true ->
  mnl_attr_ok bad = false ->
  forall k : nat,
    ctid_loop (S (List.length pre + k)) (flat_map nla_encode pre ++ bad)
    = Some None.
Proof.
  intros Hfit Hno Hbad.
  induction pre as [|x pre IH]; intros k.
  - cbn [flat_map List.length Nat.add ctid_loop]. rewrite app_nil_l.
    now rewrite Hbad.
  - cbn [forallb] in Hfit, Hno.
    apply andb_true_iff in Hfit. destruct Hfit as [Hx Hfit].
    apply andb_true_iff in Hno. destruct Hno as [Hnx Hno].
    cbn [flat_map List.length Nat.add]. rewrite <- app_assoc.
    cbn [ctid_loop].
    rewrite (mnl_attr_ok_encode x _ Hx).
    unfold mnl_attr_get_type. rewrite (nla_type_encode x _ Hx).
    unfold is_ctid in Hnx. apply negb_true_iff in Hnx. rewrite Hnx.
    rewrite (mnl_attr_next_encode x _ Hx).
    now apply IH.
Qed.

(** X13. A sub-attribute that fails [mnl_attr_ok] ends the walk of
    [nflog_get_ctid]: when, after sub-attributes that are not the id, fewer
    than four bytes are left, or the length field of the next header is
    below four or beyond the bytes that are left, the call returns -1 and
    leaves the out-parameter alone, whatever those bytes hold: an id that
    is laid out behind such a header is not seen. *)
Theorem get_ctid_stops_at_malformed {host : Host} (nfad : nflog_data) (id : Z)
        (pre : list nlattr) (bad : list byte) :
  nfa nfad NFULA_CT = attr_of (flat_map nla_encode pre ++ bad) ->
  forallb nla_fits pre = true ->
  forallb (fun x => negb (is_ctid x)) pre = true ->
  ((List.length bad < 4)%nat
   \/ exists l, nla_len bad = Some l
                /\ (l < 4 \/ Z.of_nat (List.length bad) < l)) ->
  nflog_get_ctid nfad id = Some (-1, id).
Proof.
  intros Hct Hfit Hno Hbad.
  assert (Hok : mnl_attr_ok bad = false).
  { unfold mnl_attr_ok. destruct Hbad as [H|(l & Hl & H)].
    - destruct (Z.leb_spec 4 (Z.of_nat (List.length bad))); [lia | reflexivity].
    - rewrite Hl. apply andb_false_iff. right. apply andb_false_iff.
      destruct H as [H|H]; [left | right]; apply Z.leb_gt; exact H. }
  rewrite (get_ctid_unfold nfad id Hct). cbn [NFA_DATA].
  now rewrite (ctid_loop_value _ _ (@ctid_loop_stops _ pre bad Hfit Hno Hok 0%nat)).
Qed.

Lemma get_ctid_stops_at_malformed_witness :
  let mark := {| attr_type := 8; attr_payload := [x00; x00; x00; x01] |} in
  let good := {| attr_type := 12; attr_payload := [x12; x34; x56; x78] |} in
  let empty := [x02; x00; x03; x00] in
  let record (nest : list byte) :=
    {| nfa := nfa_put nfa_none NFULA_CT (attr_of nest) |} in
  nflog_get_ctid (host := little_endian)
    (record (nla_encode (host := little_endian) mark
             ++ nla_encode (host := little_endian) good)) 5
  = Some (0, 305419896)
  /\ nflog_get_ctid (host := little_endian)
       (record (nla_encode (host := little_endian) mark
                ++ empty ++ nla_encode (host := little_endian) good)) 5
     = Some (-1, 5).
Proof.
  intros mark good empty record. split; [reflexivity|].
  apply (get_ctid_stops_at_malformed (host := little_endian) _ 5 [mark]
           (empty ++ nla_encode (host := little_endian) good)).
  - reflexivity.
  - reflexivity.
  - reflexivity.
  - right. exists 2. split; [reflexivity | left; lia].
Defined.
(* ================================================================== *)
(** * Further properties: the formatter *)
(* ================================================================== *)

(** X14. On a record whose attributes have the sizes of the structures the
    library reads them as and fit the 16-bit length of a netlink attribute,
    at a time the clock tells in [int]s, [nflog_snprintf_xml] has a
    defined result for every capacity up to INT_MAX: no read leaves an
    attribute and no [int] overflows.  The result is the length of the
    document, between 11 (the empty [<log></log>]) and [2 ^ 19], and
    nothing outside the buffer is written. *)
Theorem snprintf_xml_total {host : Host} {bits : XmlFlags}
        (mem0 : memory) (N : Z) (tb : nflog_data) (flags : Z)
        (now : option tm) :
  0 <= N <= INT_MAX ->
  record_ok tb -> attrs_16bit tb ->
  clock_ok flags now -> clock_ints flags now ->
  exists L mem',
    nflog_snprintf_xml mem0 N tb flags now = Some (L, mem')
    /\ 11 <= L < 2 ^ 19
    /\ (forall a, a < 0 \/ N <= a -> mem' a = mem0 a).
Proof.
  intros HN Hrec Hsize Hclock Hints.
  destruct (@xml_text_defined _ _ tb flags now Hrec Hclock) as (doc & Hdoc).
  pose proof (@xml_text_bound _ _ tb flags now doc Hdoc Hsize Hints) as Hb.
  destruct (@snprintf_xml_rendering _ _ mem0 N tb flags now doc HN Hdoc)
    as (st & Hrun & _ & Hlen & _ & _ & Hout & _).
  { unfold INT_MAX. change (2 ^ 19) with 524288 in Hb. lia. }
  exists (len st), (buf st). unfold nflog_snprintf_xml. rewrite Hrun.
  cbn [xfinish]. split; [reflexivity|]. split; [now rewrite Hlen|].
  exact Hout.
Qed.

Lemma snprintf_xml_total_witness :
  let tb := {| nfa := nfa_put (nfa_put nfa_none NFULA_PAYLOAD (attr_of [xde; xad]))
                              NFULA_MARK (attr_of [x00; x00; x00; x07]) |} in
  let noon := {| tm_sec := 0; tm_min := 5; tm_hour := 12; tm_mday := 30;
                 tm_mon := 9; tm_year := 126; tm_wday := 5 |} in
  exists L mem',
    nflog_snprintf_xml (host := little_endian) (bits := libnetfilter_log_h)
                       (fun _ => x00) 16 tb 255 (Some noon) = Some (L, mem')
    /\ 11 <= L < 2 ^ 19
    /\ (forall a, a < 0 \/ 16 <= a -> mem' a = x00).
Proof.
  intros tb noon.
  apply (snprintf_xml_total (host := little_endian) (bits := libnetfilter_log_h)
           (fun _ => x00) (N := 16) (tb := tb) (flags := 255) (now := Some noon)).
  - unfold INT_MAX. lia.
  - split; [|split].
    + intros attr a Hin Ha.
      destruct attr; try discriminate Ha;
        try (exfalso; cbn in Hin; intuition discriminate).
      injection Ha as <-. cbn. lia.
    + intros a hlen Ha. discriminate Ha.
    + intros a Ha. discriminate Ha.
  - intros attr a Ha.
    destruct attr; try discriminate Ha; injection Ha as <-; cbn; lia.
  - intros _. exists noon. unfold INT_MAX. cbn. repeat split; lia.
  - intros _. exists noon. split; [reflexivity|].
    unfold tm_ints, INT_MAX. cbn. repeat constructor; lia.
Defined.

(** X15. When [localtime_r] gives no time and the time flag is set, the
    call returns -1 after the opening tag has gone into the buffer: the
    buffer is left with what [snprintf] made of [<log>], the record is not
    looked at, and the other flags make no difference. *)
Theorem snprintf_xml_localtime_failure {host : Host} {bits : XmlFlags}
        (mem0 : memory) (N : Z) (tb : nflog_data) (flags : Z) :
  0 <= N <= INT_MAX ->
  has flags NFLOG_XML_TIME = true ->
  nflog_snprintf_xml mem0 N tb flags None
  = Some (-1, fst (snprintf mem0 0 N (txt "<log>")))
  /\ (6 <= N ->
      bytes_at (fst (snprintf mem0 0 N (txt "<log>"))) 0 6
      = txt "<log>" ++ [x00]).
Proof.
  intros HN Hflag. split.
  - unfold nflog_snprintf_xml, xml_body, xbind, fragment, xstart.
    cbn [buf rem offset len].
    unfold snprintf. change (Z.of_nat (List.length (txt "<log>"))) with 5.
    destruct (Z.ltb_spec INT_MAX N); [lia|].
    change (INT_MAX <? 5) with false. cbn [orb].
    unfold SNPRINTF_FAILURE.
    destruct (0 <? N); cbn [buf rem offset len fst];
      change (5 <? 0) with false; change (INT_MAX <? 0 + 5) with false;
      cbv iota; unfold xml_time; rewrite Hflag; reflexivity.
  - intros H6. unfold snprintf.
    change (Z.of_nat (List.length (txt "<log>"))) with 5.
    destruct (Z.ltb_spec INT_MAX N); [lia|].
    change (INT_MAX <? 5) with false. cbn [orb].
    destruct (Z.ltb_spec 0 N); [|lia]. cbn [fst].
    rewrite firstn_all2
      by (cbn [List.length txt];
          change (List.length (txt "<log>")) with 5%nat; lia).
    reflexivity.
Qed.

Lemma snprintf_xml_localtime_failure_witness :
  nflog_snprintf_xml (host := big_endian) (bits := libnetfilter_log_h)
    (fun _ => xff) 3
    {| nfa := nfa_put nfa_none NFULA_MARK (attr_of [x01]) |} 255 None
  = Some (-1, fst (snprintf (fun _ => xff) 0 3 (txt "<log>"))).
Proof.
  apply (snprintf_xml_localtime_failure (host := big_endian)
           (bits := libnetfilter_log_h)).
  - unfold INT_MAX. lia.
  - reflexivity.
Defined.

Lemma xml_body_same_for_xml {host : Host} {bits : XmlFlags}
      (tb tb' : nflog_data) (flags : Z) (now : option tm) :
  same_for_xml tb tb' ->
  xml_body tb flags now = xml_body tb' flags now.
Proof.
  intros H.
  assert (Hp : nfa tb NFULA_PREFIX = nfa tb' NFULA_PREFIX)
    by (apply H; cbn; tauto).
  assert (Hh : nfa tb NFULA_PACKET_HDR = nfa tb' NFULA_PACKET_HDR)
    by (apply H; cbn; tauto).
  assert (Hw : nfa tb NFULA_HWADDR = nfa tb' NFULA_HWADDR)
    by (apply H; cbn; tauto).
  assert (Hm : nfa tb NFULA_MARK = nfa tb' NFULA_MARK)
    by (apply H; cbn; tauto).
  assert (Hi : nfa tb NFULA_IFINDEX_INDEV = nfa tb' NFULA_IFINDEX_INDEV)
    by (apply H; cbn; tauto).
  assert (Ho : nfa tb NFULA_IFINDEX_OUTDEV = nfa tb' NFULA_IFINDEX_OUTDEV)
    by (apply H; cbn; tauto).
  assert (Hpi : nfa tb NFULA_IFINDEX_PHYSINDEV = nfa tb' NFULA_IFINDEX_PHYSINDEV)
    by (apply H; cbn; tauto).
  assert (Hpo : nfa tb NFULA_IFINDEX_PHYSOUTDEV
                = nfa tb' NFULA_IFINDEX_PHYSOUTDEV)
    by (apply H; cbn; tauto).
  assert (Hc : nfa tb NFULA_CT = nfa tb' NFULA_CT) by (apply H; cbn; tauto).
  assert (Hd : nfa tb NFULA_PAYLOAD = nfa tb' NFULA_PAYLOAD)
    by (apply H; cbn; tauto).
  unfold xml_body, xml_prefix, xml_hw, xml_mark, xml_indev, xml_outdev,
    xml_physindev, xml_physoutdev, xml_ctid, xml_payload.
  unfold nflog_get_prefix, nflog_get_msg_packet_hdr, nflog_get_packet_hw,
    nflog_get_nfmark, nflog_get_indev, nflog_get_outdev, nflog_get_physindev,
    nflog_get_physoutdev, nflog_get_ctid, nflog_get_payload,
    nfnl_get_pointer_to_data, nfnl_get_data.
  rewrite Hp, Hh, Hw, Hm, Hi, Ho, Hpi, Hpo, Hc, Hd. reflexivity.
Qed.

(** X16. The formatter reads ten attributes: prefix, packet header,
    hardware address, mark, the four interface indices, conntrack and
    payload.  Two records that agree on those are rendered alike, with the
    same return value and the same bytes, whatever their UID, GID, sequence
    numbers, hardware type, hardware header and timestamp are: none of
    these shows in the XML. *)
Theorem snprintf_xml_reads_ten_attributes {host : Host} {bits : XmlFlags}
        (mem0 : memory) (N : Z) (tb tb' : nflog_data) (flags : Z)
        (now : option tm) :
  same_for_xml tb tb' ->
  nflog_snprintf_xml mem0 N tb flags now = nflog_snprintf_xml mem0 N tb' flags now.
Proof.
  intros H. unfold nflog_snprintf_xml.
  now rewrite (xml_body_same_for_xml flags now H).
Qed.

Lemma snprintf_xml_reads_ten_attributes_witness :
  let tb := {| nfa := nfa_put nfa_none NFULA_MARK (attr_of [x00; x00; x00; x07]) |} in
  let tb' := {| nfa := nfa_put (nfa_put (nfa tb) NFULA_UID
                                        (attr_of [x00; x00; x03; xe8]))
                               NFULA_SEQ (attr_of [x00; x00; x00; x01]) |} in
  nflog_snprintf_xml (host := little_endian) (bits := libnetfilter_log_h)
                     (fun _ => x00) 64 tb 255 None
  = nflog_snprintf_xml (host := little_endian) (bits := libnetfilter_log_h)
                       (fun _ => x00) 64 tb' 255 None.
Proof.
  intros tb tb'.
  apply (snprintf_xml_reads_ten_attributes (host := little_endian)
           (bits := libnetfilter_log_h)).
  intros a Hin. cbn in Hin.
  destruct Hin as [<-|[<-|[<-|[<-|[<-|[<-|[<-|[<-|[<-|[<-|[]]]]]]]]]]];
    reflexivity.
Defined.
Section HostFree.

Variables (h1 h2 : Host).

Lemma load_u8_host (p : list byte) : @load_u8 h1 p = @load_u8 h2 p.
Proof.
  unfold load_u8, load. destruct p as [|b r]; cbn [List.length Nat.leb firstn];
    [reflexivity|].
  f_equal.
  destruct (@host_big_endian h1), (@host_big_endian h2);
    cbn [be_value le_value List.length Z.of_nat];
    change (2 ^ (8 * 0)) with 1; lia.
Qed.

Lemma ntohs_load_host (p : list byte) :
  option_map (@ntohs h1) (@load_u16 h1 p)
  = option_map (@ntohs h2) (@load_u16 h2 p).
Proof.
  destruct p as [|b0 [|b1 r]]; [reflexivity | reflexivity |].
  now rewrite !ntohs_load.
Qed.

Lemma get_u32_host (tb : nfattr_table) (attr : nfulnl_attr_type) :
  option_map (@ntohl h1) (nfnl_get_data (@load_u32 h1) tb attr)
  = option_map (@ntohl h2) (nfnl_get_data (@load_u32 h2) tb attr).
Proof.
  unfold nfnl_get_data. destruct (tb attr) as [a|].
  - destruct (NFA_DATA a) as [|b0 [|b1 [|b2 [|b3 r]]]]; try reflexivity.
    now rewrite !ntohl_load.
  - cbn [option_map]. now rewrite !ntohl_0.
Qed.

Lemma xml_body_host {bits : XmlFlags} (tb : nflog_data) (flags : Z)
      (now : option tm) :
  has flags NFLOG_XML_CTID = false ->
  @xml_body h1 bits tb flags now = @xml_body h2 bits tb flags now.
Proof.
  intros Hflag.
  unfold xml_body, xml_hw, xml_mark, xml_indev, xml_outdev, xml_physindev,
    xml_physoutdev, xml_ctid.
  rewrite Hflag.
  unfold nflog_get_nfmark, nflog_get_indev, nflog_get_outdev,
    nflog_get_physindev, nflog_get_physoutdev.
  rewrite (get_u32_host (nfa tb) NFULA_MARK),
    (get_u32_host (nfa tb) NFULA_IFINDEX_INDEV),
    (get_u32_host (nfa tb) NFULA_IFINDEX_OUTDEV),
    (get_u32_host (nfa tb) NFULA_IFINDEX_PHYSINDEV),
    (get_u32_host (nfa tb) NFULA_IFINDEX_PHYSOUTDEV).
  destruct (nflog_get_msg_packet_hdr tb) as [ph|]; [|reflexivity].
  unfold hook, hw_protocol, hw_addrlen.
  rewrite (load_u8_host (skipn 2 ph)), (ntohs_load_host ph).
  destruct (nflog_get_packet_hw tb) as [hwph|]; [|reflexivity].
  rewrite (ntohs_load_host hwph). reflexivity.
Qed.

End HostFree.

(** X17. Apart from the conntrack id, whose nest is laid out in the byte
    order of the host, the rendering does not depend on the byte order of
    the host: with the conntrack flag clear, a call gives the same return
    value and the same bytes on a big-endian and on a little-endian host,
    for every record, short attributes included. *)
Theorem snprintf_xml_host_independent {bits : XmlFlags} (h1 h2 : Host)
        (mem0 : memory) (N : Z) (tb : nflog_data) (flags : Z)
        (now : option tm) :
  has flags NFLOG_XML_CTID = false ->
  @nflog_snprintf_xml h1 bits mem0 N tb flags now
  = @nflog_snprintf_xml h2 bits mem0 N tb flags now.
Proof.
  intros Hflag. unfold nflog_snprintf_xml.
  now rewrite (@xml_body_host h1 h2 bits tb flags now Hflag).
Qed.

Lemma snprintf_xml_host_independent_witness :
  let tb := {| nfa := nfa_put (nfa_put nfa_none NFULA_PACKET_HDR
                                       (attr_of [x08; x00; x03; x00]))
                              NFULA_MARK (attr_of [x00; x00; x01; x02]) |} in
  nflog_snprintf_xml (host := little_endian) (bits := libnetfilter_log_h)
                     (fun _ => x00) 64 tb 127 None
  = nflog_snprintf_xml (host := big_endian) (bits := libnetfilter_log_h)
                       (fun _ => x00) 64 tb 127 None.
Proof.
  intros tb.
  apply (snprintf_xml_host_independent (bits := libnetfilter_log_h)
           little_endian big_endian).
  reflexivity.
Defined.

Lemma hook_value {host : Host} (b0 b1 b2 : byte) (r : list byte) :
  hook (b0 :: b1 :: b2 :: r) = Some (bz b2).
Proof.
  unfold hook, load_u8, load. cbn [skipn List.length Nat.leb firstn].
  f_equal. destruct host_big_endian;
    cbn [be_value le_value List.length Z.of_nat];
    change (2 ^ (8 * 0)) with 1; lia.
Qed.

(** X18. The hook is not under a flag.  With none of the eight flags set, a
    record whose attributes have their sizes is rendered as [<log></log>]
    around the [<hook>] element alone, the third byte of the packet header
    in decimal, when the record has a packet header, and around nothing
    when it has none; the return value is the length of that text and a
    buffer with room for it and the NUL holds it. *)
Theorem snprintf_xml_without_flags {host : Host} {bits : XmlFlags}
        (mem0 : memory) (N : Z) (tb : nflog_data) (flags : Z)
        (now : option tm) :
  0 <= N <= INT_MAX -> record_ok tb -> no_xml_flag flags ->
  let doc :=
    elem "log" (match nflog_get_msg_packet_hdr tb with
                | Some ph => elem "hook" (fmt_u (bz (nth 2 ph x00)))
                | None => []
                end) in
  exists mem',
    nflog_snprintf_xml mem0 N tb flags now
    = Some (Z.of_nat (List.length doc), mem')
    /\ (Z.of_nat (List.length doc) < N ->
        bytes_at mem' 0 (List.length doc) = doc
        /\ mem' (Z.of_nat (List.length doc)) = x00).
Proof.
  intros HN Hrec Hflags doc.
  unfold no_xml_flag in Hflags. rewrite !Forall_cons_iff in Hflags.
  destruct Hflags as (Fp & Fh & Fm & Fd & Fpd & Fpl & Ft & Fc & _).
  assert (Hdoc : xml_text tb flags now = Some doc).
  { pose proof Hrec as (Hlen & _ & _).
    assert (Hu : forall name attr mask,
               In attr [NFULA_PACKET_HDR; NFULA_MARK; NFULA_IFINDEX_INDEV;
                        NFULA_IFINDEX_OUTDEV; NFULA_IFINDEX_PHYSINDEV;
                        NFULA_IFINDEX_PHYSOUTDEV; NFULA_HWADDR] ->
               has flags mask = false ->
               text_u32 name
                 (option_map ntohl (nfnl_get_data load_u32 (nfa tb) attr))
                 flags mask = Some []).
    { intros name attr mask Hin Hm.
      destruct (@get_data_u32_defined _ (nfa tb) attr) as (v & ->).
      { intros a Ha. exact (Hlen attr a Hin Ha). }
      unfold text_u32. rewrite Hm, andb_false_r. reflexivity. }
    unfold xml_text, nflog_get_nfmark, nflog_get_indev, nflog_get_outdev,
      nflog_get_physindev, nflog_get_physoutdev.
    rewrite (Hu "mark"%string NFULA_MARK _ ltac:(cbn; tauto) Fm),
      (Hu "indev"%string NFULA_IFINDEX_INDEV _ ltac:(cbn; tauto) Fd),
      (Hu "outdev"%string NFULA_IFINDEX_OUTDEV _ ltac:(cbn; tauto) Fd),
      (Hu "physindev"%string NFULA_IFINDEX_PHYSINDEV _ ltac:(cbn; tauto) Fpd),
      (Hu "physoutdev"%string NFULA_IFINDEX_PHYSOUTDEV _ ltac:(cbn; tauto) Fpd).
    unfold text_time, text_prefix, text_ctid, text_payload.
    rewrite Ft, Fp, Fc, Fpl.
    assert (Hh : text_hw tb flags
                 = Some (match nflog_get_msg_packet_hdr tb with
                         | Some ph => elem "hook" (fmt_u (bz (nth 2 ph x00)))
                         | None => []
                         end)).
    { unfold text_hw. rewrite Fh.
      unfold nflog_get_msg_packet_hdr, nfnl_get_pointer_to_data.
      destruct (nfa tb NFULA_PACKET_HDR) as [ph|] eqn:Hph; cbn [option_map];
        [|reflexivity].
      pose proof (Hlen NFULA_PACKET_HDR ph ltac:(cbn; tauto) Hph) as Lph.
      destruct (NFA_DATA ph) as [|b0 [|b1 [|b2 r]]]; cbn [List.length] in Lph;
        try lia.
      rewrite hook_value. cbn [nth].
      destruct (nflog_get_packet_hw tb); reflexivity. }
    rewrite Hh. unfold doc.
    destruct (nflog_get_prefix tb); destruct (nflog_get_payload tb) as [ret [d|]];
      now rewrite !app_nil_r. }
  assert (Hmax : Z.of_nat (List.length doc) <= INT_MAX).
  { unfold doc, INT_MAX. len_norm.
    change (List.length (txt "log")) with 3%nat.
    destruct (nflog_get_msg_packet_hdr tb) as [ph|]; [|cbn; lia].
    len_norm. change (List.length (txt "hook")) with 4%nat.
    pose proof (bz_range (nth 2 ph x00)).
    pose proof (@fmt_u_length (bz (nth 2 ph x00)) 8 ltac:(cbn; lia) ltac:(lia)).
    lia. }
  destruct (@snprintf_xml_rendering _ _ mem0 N tb flags now doc HN Hdoc Hmax)
    as (st & Hrun & _ & Hlen & _ & _ & _ & Hin & Hnul).
  exists (buf st). unfold nflog_snprintf_xml. rewrite Hrun. cbn [xfinish].
  rewrite Hlen. split; [reflexivity|].
  pose proof (@xml_text_length _ _ tb flags now doc Hdoc) as Hpos.
  intros Hfit. split.
  - rewrite <- (firstn_all doc) at 2. apply bytes_at_firstn.
    intros i Hi. rewrite <- (Nat2Z.id i) at 1. apply Hin. lia.
  - replace (Z.of_nat (List.length doc))
      with (Z.min (Z.of_nat (List.length doc)) (N - 1)) at 1 by lia.
    apply Hnul; lia.
Qed.

Lemma snprintf_xml_without_flags_witness :
  let tb := {| nfa := nfa_put (nfa_put nfa_none NFULA_PACKET_HDR
                                       (attr_of [x08; x00; x03; x00]))
                              NFULA_MARK (attr_of [x00; x00; x01; x02]) |} in
  exists mem',
    nflog_snprintf_xml (host := little_endian) (bits := libnetfilter_log_h)
                       (fun _ => xff) 64 tb 0 None = Some (25, mem')
    /\ bytes_at mem' 0 25 = txt "<log><hook>3</hook></log>".
Proof.
  intros tb.
  destruct (snprintf_xml_without_flags (host := little_endian)
              (bits := libnetfilter_log_h) (fun _ => xff) (N := 64) (tb := tb)
              (flags := 0) None)
    as (mem' & Hrun & Hbytes).
  - unfold INT_MAX. lia.
  - split; [|split].
    + intros attr a Hin Ha.
      destruct attr; try discriminate Ha; injection Ha as <-; cbn; lia.
    + intros a hlen Ha. discriminate Ha.
    + intros a Ha. discriminate Ha.
  - repeat constructor.
  - exists mem'. split; [exact Hrun|].
    exact (proj1 (Hbytes ltac:(cbn; lia))).
Defined.






Section OverRead.

Context {host : Host} {bits : XmlFlags}.




End OverRead.


(* ================================================================== *)
(** * Further properties: opening and closing a handle *)
(* ================================================================== *)

(** X20. [nflog_open] returns a handle exactly when [nfnl_open], [calloc]
    and [nfnl_subsys_open] give one and [nfnl_callback_register] gives no
    negative status; the handle then holds the two transport handles and
    an empty chain of groups, and nothing has been closed or freed.  When
    it returns NULL after [nfnl_open] succeeded, the memory of the handle
    has been freed once if it was allocated, and the netlink handle has
    been closed once when [calloc] or [nfnl_subsys_open] failed, but twice
    when [nfnl_callback_register] failed: once by [nflog_open_nfnl], which
    also stores the status in [nflog_errno], and once more by
    [nflog_open]. *)
Theorem nflog_open_outcomes {transport : Transport} (s : setup) :
  let s1 := call s ev_nfnl_open in
  (nfnl_open_reply (calls s) = None -> nflog_open s = (None, s1))
  /\ forall n,
      nfnl_open_reply (calls s) = Some n ->
      let s2 := call s1 (ev_nfnl_unset_sequence_tracking n) in
      let s3 := call s2 ev_calloc in
      (handle_calloc_reply (calls s2) = None ->
       nflog_open s = (None, call s3 (ev_nfnl_close n)))
      /\ forall h,
          handle_calloc_reply (calls s2) = Some h ->
          let s4 := call s3 (ev_nfnl_subsys_open n NFNL_SUBSYS_ULOG
                                                 NFULNL_MSG_MAX 0) in
          (nfnl_subsys_open_reply (calls s3) n = None ->
           nflog_open s
           = (None, call (call s4 (ev_free h)) (ev_nfnl_close n)))
          /\ forall ssh,
              nfnl_subsys_open_reply (calls s3) n = Some ssh ->
              let err := nfnl_callback_register_reply (calls s4) ssh in
              let s5 := call s4 (ev_nfnl_callback_register
                                   ssh NFULNL_MSG_PACKET h) in
              (0 <= err ->
               nflog_open s
               = (Some (h, {| nfnlh := n; nfnlssh := ssh; h_gh_list := [] |}),
                  s5))
              /\ (err < 0 ->
                  exists s',
                    nflog_open s = (None, s')
                    /\ calls s'
                       = calls s5 ++ [ev_nfnl_close n; ev_free h;
                                      ev_nfnl_close n]
                    /\ nflog_errno s' = err).
Proof.
  cbv zeta. split.
  - intros H. unfold nflog_open. now rewrite H.
  - intros n Hn. split.
    + intros H. unfold nflog_open, nflog_open_nfnl. now rewrite Hn, H.
    + intros h Hh. split.
      * intros H. unfold nflog_open, nflog_open_nfnl. now rewrite Hn, Hh, H.
      * intros ssh Hssh. split.
        -- intros H. unfold nflog_open, nflog_open_nfnl.
           rewrite Hn, Hh, Hssh.
           destruct (Z.ltb_spec (nfnl_callback_register_reply
             (calls (call (call (call (call s ev_nfnl_open)
                (ev_nfnl_unset_sequence_tracking n)) ev_calloc)
                (ev_nfnl_subsys_open n NFNL_SUBSYS_ULOG NFULNL_MSG_MAX 0)))
             ssh) 0); [lia | reflexivity].
        -- intros H. unfold nflog_open, nflog_open_nfnl.
           rewrite Hn, Hh, Hssh.
           destruct (Z.ltb_spec (nfnl_callback_register_reply
             (calls (call (call (call (call s ev_nfnl_open)
                (ev_nfnl_unset_sequence_tracking n)) ev_calloc)
                (ev_nfnl_subsys_open n NFNL_SUBSYS_ULOG NFULNL_MSG_MAX 0)))
             ssh) 0); [|lia].
           eexists. split; [reflexivity|]. cbn [calls nflog_errno call].
           split; [|reflexivity]. now rewrite <- !app_assoc.
Qed.

Lemma nflog_open_outcomes_witness :
  let start := {| calls := []; nflog_errno := 0 |} in
  nflog_open (transport := transport_with 0) start
  = (Some (30, {| nfnlh := 10; nfnlssh := 20; h_gh_list := [] |}),
     {| calls := [ev_nfnl_open; ev_nfnl_unset_sequence_tracking 10; ev_calloc;
                  ev_nfnl_subsys_open 10 4 2 0;
                  ev_nfnl_callback_register 20 NFULNL_MSG_PACKET 30];
        nflog_errno := 0 |})
  /\ exists s',
      nflog_open (transport := transport_with (-1)) start = (None, s')
      /\ calls s'
         = [ev_nfnl_open; ev_nfnl_unset_sequence_tracking 10; ev_calloc;
            ev_nfnl_subsys_open 10 4 2 0;
            ev_nfnl_callback_register 20 NFULNL_MSG_PACKET 30;
            ev_nfnl_close 10; ev_free 30; ev_nfnl_close 10]
      /\ nflog_errno s' = -1.
Proof.
  intros start. split.
  - destruct (nflog_open_outcomes (transport := transport_with 0) start)
      as [_ H].
    destruct (H 10 eq_refl) as [_ H1]. destruct (H1 30 eq_refl) as [_ H2].
    destruct (H2 20 eq_refl) as [H3 _]. apply H3. cbn. lia.
  - destruct (nflog_open_outcomes (transport := transport_with (-1)) start)
      as [_ H].
    destruct (H 10 eq_refl) as [_ H1]. destruct (H1 30 eq_refl) as [_ H2].
    destruct (H2 20 eq_refl) as [_ H3]. apply H3. cbn. lia.
Defined.

(** X21. A caller of [nflog_open_nfnl] that gets NULL cannot tell from it
    whether its netlink handle is still open: the handle has been closed
    when [nfnl_callback_register] failed, and has not been when [calloc] or
    [nfnl_subsys_open] failed.  In every case of failure the memory
    allocated for the log handle has been freed exactly once, and on
    success nothing has been closed or freed. *)
Theorem nflog_open_nfnl_ownership {transport : Transport} (s s' : setup)
        (n : Z) (r : option (Z * nflog_handle)) :
  nflog_open_nfnl s n = (r, s') ->
  exists evs,
    calls s' = calls s ++ evs
    /\ match r with
       | Some (h, hd) =>
           closes n evs = 0%nat /\ frees h evs = 0%nat
           /\ nfnlh hd = n /\ h_gh_list hd = []
           /\ handle_calloc_reply (calls s) = Some h
       | None =>
           match handle_calloc_reply (calls s) with
           | None => closes n evs = 0%nat /\ evs = [ev_calloc]
           | Some h =>
               frees h evs = 1%nat
               /\ closes n evs
                  = match nfnl_subsys_open_reply (calls (call s ev_calloc)) n with
                    | None => 0%nat
                    | Some _ => 1%nat
                    end
           end
       end.
Proof.
  unfold nflog_open_nfnl.
  destruct (handle_calloc_reply (calls s)) as [h|].
  - destruct (nfnl_subsys_open_reply _ n) as [ssh|].
    + destruct (_ <? 0); intros [= <- <-]; cbn [calls call];
        rewrite <- !app_assoc; eexists; (split; [reflexivity|]);
        unfold closes, frees; cbn [app filter List.length nfnlh h_gh_list];
        rewrite ?Z.eqb_refl; cbn [List.length]; repeat split; reflexivity.
    + intros [= <- <-]. cbn [calls call].
      rewrite <- !app_assoc. eexists. split; [reflexivity|].
      unfold closes, frees. cbn [app filter List.length].
      rewrite ?Z.eqb_refl. cbn [List.length]. split; reflexivity.
  - intros [= <- <-]. cbn [calls call]. eexists. split; [reflexivity|].
    split; reflexivity.
Qed.

Lemma nflog_open_nfnl_ownership_witness :
  let start := {| calls := []; nflog_errno := 0 |} in
  exists evs,
    calls (snd (nflog_open_nfnl (transport := transport_with (-22)) start 10))
    = [] ++ evs
    /\ frees 30 evs = 1%nat /\ closes 10 evs = 1%nat.
Proof.
  intros start.
  exact (nflog_open_nfnl_ownership (transport := transport_with (-22))
           start 10 eq_refl).
Defined.

(** X22. Closing undoes opening: after [nflog_open] has returned a handle,
    [nflog_close] on it returns the status of [nfnl_close], whatever it
    is, and over the two calls the netlink handle has been opened once and
    closed once, and the memory of the log handle allocated once and freed
    once. *)
Theorem nflog_open_close_balanced {transport : Transport} (s s1 : setup)
        (h : Z) (hd : nflog_handle) :
  nflog_open s = (Some (h, hd), s1) ->
  exists evs,
    nflog_close s1 (h, hd)
    = (nfnl_close_reply (calls s1) (nfnlh hd),
       {| calls := calls s ++ evs; nflog_errno := nflog_errno s |})
    /\ nfnl_open_reply (calls s) = Some (nfnlh hd)
    /\ closes (nfnlh hd) evs = 1%nat
    /\ frees h evs = 1%nat
    /\ List.length (filter (fun e => match e with
                                     | ev_nfnl_open | ev_calloc => true
                                     | _ => false
                                     end) evs) = 2%nat.
Proof.
  unfold nflog_open.
  destruct (nfnl_open_reply (calls s)) as [n|]; [|discriminate].
  unfold nflog_open_nfnl.
  destruct (handle_calloc_reply _) as [p|]; [|discriminate].
  destruct (nfnl_subsys_open_reply _ n) as [ssh|]; [|discriminate].
  destruct (_ <? 0); [discriminate|].
  intros [= <- <- <-]. unfold nflog_close, call.
  cbn [fst snd nfnlh calls nflog_errno].
  rewrite <- !app_assoc. eexists. split; [reflexivity|].
  split; [reflexivity|].
  unfold closes, frees. cbn [app filter List.length].
  rewrite !Z.eqb_refl. cbn [List.length]. repeat split; reflexivity.
Qed.

Lemma nflog_open_close_balanced_witness :
  let start := {| calls := []; nflog_errno := 0 |} in
  let opened := nflog_open (transport := transport_with 0) start in
  exists evs,
    nflog_close (transport := transport_with 0) (snd opened)
                (30, {| nfnlh := 10; nfnlssh := 20; h_gh_list := [] |})
    = (0, {| calls := [] ++ evs; nflog_errno := 0 |})
    /\ nfnl_open_reply (Transport := transport_with 0) [] = Some 10
    /\ closes 10 evs = 1%nat
    /\ frees 30 evs = 1%nat
    /\ List.length (filter (fun e => match e with
                                     | ev_nfnl_open | ev_calloc => true
                                     | _ => false
                                     end) evs) = 2%nat.
Proof.
  intros start opened.
  exact (nflog_open_close_balanced (transport := transport_with 0)
           start eq_refl).
Defined.
(* ================================================================== *)
(** * Further properties: the test program *)
(* ================================================================== *)

Lemma get_u32_some {host : Host} (tb : nfattr_table) (attr : nfulnl_attr_type) :
  (forall a, tb attr = Some a -> (4 <= List.length (NFA_DATA a))%nat) ->
  exists v,
    option_map ntohl (nfnl_get_data load_u32 tb attr) = Some v
    /\ 0 <= v < 2 ^ 32.
Proof.
  intros H. unfold nfnl_get_data. destruct (tb attr) as [a|].
  - destruct (ntohl_load_range (NFA_DATA a) (H a eq_refl)) as (w & -> & Hr).
    now eexists.
  - exists 0. cbn [option_map]. rewrite ntohl_0. split; [reflexivity | lia].
Qed.

Lemma print_pkt_shape (h1 h2 : Host) (nfad : nflog_data) :
  printable nfad ->
  exists mark line rest,
    @print_pkt h1 nfad = Some (0, line ++ txt "mark=" ++ fmt_u mark ++ rest ++ nl)
    /\ @print_pkt h2 nfad = @print_pkt h1 nfad
    /\ @nflog_get_nfmark h1 nfad = Some mark
    /\ (nfa nfad NFULA_MARK = None -> mark = 0)
    /\ (nfa nfad NFULA_PACKET_HDR = None -> line = [])
    /\ (nfa nfad NFULA_PACKET_HDR <> None ->
        exists fields, line = txt "hw_protocol=0x" ++ fields).
Proof.
  intros [Hlen Hprefix].
  assert (Hhost : @print_pkt h2 nfad = @print_pkt h1 nfad).
  { unfold print_pkt, nflog_get_nfmark, nflog_get_indev, nflog_get_outdev.
    rewrite (get_u32_host h2 h1 (nfa nfad) NFULA_MARK),
      (get_u32_host h2 h1 (nfa nfad) NFULA_IFINDEX_INDEV),
      (get_u32_host h2 h1 (nfa nfad) NFULA_IFINDEX_OUTDEV).
    destruct (nflog_get_msg_packet_hdr nfad) as [ph|]; [|reflexivity].
    unfold hook, hw_protocol.
    now rewrite (load_u8_host h2 h1 (skipn 2 ph)), (ntohs_load_host h2 h1 ph). }
  destruct (@get_u32_some h1 (nfa nfad) NFULA_MARK) as (mark & Hmark & _).
  { intros a Ha. apply (Hlen NFULA_MARK a); [cbn; tauto | exact Ha]. }
  destruct (@get_u32_some h1 (nfa nfad) NFULA_IFINDEX_INDEV) as (indev & Hi & _).
  { intros a Ha. apply (Hlen NFULA_IFINDEX_INDEV a); [cbn; tauto | exact Ha]. }
  destruct (@get_u32_some h1 (nfa nfad) NFULA_IFINDEX_OUTDEV)
    as (outdev & Ho & _).
  { intros a Ha. apply (Hlen NFULA_IFINDEX_OUTDEV a); [cbn; tauto | exact Ha]. }
  assert (Hhdr : exists line,
             match nflog_get_msg_packet_hdr nfad with
             | Some ph =>
                 proto <- option_map (@ntohs h1) (@hw_protocol h1 ph) ;;
                 hk <- @hook h1 ph ;;
                 Some (txt "hw_protocol=0x" ++ fmt_0x 4 proto
                       ++ txt " hook=" ++ fmt_u hk ++ txt " ")
             | None => Some []
             end = Some line
             /\ (nfa nfad NFULA_PACKET_HDR = None -> line = [])
             /\ (nfa nfad NFULA_PACKET_HDR <> None ->
                 exists fields, line = txt "hw_protocol=0x" ++ fields)).
  { unfold nflog_get_msg_packet_hdr, nfnl_get_pointer_to_data.
    destruct (nfa nfad NFULA_PACKET_HDR) as [ph|] eqn:Hph; cbn [option_map].
    - pose proof (Hlen NFULA_PACKET_HDR ph ltac:(cbn; tauto) Hph) as Lph.
      destruct (NFA_DATA ph) as [|b0 [|b1 [|b2 r]]]; cbn [List.length] in Lph;
        try lia.
      unfold hw_protocol. rewrite ntohs_load, hook_value.
      eexists. split; [reflexivity|]. split; [discriminate|].
      intros _. eexists. reflexivity.
    - exists []. split; [reflexivity|]. split; [reflexivity|].
      intros H. now elim H. }
  destruct Hhdr as (line & Hline & Hnone & Hsome).
  assert (Hq : exists quoted,
             match nflog_get_prefix nfad with
             | Some data =>
                 s <- c_str data ;;
                 Some (txt "prefix=" ++ dquote ++ s ++ dquote ++ txt " ")
             | None => Some []
             end = Some quoted).
  { unfold nflog_get_prefix, nfnl_get_pointer_to_data.
    destruct (nfa nfad NFULA_PREFIX) as [a|] eqn:Ha; cbn [option_map];
      [|now eexists].
    destruct (c_str_defined _ (Hprefix a eq_refl)) as (s & ->). now eexists. }
  destruct Hq as (quoted & Hq).
  assert (Hrun : exists rest,
             @print_pkt h1 nfad
             = Some (0, line ++ txt "mark=" ++ fmt_u mark ++ rest ++ nl)).
  { unfold print_pkt, nflog_get_nfmark, nflog_get_indev, nflog_get_outdev.
    rewrite Hmark, Hi, Ho.
    destruct (nflog_get_payload nfad) as [payload_len payload].
    rewrite Hline, Hq.
    exists (txt " "
            ++ (if indev >? 0 then txt "indev=" ++ fmt_u indev ++ txt " " else [])
            ++ (if outdev >? 0 then txt "outdev=" ++ fmt_u outdev ++ txt " "
                else [])
            ++ quoted
            ++ (if payload_len >=? 0
                then txt "payload_len=" ++ fmt_d payload_len ++ txt " " else [])).
    now rewrite <- !app_assoc. }
  destruct Hrun as (rest & Hrun).
  exists mark, line, rest. split; [exact Hrun|]. split; [exact Hhost|].
  split; [exact Hmark|]. split; [|split; assumption].
  intros Habs. unfold nfnl_get_data in Hmark. rewrite Habs in Hmark.
  cbn [option_map] in Hmark. rewrite ntohl_0 in Hmark. congruence.
Qed.

(** X23. [print_pkt] prints one line for a record and returns 0.  On a
    record whose packet header, mark and interface indices have their
    sizes and whose prefix ends in a NUL it has a defined result on either
    byte order, and the same one: the text ends with a newline, it always
    shows [mark=], also for a record without mark (as [mark=0]), and it
    begins with [hw_protocol=0x] exactly when the record has a packet
    header.  The callback of the program returns 0 with that text. *)
Theorem print_pkt_line (h1 h2 : Host) (nfad : nflog_data) :
  printable nfad ->
  exists mark line rest,
    @print_pkt h1 nfad = Some (0, line ++ txt "mark=" ++ fmt_u mark ++ rest ++ nl)
    /\ @print_pkt h2 nfad = @print_pkt h1 nfad
    /\ @test_cb h1 nfad
       = Some (0, line ++ txt "mark=" ++ fmt_u mark ++ rest ++ nl)
    /\ @nflog_get_nfmark h1 nfad = Some mark
    /\ (nfa nfad NFULA_MARK = None -> mark = 0)
    /\ (nfa nfad NFULA_PACKET_HDR = None -> line = [])
    /\ (nfa nfad NFULA_PACKET_HDR <> None ->
        exists fields, line = txt "hw_protocol=0x" ++ fields).
Proof.
  intros Hp.
  destruct (print_pkt_shape h1 h2 Hp)
    as (mark & line & rest & Hrun & Hhost & Hmark & Habs & Hnone & Hsome).
  exists mark, line, rest. split; [exact Hrun|]. split; [exact Hhost|].
  split; [unfold test_cb; now rewrite Hrun|].
  repeat split; assumption.
Qed.

Lemma print_pkt_line_witness :
  let nfad :=
    {| nfa := nfa_put (nfa_put (nfa_put nfa_none NFULA_PACKET_HDR
                                        (attr_of [x08; x00; x03; x00]))
                               NFULA_PREFIX (attr_of (txt "in" ++ [x00])))
                      NFULA_PAYLOAD (attr_of [xde; xad]) |} in
  exists mark line rest,
    print_pkt (host := little_endian) nfad
    = Some (0, line ++ txt "mark=" ++ fmt_u mark ++ rest ++ nl)
    /\ print_pkt (host := big_endian) nfad = print_pkt (host := little_endian) nfad
    /\ mark = 0.
Proof.
  intros nfad.
  destruct (print_pkt_line little_endian big_endian (nfad := nfad))
    as (mark & line & rest & Hrun & Hhost & _ & _ & Hmark & _).
  - split.
    + intros attr a Hin Ha.
      destruct attr; try discriminate Ha;
        try (exfalso; cbn in Hin; intuition discriminate).
      injection Ha as <-. cbn. lia.
    + intros a Ha. injection Ha as <-. cbn. tauto.
  - exists mark, line, rest. split; [exact Hrun|]. split; [exact Hhost|].
    exact (Hmark eq_refl).
Defined.
(* ================================================================== *)
(** * Further properties: the run of the test program *)
(* ================================================================== *)

Lemma requests_app (a b : list event) :
  requests (a ++ b) = requests a ++ requests b.
Proof.
  induction a as [|e a IH]; [reflexivity|].
  destruct e; cbn [app requests]; now rewrite IH.
Qed.

Lemma skipn_length_app {A : Type} (a b : list A) :
  skipn (List.length a) (a ++ b) = b.
Proof. induction a as [|x a IH]; [reflexivity | exact IH]. Qed.

Section MainFacts.

Context {host : Host} {env : Environment}.

Lemma dispatched_cons (l : list nflog_g_handle) (m : nfgenmsg * nfattr_table)
      (msgs : list (nfgenmsg * nfattr_table)) (e : event) :
  dispatched l msgs e -> dispatched l (m :: msgs) e.
Proof.
  intros (nfmsg & nfa & gh & f & Hin & H). exists nfmsg, nfa, gh, f.
  split; [now right | exact H].
Qed.

(** A call of [nflog_handle_packet] adds callback events of dispatches,
    and changes nothing else. *)
Lemma handle_packet_events (msgs : list (nfgenmsg * nfattr_table)) :
  forall w,
  exists r evs,
    nflog_handle_packet w msgs
    = (r, {| gh_list := gh_list w; errno := errno w; trace := trace w ++ evs |})
    /\ Forall (dispatched (gh_list w) msgs) evs.
Proof.
  induction msgs as [|[nfmsg nfa] msgs IH]; intros w.
  - exists 0, []. cbn [nflog_handle_packet]. rewrite app_nil_r.
    split; [now destruct w | constructor].
  - cbn [nflog_handle_packet]. unfold __nflog_rcv_pkt.
    destruct (find_gh (gh_list w) (u16 (ntohs (res_id nfmsg)))) as [gh|] eqn:Hf.
    + destruct (cb gh) as [f|] eqn:Hcb.
      * assert (Hd : dispatched (gh_list w) ((nfmsg, nfa) :: msgs)
                       (ev_callback f (self gh) nfmsg {| nfa := nfa |} (data gh))).
        { exists nfmsg, nfa, gh, f. split; [now left | now repeat split]. }
        destruct (_ <? 0).
        -- exists (-1), [ev_callback f (self gh) nfmsg {| nfa := nfa |} (data gh)].
           split; [reflexivity | now constructor].
        -- destruct (IH (log w (ev_callback f (self gh) nfmsg {| nfa := nfa |}
                                            (data gh))))
             as (r & evs & Hrun & Hev).
           exists r, (ev_callback f (self gh) nfmsg {| nfa := nfa |} (data gh)
                      :: evs).
           rewrite Hrun. cbn [gh_list errno trace log].
           rewrite <- app_assoc. split; [reflexivity|].
           constructor; [exact Hd|].
           eapply Forall_impl; [|exact Hev]. intros e. apply dispatched_cons.
      * exists (-1), []. change (- ENODEV <? 0) with true. cbv iota.
        rewrite app_nil_r. split; [now destruct w | constructor].
    + exists (-1), []. change (- ENODEV <? 0) with true. cbv iota.
      rewrite app_nil_r. split; [now destruct w | constructor].
Qed.

Lemma requests_dispatched (l : list nflog_g_handle)
      (evs : list event) :
  Forall (fun e => exists msgs, dispatched l msgs e) evs -> requests evs = [].
Proof.
  induction 1 as [|e evs (msgs & nfmsg & nfa & gh & f & _ & _ & _ & ->) _ IH];
    [reflexivity | exact IH].
Qed.

Lemma printed_dispatched (l : list nflog_g_handle)
      (msgs : list (nfgenmsg * nfattr_table)) (evs : list event) :
  Forall (dispatched l msgs) evs ->
  Forall (fun m => printable {| nfa := snd m |}) msgs ->
  exists out, printed evs = Some out.
Proof.
  intros Hev Hp.
  induction Hev as [|e evs (nfmsg & nfa & gh & f & Hin & _ & _ & ->) _ IH];
    [now eexists|].
  cbn [printed]. rewrite Forall_forall in Hp.
  destruct (print_pkt_shape host host (Hp _ Hin))
    as (mark & line & rest & Hrun & _).
  cbn [snd] in Hrun. unfold test_cb. rewrite Hrun.
  destruct IH as (out & ->). now eexists.
Qed.

End MainFacts.

Section LoopFacts.

Context {host : Host} {env : Environment}.

(** The loop of [main] ends when [recv] ends it; it leaves the registry and
    [errno] as they are and adds callback events only. *)
Lemma main_loop_ends (results : list (Z * list (nfgenmsg * nfattr_table))) :
  recv_ends results ->
  forall p,
  exists p' evs,
    main_loop (env := test_callbacks env) results p = Some p'
    /\ session p'
       = {| gh_list := gh_list (session p); errno := errno (session p);
            trace := trace (session p) ++ evs |}
    /\ setup_calls p' = setup_calls p
    /\ perrors p' = perrors p
    /\ Forall (fun e => exists msgs, dispatched (gh_list (session p)) msgs e) evs.
Proof.
  intros (packets & rv & msgs & rest & -> & Hrv & Hpk).
  induction Hpk as [|[rv' msgs'] packets [Hpos Hprint] _ IH]; intros p.
  - exists p, []. cbn [app main_loop].
    assert (negb (rv =? 0) && (rv >=? 0) = false) as ->.
    { destruct (Z.eqb_spec rv 0); [reflexivity|]. cbn [negb andb].
      destruct (Z.geb_spec rv 0); [lia | reflexivity]. }
    rewrite app_nil_r. split; [reflexivity|].
    split; [now destruct (session p)|]. repeat split. constructor.
  - cbn [fst snd] in Hpos, Hprint. cbn [app main_loop].
    assert (negb (rv' =? 0) && (rv' >=? 0) = true) as ->.
    { destruct (Z.eqb_spec rv' 0); [lia|]. cbn [negb andb].
      destruct (Z.geb_spec rv' 0); [reflexivity | lia]. }
    cbv zeta.
    set (p1 := printf p (txt "pkt received (len=" ++ fmt_u rv' ++ txt ")" ++ nl)).
    destruct (handle_packet_events (env := test_callbacks env) msgs' (session p1))
      as (r & evs & Hrun & Hev).
    rewrite Hrun. cbn [trace]. rewrite skipn_length_app.
    destruct (printed_dispatched Hev Hprint) as (out & ->).
    destruct (IH (printf (set_session p1
                    {| gh_list := gh_list (session p1);
                       errno := errno (session p1);
                       trace := trace (session p1) ++ evs |}) out))
      as (p' & evs' & Hloop & Hsess & Hsetup & Hperr & Hev').
    exists p', (evs ++ evs'). split; [exact Hloop|].
    rewrite Hsess, Hsetup, Hperr. cbn. rewrite <- app_assoc.
    repeat split. apply Forall_app. split; [|exact Hev'].
    eapply Forall_impl; [|exact Hev]. intros e He. now exists msgs'.
Qed.

End LoopFacts.

Section Acked.

Context {host : Host} {env : Environment}.

Hypothesis Hack : kernel_acks.

Lemma cfg_msg_acked (w : world) (command : nfulnl_msg_config_cmds)
      (groupnum pf : Z) :
  __build_send_cfg_msg w command groupnum pf
  = (0, {| gh_list := gh_list w; errno := 0;
           trace := trace w
                    ++ [ev_nfnl_query (cfg_request command groupnum pf)] |}).
Proof.
  rewrite build_send_cfg_msg_spec. cbn zeta. now rewrite (proj1 Hack).
Qed.

Lemma bind_group_acked (w : world) (num : Z) :
  allocator_fresh ->
  find_gh (gh_list w) (u16 num) = None ->
  exists p,
    ~ In p (map self (gh_list w))
    /\ nflog_bind_group w num
       = (Some p,
          {| gh_list := {| self := p; id := u16 num; cb := None; data := 0 |}
                        :: gh_list w;
             errno := 0;
             trace := trace w
                      ++ [ev_nfnl_query
                            (cfg_request NFULNL_CFG_CMD_BIND (u16 num) 0)] |}).
Proof.
  intros Hfresh Hfind. unfold nflog_bind_group. rewrite Hfind.
  destruct (calloc_reply (trace w) (map self (gh_list w))) as [p|] eqn:Hp;
    [|now elim (proj2 Hack _ _ Hp)].
  exists p. split; [exact (Hfresh _ _ _ Hp)|].
  rewrite cfg_msg_acked. reflexivity.
Qed.

Lemma unbind_group_acked (w : world) (gh : Z) (g : nflog_g_handle) :
  deref (gh_list w) gh = Some g ->
  nflog_unbind_group w gh
  = Some (0, {| gh_list := del_gh (gh_list w) gh; errno := 0;
                trace := trace w
                         ++ [ev_nfnl_query
                               (cfg_request NFULNL_CFG_CMD_UNBIND (id g) 0)] |}).
Proof.
  intros Hd. unfold nflog_unbind_group. rewrite Hd, cfg_msg_acked. reflexivity.
Qed.

Lemma group_request_acked (w : world) (gh : Z) (g : nflog_g_handle)
      (attr : nfulnl_attr_config * cfg_payload) :
  deref (gh_list w) gh = Some g ->
  group_request w gh attr
  = Some (0, {| gh_list := gh_list w; errno := 0;
                trace := trace w
                         ++ [ev_nfnl_query
                               (nfnl_fill_hdr AF_UNSPEC (id g) NFULNL_MSG_CONFIG
                                  (Z.lor NLM_F_REQUEST NLM_F_ACK) attr)] |}).
Proof.
  intros Hd. rewrite (group_request_spec w gh _ Hd). cbn zeta.
  now rewrite (proj1 Hack).
Qed.

End Acked.

Lemma nflog_open_chain_empty {transport : Transport} (s s' : setup) (hp : Z)
      (hd : nflog_handle) :
  nflog_open s = (Some (hp, hd), s') -> h_gh_list hd = [].
Proof.
  unfold nflog_open. destruct (nfnl_open_reply _) as [n|]; [|discriminate].
  unfold nflog_open_nfnl.
  destruct (handle_calloc_reply _) as [h|]; [|discriminate].
  cbv zeta.
  destruct (nfnl_subsys_open_reply _ _) as [ssh|]; [|discriminate].
  destruct (_ <? 0); [discriminate|].
  now intros [= _ <- _].
Qed.

(** X24. A run of [main] in which [nflog_open] gives a handle, the kernel
    takes every request, the allocator has memory and gives fresh blocks,
    and [recv] delivers some datagrams that [print_pkt] can print and then
    0 or an error: [main] returns [EXIT_SUCCESS] and writes nothing with
    [perror].  The requests it has sent are, in order, PF_UNBIND and
    PF_BIND for AF_INET, BIND for the groups 0 and 100, the mode
    [NFULNL_COPY_PACKET] with range 0xffff for group 0, and UNBIND for the
    groups 100 and 0.  Every callback it has run in between is its own, for
    the handle of group 0 on a message of group 0, with NULL as user data:
    messages of group 100, which has no callback, reach none.  At the end
    the chain of groups is empty and the handle has been closed and freed
    once. *)
Theorem main_runs_to_completion {host : Host} {env : Environment}
        {transport : Transport} (callback : Z)
        (recv : Z -> list (Z * list (nfgenmsg * nfattr_table)))
        (p0 : process) (hp : Z) (hd : nflog_handle) (s1 : setup) :
  nflog_open (setup_calls p0) = (Some (hp, hd), s1) ->
  kernel_acks -> allocator_fresh ->
  recv_ends (recv (nflog_fd hd)) ->
  exists p' gh evs,
    main callback recv p0 = Some (EXIT_SUCCESS, p')
    /\ trace (session p') = trace (session p0) ++ evs
    /\ requests evs
       = [cfg_request NFULNL_CFG_CMD_PF_UNBIND 0 AF_INET;
          cfg_request NFULNL_CFG_CMD_PF_BIND 0 AF_INET;
          cfg_request NFULNL_CFG_CMD_BIND 0 0;
          cfg_request NFULNL_CFG_CMD_BIND 100 0;
          nfnl_fill_hdr AF_UNSPEC 0 NFULNL_MSG_CONFIG
            (Z.lor NLM_F_REQUEST NLM_F_ACK)
            (NFULA_CFG_MODE,
             nfulnl_msg_config_mode (htonl 65535) NFULNL_COPY_PACKET);
          cfg_request NFULNL_CFG_CMD_UNBIND 100 0;
          cfg_request NFULNL_CFG_CMD_UNBIND 0 0]
    /\ (forall f g m a d,
           In (ev_callback f g m a d) evs ->
           f = callback /\ g = gh /\ d = 0 /\ u16 (ntohs (res_id m)) = 0)
    /\ gh_list (session p') = []
    /\ calls (setup_calls p')
       = calls s1 ++ [ev_nfnl_close (nfnlh hd); ev_free hp]
    /\ perrors p' = perrors p0.
Proof.
  intros Hopen Hack Hfresh Hrecv.
  pose proof (nflog_open_chain_empty _ Hopen) as Hchain.
  unfold main. rewrite Hopen. cbv zeta.
  unfold nflog_unbind_pf, nflog_bind_pf. rewrite !(cfg_msg_acked Hack).
  change (0 <? 0) with false. cbv iota.
  cbn [session set_session printf set_setup gh_list set_gh_list trace errno
       setup_calls stdout perrors snd fst].
  rewrite Hchain.
  match goal with
  | |- context [nflog_bind_group ?w 0] =>
      destruct (@bind_group_acked _ _ Hack w 0 Hfresh eq_refl)
        as (gh & _ & ->)
  end.
  match goal with
  | |- context [nflog_bind_group ?w 100] =>
      destruct (@bind_group_acked _ _ Hack w 100 Hfresh eq_refl)
        as (gh100 & Hne & ->)
  end.
  cbn [gh_list map self In] in Hne.
  assert (Hgh : (gh100 =? gh) = false) by (apply Z.eqb_neq; intuition congruence).
  assert (Hgh' : (gh =? gh100) = false) by (apply Z.eqb_neq; intuition congruence).
  cbn [gh_list trace errno].
  unfold nflog_set_mode.
  match goal with
  | |- context [group_request ?w gh ?a] =>
      rewrite (@group_request_acked _ _ Hack w gh
                 {| self := gh; id := u16 0; cb := None; data := 0 |} a)
  end.
  2:{ cbn [gh_list deref self]. now rewrite Hgh, Z.eqb_refl. }
  cbn [fst snd gh_list trace errno id session set_session printf].
  change (0 <? 0) with false. cbv iota.
  match goal with
  | |- context [nflog_callback_register ?w gh ?f ?d] =>
      rewrite (@callback_register_spec w gh
                 {| self := gh; id := u16 0; cb := None; data := 0 |} f d)
  end.
  2:{ cbn [gh_list deref self]. now rewrite Hgh, Z.eqb_refl. }
  cbn [fst snd gh_list trace errno id session set_session printf set_gh_list map].
  unfold registered at 1 2. cbn [self]. rewrite Hgh, Z.eqb_refl.
  match goal with
  | |- context [main_loop _ ?p] =>
      destruct (main_loop_ends (env := env) Hrecv p)
        as (p2 & evs & -> & Hsess & Hsetup & Hperr & Hev)
  end.
  cbn [fst snd gh_list trace errno id session set_session printf set_gh_list
       set_setup setup_calls perrors] in Hsess, Hsetup, Hperr, Hev.
  cbn [session set_session printf].
  rewrite (@unbind_group_acked _ _ Hack _ gh100
             {| self := gh100; id := u16 100; cb := None; data := 0 |}).
  2:{ rewrite Hsess. cbn [gh_list deref self]. now rewrite Z.eqb_refl. }
  cbn [fst snd session set_session printf].
  rewrite (@unbind_group_acked _ _ Hack _ gh
             {| self := gh; id := u16 0; cb := Some callback; data := 0 |}).
  2:{ rewrite Hsess. cbn [gh_list del_gh deref self].
      rewrite Z.eqb_refl. cbn [deref self]. now rewrite Z.eqb_refl. }
  unfold nflog_close.
  cbn [fst snd session set_session printf set_setup setup_calls perrors
       gh_list trace errno id].
  rewrite Hsess, Hsetup.
  cbn [gh_list trace errno del_gh self]. rewrite !Z.eqb_refl.
  cbn [del_gh self]. rewrite Z.eqb_refl.
  eexists.
  exists gh.
  exists ([ev_nfnl_query (cfg_request NFULNL_CFG_CMD_PF_UNBIND 0 (u16 AF_INET));
           ev_nfnl_query (cfg_request NFULNL_CFG_CMD_PF_BIND 0 (u16 AF_INET));
           ev_nfnl_query (cfg_request NFULNL_CFG_CMD_BIND (u16 0) 0);
           ev_nfnl_query (cfg_request NFULNL_CFG_CMD_BIND (u16 100) 0);
           ev_nfnl_query
             (nfnl_fill_hdr AF_UNSPEC (u16 0) NFULNL_MSG_CONFIG
                (Z.lor NLM_F_REQUEST NLM_F_ACK)
                (NFULA_CFG_MODE,
                 nfulnl_msg_config_mode (htonl (u32 65535))
                   (u8 NFULNL_COPY_PACKET)))]
          ++ evs
          ++ [ev_nfnl_query (cfg_request NFULNL_CFG_CMD_UNBIND (u16 100) 0);
              ev_nfnl_query (cfg_request NFULNL_CFG_CMD_UNBIND (u16 0) 0)]).
  split; [reflexivity|].
  cbn [session setup_calls perrors trace gh_list calls call].
  split; [now rewrite <- !app_assoc|].
  split.
  { rewrite !requests_app, (requests_dispatched Hev). reflexivity. }
  split.
  { intros f g m a d Hin.
    apply in_app_or in Hin as [Hin|Hin];
      [cbn [In] in Hin; intuition discriminate|].
    apply in_app_or in Hin as [Hin|Hin];
      [|cbn [In] in Hin; intuition discriminate].
    rewrite Forall_forall in Hev.
    destruct (Hev _ Hin) as (msgs & nfmsg & nfa & x & f' & _ & Hfind & Hcb & He).
    injection He as -> -> -> _ ->.
    cbn [find_gh id] in Hfind.
    destruct (u16 100 =? _); [injection Hfind as <-; discriminate Hcb|].
    destruct (Z.eqb_spec (u16 0) (u16 (ntohs (res_id nfmsg)))) as [E|N];
      [|discriminate Hfind].
    injection Hfind as <-. cbn [cb self data] in *.
    injection Hcb as <-. now rewrite <- E. }
  split; [reflexivity|]. split; [|exact Hperr].
  unfold set_setup, call. cbn [calls setup_calls nflog_errno].
  now rewrite <- app_assoc.
Qed.

Lemma main_runs_to_completion_witness :
  let recv := fun _ : Z =>
    [(20, [({| nfgen_family := 2; version := 0; res_id := 0 |}, nfa_none)]);
     (0, [])] in
  let p0 := {| session := world0;
               setup_calls := {| calls := []; nflog_errno := 0 |};
               stdout := []; perrors := [] |} in
  exists p',
    main (host := little_endian) (env := kernel_ack)
         (transport := transport_with 0) 77 recv p0
    = Some (EXIT_SUCCESS, p')
    /\ gh_list (session p') = []
    /\ perrors p' = [].
Proof.
  intros recv p0.
  destruct (main_runs_to_completion (host := little_endian) (env := kernel_ack)
              (transport := transport_with 0) 77 recv p0 (hp := 30)
              (hd := {| nfnlh := 10; nfnlssh := 20; h_gh_list := [] |})
              eq_refl)
    as (p' & gh & evs & Hrun & _ & _ & _ & Hlist & _ & Hperr).
  - split; [reflexivity | discriminate].
  - exact kernel_ack_fresh.
  - exists [(20, [({| nfgen_family := 2; version := 0; res_id := 0 |},
                   nfa_none)])], 0, [], [].
    split; [reflexivity|]. split; [lia|].
    constructor; [|constructor]. split; [cbn; lia|].
    constructor; [|constructor]. split; intros; discriminate.
  - exists p'. split; [exact Hrun|]. split; [exact Hlist | exact Hperr].
Defined.

(** X25. When [main] ends with the exit status 1 it has written one message
    with [perror] and has called neither [nfnl_close] nor [free] itself:
    the calls on the transport are those of [nflog_open] and no more, so a
    handle that was opened is left open at the exit.  What the program had
    printed before stays.  When it is [nflog_open] that failed, the message
    is [nflog_open] and nothing was printed or sent. *)
Theorem main_failure_exit {host : Host} {env : Environment}
        {transport : Transport} (callback : Z)
        (recv : Z -> list (Z * list (nfgenmsg * nfattr_table)))
        (p0 p' : process) :
  main callback recv p0 = Some (1, p') ->
  setup_calls p' = snd (nflog_open (setup_calls p0))
  /\ (exists out, stdout p' = stdout p0 ++ out)
  /\ (exists msg, perrors p' = perrors p0 ++ [msg])
  /\ (fst (nflog_open (setup_calls p0)) = None ->
      session p' = session p0 /\ stdout p' = stdout p0
      /\ perrors p' = perrors p0 ++ ["nflog_open"%string]).
Proof.
  unfold main. destruct (nflog_open (setup_calls p0)) as [[h|] s].
  2:{ intros [= <-]. cbn. repeat split; try now eexists.
      exists []. now rewrite app_nil_r. }
  cbv zeta.
  repeat match goal with
         | |- context [let (_, _) := ?x in _] => destruct x
         | |- context [if ?b then _ else _] => destruct b
         | |- context [match ?x with Some _ => _ | None => _ end] => destruct x
         end;
    try discriminate;
    intros [= <-];
    cbn [setup_calls perror printf set_session set_setup stdout perrors snd fst];
    (split; [reflexivity|]); rewrite <- ?app_assoc;
    (split; [now eexists|]); (split; [now eexists | discriminate]).
Qed.

Lemma main_failure_exit_witness :
  let p0 := {| session := world0;
               setup_calls := {| calls := []; nflog_errno := 0 |};
               stdout := []; perrors := [] |} in
  exists p',
    main (host := little_endian) (env := kernel_nack)
         (transport := transport_with 0) 77 (fun _ => []) p0
    = Some (1, p')
    /\ calls (setup_calls p')
       = [ev_nfnl_open; ev_nfnl_unset_sequence_tracking 10; ev_calloc;
          ev_nfnl_subsys_open 10 NFNL_SUBSYS_ULOG NFULNL_MSG_MAX 0;
          ev_nfnl_callback_register 20 NFULNL_MSG_PACKET 30]
    /\ perrors p' = ["nflog_unbind_pf"%string].
Proof.
  intros p0. eexists. split; [reflexivity|].
  split.
  - now rewrite (proj1 (main_failure_exit (host := little_endian)
                          (env := kernel_nack) (transport := transport_with 0)
                          77 (fun _ => []) p0 eq_refl)).
  - reflexivity.
Defined.
